(** * A shallow embedding of the file-transfer pipeline

    [sender.py] generates random blobs, queues them, and a pool of workers
    saves each one and uploads it with a SHA-256 checksum; [server.py]
    validates an upload, optionally verifies the checksum and stores the
    blob.  Python values are modelled as follows:

    - [bytes] / [bytearray] : [list byte];
    - [str]                 : [string], read as the UTF-8 encoding of the text;
    - [int]                 : [Z];
    - a file system         : [gmap string (list byte)], path to contents;
    - an exception          : a constructor of [exn], the [Raise] branch of a
                              result. *)

From Stdlib Require Import ZArith NArith List Ascii String Strings.Byte Lia.
From stdpp Require Import base option list gmap strings.

Import ListNotations.
Local Open Scope string_scope.
Local Open Scope list_scope.
Local Open Scope Z_scope.

Abbreviation bytes := (list byte).

(** ** Results and exceptions *)

Inductive exn :=
| StopIteration
| ValueError
| IndexError
| KeyError
| TypeError
| AttributeError
| JSONDecodeError
| ContentTypeError
| ClientError
| OSError
| CancelledError.

Inductive result (A : Type) :=
| Ok (a : A)
| Raise (e : exn).
Arguments Ok {A} a.
Arguments Raise {A} e.

#[global] Instance result_ret : MRet result := fun _ a => Ok a.
#[global] Instance result_bind : MBind result := fun _ _ k r =>
  match r with
  | Ok a => k a
  | Raise e => Raise e
  end.

(** Code that logs, writes files or posts threads a state [S] and may raise. *)
Definition io (S A : Type) : Type := S -> S * result A.

#[global] Instance io_ret {S} : MRet (io S) := fun _ a s => (s, Ok a).
#[global] Instance io_bind {S} : MBind (io S) := fun _ _ k m s =>
  match m s with
  | (s', Ok a) => k a s'
  | (s', Raise e) => (s', Raise e)
  end.

Definition raise {S A} (e : exn) : io S A := fun s => (s, Raise e).
Definition lift {S A} (r : result A) : io S A := fun s => (s, r).
Definition modify {S} (f : S -> S) : io S unit := fun s => (f s, Ok tt).

(** ** hashlib.sha256 *)

Module Sha256.

Definition w32 (x : Z) : Z := x mod 2 ^ 32.
Definition add32 (x y : Z) : Z := w32 (x + y).
Definition rotr (n x : Z) : Z :=
  Z.lor (Z.shiftr x n) (w32 (Z.shiftl x (32 - n))).
Definition shr (n x : Z) : Z := Z.shiftr x n.
Definition not32 (x : Z) : Z := Z.lxor x (2 ^ 32 - 1).

Definition Ch (x y z : Z) : Z := Z.lxor (Z.land x y) (Z.land (not32 x) z).
Definition Maj (x y z : Z) : Z :=
  Z.lxor (Z.lxor (Z.land x y) (Z.land x z)) (Z.land y z).
Definition Sigma0 (x : Z) : Z := Z.lxor (Z.lxor (rotr 2 x) (rotr 13 x)) (rotr 22 x).
Definition Sigma1 (x : Z) : Z := Z.lxor (Z.lxor (rotr 6 x) (rotr 11 x)) (rotr 25 x).
Definition sigma0 (x : Z) : Z := Z.lxor (Z.lxor (rotr 7 x) (rotr 18 x)) (shr 3 x).
Definition sigma1 (x : Z) : Z := Z.lxor (Z.lxor (rotr 17 x) (rotr 19 x)) (shr 10 x).

(** The first [n] primes, by trial division. *)
Definition is_prime (p : Z) : bool :=
  forallb (fun d => negb (p mod d =? 0)) (map Z.of_nat (seq 2 (Z.to_nat p - 2))).

Definition primes (n : nat) : list Z :=
  firstn n (filter is_prime (map Z.of_nat (seq 2 310))).

(** The largest [r] in [[lo, hi)] with [r ^ 3 <= n]. *)
Fixpoint cube_root (fuel : nat) (n lo hi : Z) : Z :=
  match fuel with
  | O => lo
  | S fuel' =>
      let mid := (lo + hi) / 2 in
      if mid =? lo then lo
      else if mid * mid * mid <=? n then cube_root fuel' n mid hi
      else cube_root fuel' n lo mid
  end.

(** The round constants: the first 32 bits of the fractional parts of the
    cube roots of the first 64 primes. *)
Definition K : list Z :=
  Eval vm_compute in
    map (fun p => w32 (cube_root 64 (p * 2 ^ 96) 0 (2 ^ 36))) (primes 64).

(** The initial hash value: the same of the square roots of the first 8
    primes. *)
Definition H0 : list Z :=
  Eval vm_compute in map (fun p => w32 (Z.sqrt (p * 2 ^ 64))) (primes 8).

Definition byte_val (b : byte) : Z := Z.of_N (Byte.to_N b).

Definition byte_of_Z (z : Z) : byte :=
  match Byte.of_N (Z.to_N (z mod 256)) with
  | Some b => b
  | None => x00
  end.

(** Big-endian encoding of [z] on [n] bytes. *)
Fixpoint be_bytes (n : nat) (z : Z) : bytes :=
  match n with
  | O => []
  | S n' => byte_of_Z (Z.shiftr z (8 * Z.of_nat n')) :: be_bytes n' z
  end.

(** The message followed by the bit 1, zeros up to 56 mod 64 bytes, and the
    bit length on 64 bits. *)
Definition pad (msg : bytes) : bytes :=
  let len := Z.of_nat (length msg) in
  let zeros := Z.to_nat ((55 - len) mod 64) in
  msg ++ x80 :: repeat x00 zeros ++ be_bytes 8 (8 * len).

Fixpoint be_words (bs : bytes) : list Z :=
  match bs with
  | a :: b :: c :: d :: rest =>
      (byte_val a * 2 ^ 24 + byte_val b * 2 ^ 16 + byte_val c * 2 ^ 8 + byte_val d)
        :: be_words rest
  | _ => []
  end.

(** The message schedule, most recent word first: [ws] holds W[t-1], W[t-2], ... *)
Fixpoint schedule (n : nat) (ws : list Z) : list Z :=
  match n with
  | O => ws
  | S n' =>
      let w := add32 (add32 (sigma1 (nth 1 ws 0)) (nth 6 ws 0))
                     (add32 (sigma0 (nth 14 ws 0)) (nth 15 ws 0)) in
      schedule n' (w :: ws)
  end.

Record regs := Regs { ra : Z; rb : Z; rc : Z; rd : Z; re : Z; rf : Z; rg : Z; rh : Z }.

Definition round (s : regs) (kw : Z * Z) : regs :=
  let '(k, w) := kw in
  let t1 := add32 (add32 (add32 (rh s) (Sigma1 (re s))) (Ch (re s) (rf s) (rg s)))
                  (add32 k w) in
  let t2 := add32 (Sigma0 (ra s)) (Maj (ra s) (rb s) (rc s)) in
  Regs (add32 t1 t2) (ra s) (rb s) (rc s) (add32 (rd s) t1) (re s) (rf s) (rg s).

Definition compress (h : regs) (block : list Z) : regs :=
  let ws := rev (schedule 48 (rev block)) in
  let s := fold_left round (combine K ws) h in
  Regs (add32 (ra h) (ra s)) (add32 (rb h) (rb s)) (add32 (rc h) (rc s))
       (add32 (rd h) (rd s)) (add32 (re h) (re s)) (add32 (rf h) (rf s))
       (add32 (rg h) (rg s)) (add32 (rh h) (rh s)).

(** Consumes the padded message sixteen words at a time. *)
Fixpoint blocks (fuel : nat) (h : regs) (ws : list Z) : regs :=
  match fuel, ws with
  | S fuel', _ :: _ => blocks fuel' (compress h (firstn 16 ws)) (skipn 16 ws)
  | _, _ => h
  end.

Definition init : regs :=
  Regs (nth 0 H0 0) (nth 1 H0 0) (nth 2 H0 0) (nth 3 H0 0)
       (nth 4 H0 0) (nth 5 H0 0) (nth 6 H0 0) (nth 7 H0 0).

Definition digest (msg : bytes) : bytes :=
  let ws := be_words (pad msg) in
  let h := blocks (length ws) init ws in
  flat_map (be_bytes 4) [ra h; rb h; rc h; rd h; re h; rf h; rg h; rh h].

Definition hex_digit (z : Z) : ascii :=
  ascii_of_N (Z.to_N (if z <? 10 then 48 + z else 87 + z)).

Definition hex_byte (b : byte) : string :=
  String (hex_digit (byte_val b / 16)) (String (hex_digit (byte_val b mod 16)) EmptyString).

Fixpoint hex (bs : bytes) : string :=
  match bs with
  | [] => EmptyString
  | b :: rest => hex_byte b +:+ hex rest
  end.

(** [sha256(blob).hexdigest()] *)
Definition hexdigest (msg : bytes) : string := hex (digest msg).

End Sha256.

(** ** Text helpers *)

Definition code (c : ascii) : N := N_of_ascii c.

(** The bytes of an ASCII text. *)
Definition bytes_of_string (s : string) : bytes := list_byte_of_string s.

(** The double quote, and a text with every apostrophe turned into one (to
    write JSON texts down). *)
Definition dquote : ascii := ascii_of_N 34.

Fixpoint dq (s : string) : string :=
  match s with
  | EmptyString => EmptyString
  | String c r => String (if (code c =? 39)%N then dquote else c) (dq r)
  end.

Fixpoint strip_prefix (p s : string) : option string :=
  match p, s with
  | EmptyString, _ => Some s
  | String a p', String b s' => if Ascii.eqb a b then strip_prefix p' s' else None
  | String _ _, EmptyString => None
  end.

Definition startswith (s p : string) : bool :=
  match strip_prefix p s with Some _ => true | None => false end.

(** [sub in s] for two [str]. *)
Fixpoint contains (sub s : string) : bool :=
  startswith s sub ||
  match s with
  | EmptyString => false
  | String _ s' => contains sub s'
  end.

Definition is_digit (c : ascii) : bool := (48 <=? code c)%N && (code c <=? 57)%N.

Definition hex_val (c : ascii) : option N :=
  let n := code c in
  if (48 <=? n)%N && (n <=? 57)%N then Some (n - 48)%N
  else if (97 <=? n)%N && (n <=? 102)%N then Some (n - 87)%N
  else if (65 <=? n)%N && (n <=? 70)%N then Some (n - 55)%N
  else None.

Fixpoint span_digits (s : string) : string * string :=
  match s with
  | String c r =>
      if is_digit c then let '(ds, rest) := span_digits r in (String c ds, rest)
      else (EmptyString, s)
  | EmptyString => (EmptyString, EmptyString)
  end.

Fixpoint decimal_value (acc : Z) (ds : string) : Z :=
  match ds with
  | String c r => decimal_value (10 * acc + Z.of_N (code c - 48)) r
  | EmptyString => acc
  end.

(** [str(n)] for a non-negative [int]. *)
Fixpoint decimal_digits (fuel : nat) (n : N) (acc : string) : string :=
  match fuel with
  | O => acc
  | S fuel' =>
      let acc' := String (ascii_of_N (48 + n mod 10)) acc in
      if (n <? 10)%N then acc' else decimal_digits fuel' (n / 10) acc'
  end.

Definition str_of_nat (n : nat) : string :=
  decimal_digits (S n) (N.of_nat n) EmptyString.

(** The UTF-8 encoding of one code point (surrogates included, on three
    bytes, so that every [chr] has an image). *)
Definition utf8_encode (cp : N) : string :=
  let ch (n : N) := ascii_of_N n in
  let cont (n : N) := ch (128 + n mod 64)%N in
  if (cp <? 128)%N then String (ch cp) EmptyString
  else if (cp <? 2048)%N then String (ch (192 + cp / 64)%N) (String (cont cp) EmptyString)
  else if (cp <? 65536)%N then
    String (ch (224 + cp / 4096)%N) (String (cont (cp / 64)%N) (String (cont cp) EmptyString))
  else
    String (ch (240 + cp / 262144)%N)
      (String (cont (cp / 4096)%N) (String (cont (cp / 64)%N) (String (cont cp) EmptyString))).

(** The code points of a UTF-8 string. *)
Fixpoint utf8_decode (s : string) : list N :=
  match s with
  | EmptyString => []
  | String a r =>
      let n := code a in
      let low (c : ascii) := (code c mod 64)%N in
      if (n <? 192)%N then n :: utf8_decode r
      else match r with
      | String b r1 =>
          if (n <? 224)%N then ((n mod 32) * 64 + low b)%N :: utf8_decode r1
          else match r1 with
          | String c r2 =>
              if (n <? 240)%N then
                ((n mod 16) * 4096 + low b * 64 + low c)%N :: utf8_decode r2
              else match r2 with
              | String d r3 =>
                  ((n mod 8) * 262144 + low b * 4096 + low c * 64 + low d)%N
                    :: utf8_decode r3
              | EmptyString => [n]
              end
          | EmptyString => [n]
          end
      | EmptyString => [n]
      end
  end.

(** Printable ASCII other than the double quote and the backslash: the
    characters JSON writes in a string as they are. *)
Definition plain_char (c : ascii) : bool :=
  (32 <=? code c)%N && (code c <=? 126)%N
  && negb (code c =? 34)%N && negb (code c =? 92)%N.

Fixpoint plain (s : string) : bool :=
  match s with
  | EmptyString => true
  | String c r => plain_char c && plain r
  end.

(** ** Dictionaries with [str] keys

    Entries in insertion order; [d[k]] reads the first entry for [k], which
    is also what a multidict returns. *)

Section Dict.
Context {V : Type}.

(** [d[k] = v] *)
Fixpoint dict_set (k : string) (v : V) (d : list (string * V)) : list (string * V) :=
  match d with
  | [] => [(k, v)]
  | (k', v') :: d' =>
      if String.eqb k k' then (k, v) :: d' else (k', v') :: dict_set k v d'
  end.

(** [d.get(k)] *)
Fixpoint dict_get (k : string) (d : list (string * V)) : option V :=
  match d with
  | [] => None
  | (k', v) :: d' => if String.eqb k k' then Some v else dict_get k d'
  end.

(** [k in d] *)
Definition dict_has (k : string) (d : list (string * V)) : bool :=
  match dict_get k d with Some _ => true | None => false end.

(** [d.keys()] *)
Definition dict_keys (d : list (string * V)) : list string := map fst d.
End Dict.

(** ** json *)

Module Json.

(** What [json.loads] builds.  A [dict] keeps one entry per key, in
    insertion order; a float is kept as its lexeme. *)
#[warnings="-register-all"]
Inductive json :=
| JNull
| JBool (b : bool)
| JInt (z : Z)
| JFloat (lexeme : string)
| JStr (s : string)
| JArr (items : list json)
| JObj (fields : list (string * json)).


Definition is_ws (c : ascii) : bool :=
  let n := code c in
  (n =? 32)%N || (n =? 9)%N || (n =? 10)%N || (n =? 13)%N.

Fixpoint skip_ws (s : string) : string :=
  match s with
  | String c r => if is_ws c then skip_ws r else s
  | EmptyString => EmptyString
  end.

(** Four hexadecimal digits. *)
Definition hex4 (s : string) : option (N * string) :=
  match s with
  | String a (String b (String c (String d rest))) =>
      match hex_val a, hex_val b, hex_val c, hex_val d with
      | Some x, Some y, Some z, Some w => Some (((x * 16 + y) * 16 + z) * 16 + w, rest)%N
      | _, _, _, _ => None
      end
  | _ => None
  end.

Definition backslash (c : ascii) : option ascii :=
  let n := code c in
  if (n =? 34)%N then Some c
  else if (n =? 92)%N then Some c
  else if (n =? 47)%N then Some c
  else if (n =? 98)%N then Some (ascii_of_N 8)
  else if (n =? 102)%N then Some (ascii_of_N 12)
  else if (n =? 110)%N then Some (ascii_of_N 10)
  else if (n =? 114)%N then Some (ascii_of_N 13)
  else if (n =? 116)%N then Some (ascii_of_N 9)
  else None.

(** A low surrogate escape following a high surrogate. *)
Definition low_surrogate (s : string) : option (N * string) :=
  match strip_prefix "\u" s with
  | Some r =>
      match hex4 r with
      | Some (lo, rest) =>
          if (56320 <=? lo)%N && (lo <=? 57343)%N then Some (lo, rest) else None
      | None => None
      end
  | None => None
  end.

(** [scanstring], strict: the text after an opening quote up to the closing
    one, escapes decoded. *)
Fixpoint scanstring (fuel : nat) (s : string) : option (string * string) :=
  match fuel with
  | O => None
  | S fuel' =>
      match s with
      | EmptyString => None
      | String c r =>
          if (code c =? 34)%N then Some (EmptyString, r)
          else if (code c =? 92)%N then
            match r with
            | EmptyString => None
            | String e r' =>
                if (code e =? 117)%N then
                  match hex4 r' with
                  | None => None
                  | Some (hi, r'') =>
                      let '(cp, rest) :=
                        match (if (55296 <=? hi)%N && (hi <=? 56319)%N
                               then low_surrogate r'' else None) with
                        | Some (lo, rest) =>
                            (65536 + ((hi - 55296) * 1024 + (lo - 56320)), rest)%N
                        | None => (hi, r'')
                        end in
                      '(str, rest') ← scanstring fuel' rest;
                      Some (utf8_encode cp +:+ str, rest')
                  end
                else
                  ch ← backslash e;
                  '(str, rest) ← scanstring fuel' r';
                  Some (String ch str, rest)
            end
          else if (code c <? 32)%N then None
          else
            '(str, rest) ← scanstring fuel' r;
            Some (String c str, rest)
      end
  end.

(** [match_number]: an integer part, then a fraction and an exponent when
    each is complete. *)
Definition match_number (s : string) : option (json * string) :=
  let '(neg, s1) :=
    match strip_prefix "-" s with Some r => (true, r) | None => (false, s) end in
  int_part ←
    match s1 with
    | String c r =>
        if (code c =? 48)%N then Some (String c EmptyString, r)
        else if is_digit c then Some (span_digits s1)
        else None
    | EmptyString => None
    end;
  let '(ds, s2) := int_part in
  let '(frac, s3) :=
    match s2 with
    | String dot r =>
        if (code dot =? 46)%N then
          match span_digits r with
          | (EmptyString, _) => (EmptyString, s2)
          | (fs, rest) => (String dot fs, rest)
          end
        else (EmptyString, s2)
    | EmptyString => (EmptyString, s2)
    end in
  let '(exp, s4) :=
    match s3 with
    | String e r =>
        if (code e =? 101)%N || (code e =? 69)%N then
          let '(sign, r') :=
            match r with
            | String sg r1 =>
                if (code sg =? 43)%N || (code sg =? 45)%N
                then (String sg EmptyString, r1) else (EmptyString, r)
            | EmptyString => (EmptyString, r)
            end in
          match span_digits r' with
          | (EmptyString, _) => (EmptyString, s3)
          | (es, rest) => (String e (sign +:+ es), rest)
          end
        else (EmptyString, s3)
    | EmptyString => (EmptyString, s3)
    end in
  let sign := if neg then "-" else EmptyString in
  match frac, exp with
  | EmptyString, EmptyString =>
      Some (JInt (if neg then - decimal_value 0 ds else decimal_value 0 ds), s4)
  | _, _ => Some (JFloat (sign +:+ ds +:+ frac +:+ exp), s4)
  end.

(** [scan_once] with the object and array loops it calls. *)
Fixpoint scan_once (fuel : nat) (s : string) : option (json * string) :=
  match fuel with
  | O => None
  | S fuel' =>
      match s with
      | EmptyString => None
      | String c r =>
          if (code c =? 34)%N then
            '(str, rest) ← scanstring (String.length r) r;
            Some (JStr str, rest)
          else if (code c =? 123)%N then
            let r' := skip_ws r in
            match strip_prefix "}" r' with
            | Some rest => Some (JObj [], rest)
            | None => object_items fuel' [] r'
            end
          else if (code c =? 91)%N then
            let r' := skip_ws r in
            match strip_prefix "]" r' with
            | Some rest => Some (JArr [], rest)
            | None => array_items fuel' [] r'
            end
          else
            match strip_prefix "null" s, strip_prefix "true" s, strip_prefix "false" s with
            | Some rest, _, _ => Some (JNull, rest)
            | _, Some rest, _ => Some (JBool true, rest)
            | _, _, Some rest => Some (JBool false, rest)
            | None, None, None =>
                match strip_prefix "NaN" s, strip_prefix "Infinity" s,
                      strip_prefix "-Infinity" s with
                | Some rest, _, _ => Some (JFloat "NaN", rest)
                | _, Some rest, _ => Some (JFloat "Infinity", rest)
                | _, _, Some rest => Some (JFloat "-Infinity", rest)
                | None, None, None => match_number s
                end
            end
      end
  end
with object_items (fuel : nat) (acc : list (string * json)) (s : string)
  : option (json * string) :=
  match fuel with
  | O => None
  | S fuel' =>
      after_quote ← strip_prefix (dq "'") s;
      '(key, s1) ← scanstring (String.length after_quote) after_quote;
      s2 ← strip_prefix ":" (skip_ws s1);
      '(val, s3) ← scan_once fuel' (skip_ws s2);
      let acc' := dict_set key val acc in
      let s4 := skip_ws s3 in
      match strip_prefix "}" s4 with
      | Some rest => Some (JObj acc', rest)
      | None =>
          s5 ← strip_prefix "," s4;
          object_items fuel' acc' (skip_ws s5)
      end
  end
with array_items (fuel : nat) (acc : list json) (s : string)
  : option (json * string) :=
  match fuel with
  | O => None
  | S fuel' =>
      '(val, s1) ← scan_once fuel' s;
      let acc' := (acc ++ [val])%list in
      let s2 := skip_ws s1 in
      match strip_prefix "]" s2 with
      | Some rest => Some (JArr acc', rest)
      | None =>
          s3 ← strip_prefix "," s2;
          array_items fuel' acc' (skip_ws s3)
      end
  end.

(** [json.loads(s)] for a [str]; [None] stands for [JSONDecodeError]. *)
Definition loads (s : string) : option json :=
  '(v, rest) ← scan_once (S (String.length s)) (skip_ws s);
  match skip_ws rest with
  | EmptyString => Some v
  | String _ _ => None
  end.

Definition hex4_of (n : N) : string :=
  let d (k : N) := Sha256.hex_digit (Z.of_N (k mod 16)) in
  String (d (n / 4096)%N) (String (d (n / 256)%N) (String (d (n / 16)%N)
    (String (d n) EmptyString))).

(** One code point, as [encode_basestring_ascii] writes it. *)
Definition escape_char (cp : N) : string :=
  if (cp =? 34)%N then dq "\'"
  else if (cp =? 92)%N then "\\"
  else if (cp =? 10)%N then "\n"
  else if (cp =? 13)%N then "\r"
  else if (cp =? 9)%N then "\t"
  else if (cp =? 12)%N then "\f"
  else if (cp =? 8)%N then "\b"
  else if (32 <=? cp)%N && (cp <=? 126)%N then String (ascii_of_N cp) EmptyString
  else if (cp <? 65536)%N then "\u" +:+ hex4_of cp
  else
    let v := (cp - 65536)%N in
    "\u" +:+ hex4_of (55296 + (v / 1024) mod 1024)%N
      +:+ "\u" +:+ hex4_of (56320 + v mod 1024)%N.

Definition encode_string (s : string) : string :=
  dq "'" +:+ fold_right (fun cp acc => escape_char cp +:+ acc) (dq "'") (utf8_decode s).

Fixpoint dumps_items (d : list (string * string)) : string :=
  match d with
  | [] => EmptyString
  | [(k, v)] => encode_string k +:+ ": " +:+ encode_string v
  | (k, v) :: d' => encode_string k +:+ ": " +:+ encode_string v +:+ ", " +:+ dumps_items d'
  end.

(** [j[key]] for a [str] key. *)
Definition getitem (j : json) (key : string) : result json :=
  match j with
  | JObj d =>
      match dict_get key d with
      | Some v => Ok v
      | None => Raise KeyError
      end
  | _ => Raise TypeError
  end.

(** [json.dumps(d)] for a [dict] from [str] to [str]. *)
Definition dumps (d : list (string * string)) : string :=
  "{" +:+ dumps_items d +:+ "}".

End Json.

(** ** os.path and the file system *)

Fixpoint endswith_slash (s : string) : bool :=
  match s with
  | EmptyString => false
  | String c EmptyString => (code c =? 47)%N
  | String _ r => endswith_slash r
  end.

(** [os.path.join(a, b)] (posixpath). *)
Definition path_join (a b : string) : string :=
  if startswith b "/" then b
  else if String.eqb a EmptyString || endswith_slash a then a +:+ b
  else a +:+ "/" +:+ b.

(** [with open(path, 'wb') as f: f.write(blob)] *)
Definition write_file (path : string) (blob : bytes) (fs : gmap string bytes)
  : gmap string bytes := <[path := blob]> fs.

(** ** multipart/form-data

    A part without a file name arrives as text, a part with one as a file. *)

Inductive field :=
| FStr (text : string)
| FFile (content : bytes).

Record request := { target : string; form : list (string * field) }.

(** ** asyncio.Queue

    The queue as the asyncio documentation and [asyncio/queues.py] give it: a
    FIFO of at most [maxsize] items (unbounded when [maxsize <= 0]) and a
    count of the items put and not yet marked done.  A call that would
    suspend its caller returns [None]: the caller stays where it is. *)

Module Queue.

Record t := {
  maxsize : Z;
  items : list bytes;
  unfinished_tasks : Z
}.

(** [asyncio.Queue(maxsize)] *)
Definition create (maxsize : Z) : t :=
  {| maxsize := maxsize; items := []; unfinished_tasks := 0 |}.

Definition qsize (q : t) : Z := Z.of_nat (length (items q)).

Definition full (q : t) : bool :=
  if maxsize q <=? 0 then false else maxsize q <=? qsize q.

(** [await queue.put(item)] *)
Definition put (item : bytes) (q : t) : option t :=
  if full q then None
  else Some {| maxsize := maxsize q; items := items q ++ [item];
               unfinished_tasks := unfinished_tasks q + 1 |}.

(** [await queue.get()] *)
Definition get (q : t) : option (bytes * t) :=
  match items q with
  | [] => None
  | item :: rest =>
      Some (item, {| maxsize := maxsize q; items := rest;
                     unfinished_tasks := unfinished_tasks q |})
  end.

(** [queue.task_done()] *)
Definition task_done (q : t) : result t :=
  if unfinished_tasks q <=? 0 then Raise ValueError
  else Ok {| maxsize := maxsize q; items := items q;
             unfinished_tasks := unfinished_tasks q - 1 |}.

(** [await queue.join()] returns when this holds. *)
Definition joined (q : t) : bool := unfinished_tasks q <=? 0.

End Queue.

(** ** sender.py *)

Module Sender.

Record SenderConfig := {
  num_files : Z;
  num_workers : Z;
  url : string;
  save_dir : string;
  inject_bad_checksums : bool
}.

(** *** Randomness

    Every call that consumes entropy takes what it drew as an argument. *)

(** One [__next__]: the integer behind [random.randrange] and the bytes
    behind [os.urandom]. *)
Record blob_draw := { raw_size : Z; raw_bytes : nat -> byte }.

(** One [send_blob]: the 128 bits behind [uuid.uuid4()] and the 53 bits
    behind [random.random()], which returns [coin / 2^53]. *)
Record send_draw := { uuid_bits : N; coin : N }.

(** [random.randrange(a, b)] *)
Definition randrange (a b raw : Z) : result Z :=
  if b <=? a then Raise ValueError else Ok (a + raw mod (b - a)).

(** [os.urandom(size)] *)
Definition urandom (size : Z) (raw : nat -> byte) : result bytes :=
  if size <? 0 then Raise ValueError else Ok (map raw (seq 0 (Z.to_nat size))).

(** [random.random() < 0.1]: no double lies between 1/10 and the double
    [0.1], so the test on [coin / 2^53] is [10 * coin < 2^53]. *)
Definition below_tenth (coin : N) : bool := (10 * coin <? 2 ^ 53)%N.

(** [str(uuid.uuid4())]: variant and version bits set, 32 hexadecimal
    digits grouped 8-4-4-4-12. *)
Definition uuid4 (bits : N) : string :=
  let n := (bits mod 2 ^ 128)%N in
  let n := N.ldiff n (N.shiftl 0xc000 48) in
  let n := N.lor n (N.shiftl 0x8000 48) in
  let n := N.ldiff n (N.shiftl 0xf000 64) in
  let n := N.lor n (N.shiftl 4 76) in
  let h := Sha256.hex (Sha256.be_bytes 16 (Z.of_N n)) in
  String.substring 0 8 h +:+ "-" +:+ String.substring 8 4 h +:+ "-"
    +:+ String.substring 12 4 h +:+ "-" +:+ String.substring 16 4 h +:+ "-"
    +:+ String.substring 20 12 h.

(** *** RandomBlobProvider *)

Record RandomBlobProvider := {
  count : Z;
  N : Z;
  min_size : Z;
  max_size : Z
}.

(** [__init__] *)
Definition init (min_size max_size N : Z) : RandomBlobProvider :=
  {| count := 0; N := N; min_size := min_size; max_size := max_size |}.

(** [__iter__] *)
Definition iter (self : RandomBlobProvider) : RandomBlobProvider :=
  {| count := 0; N := N self; min_size := min_size self; max_size := max_size self |}.

(** [__next__]: the provider after the call, and the blob or the exception. *)
Definition next (self : RandomBlobProvider) (d : blob_draw)
  : RandomBlobProvider * result bytes :=
  let self' := {| count := count self + 1; N := N self;
                  min_size := min_size self; max_size := max_size self |} in
  if N self' <? count self' then (self', Raise StopIteration)
  else
    (self', size ← randrange (min_size self') (max_size self') (raw_size d);
            urandom size (raw_bytes d)).

(** [for blob in blob_provider]: the blobs yielded, and how the loop ended
    ([Ok] on [StopIteration]).  [draws k] feeds the [k]-th call. *)
Fixpoint iterate (fuel : nat) (self : RandomBlobProvider) (draws : nat -> blob_draw)
    (k : nat) : option (list bytes * result unit) :=
  match fuel with
  | O => None
  | S fuel' =>
      match next self (draws k) with
      | (_, Raise StopIteration) => Some ([], Ok tt)
      | (_, Raise e) => Some ([], Raise e)
      | (self', Ok blob) =>
          '(blobs, r) ← iterate fuel' self' draws (S k);
          Some (blob :: blobs, r)
      end
  end.

Definition for_each (fuel : nat) (self : RandomBlobProvider) (draws : nat -> blob_draw)
  : option (list bytes * result unit) :=
  iterate fuel (iter self) draws 0.

(** *** The world a worker acts on *)

Inductive message :=
| Corrupting (name : string)
| WroteFile (name path : string)
| SentOk (name : string) (msg : Json.json)
| BadStatus (name : string) (status : Z)
| WorkerDone (name : string)
| Generated (len : nat)
| GeneratorDone
| AllDone.

Record world := {
  files : gmap string bytes;    (* the sender's disk *)
  log : list message;           (* logging.info, oldest first *)
  posts : list request          (* the POSTs issued, oldest first *)
}.

Definition empty_world : world := {| files := ∅; log := []; posts := [] |}.

(** [logging.info(m)] *)
Definition info (m : message) : io world unit :=
  modify (fun w => {| files := files w; log := log w ++ [m]; posts := posts w |}).

(** [with open(path, 'wb') as f: f.write(blob)] *)
Definition write (path : string) (blob : bytes) : io world unit :=
  modify (fun w => {| files := write_file path blob (files w);
                      log := log w; posts := posts w |}).

(** [open(path, 'rb')], with the bytes the request will read from it. *)
Definition open_rb (path : string) : io world bytes :=
  fun w => (w, match files w !! path with
               | Some content => Ok content
               | None => Raise OSError
               end).

(** [session.post(url, data=form_data)] leaving. *)
Definition post (req : request) : io world unit :=
  modify (fun w => {| files := files w; log := log w; posts := posts w ++ [req] |}).

(** What [session.post] comes back with. *)
Record reply := {
  status : Z;
  json_content_type : bool;     (* Content-Type is application/json *)
  body : string
}.

Inductive outcome :=
| NoReply        (* the request raised: connection refused or lost, timeout *)
| Reply (r : reply).

(** *** send_blob *)

(** [blob = bytearray(blob); blob[0] += 1] *)
Definition corrupt (blob : bytes) : result bytes :=
  match blob with
  | [] => Raise IndexError
  | b :: rest =>
      match Byte.of_N (Byte.to_N b + 1) with
      | Some b' => Ok (b' :: rest)
      | None => Raise ValueError
      end
  end.

Record prepared := { p_id : string; p_path : string; p_sent : bytes; p_request : request }.

(** [send_blob] up to the point where the request is handed to
    [session.post]. *)
Definition send_blob_prepare (name : string) (blob : bytes) (config : SenderConfig)
    (d : send_draw) : io world prepared :=
  let new_id := uuid4 (uuid_bits d) in
  let checksum := Sha256.hexdigest blob in
  blob ← (if inject_bad_checksums config && below_tenth (coin d)
          then info (Corrupting name);; lift (corrupt blob)
          else mret blob);
  let filename := "sender-" +:+ new_id +:+ ".bin" in
  let path := path_join (save_dir config) filename in
  write path blob;;
  info (WroteFile name path);;
  blob_file ← open_rb path;
  let blob_metadata := [("id", new_id); ("hash", checksum)] in
  let form_data := [("metadata", FStr (Json.dumps blob_metadata));
                    ("bin_file", FFile blob_file)] in
  let req := {| target := url config; form := form_data |} in
  post req;;
  mret {| p_id := new_id; p_path := path; p_sent := blob_file; p_request := req |}.

(** [bytes.strip()] on the response body. *)
Definition is_space (c : ascii) : bool :=
  let n := code c in (n =? 32)%N || ((9 <=? n)%N && (n <=? 13)%N).

Fixpoint lstrip (s : string) : string :=
  match s with
  | String c r => if is_space c then lstrip r else s
  | EmptyString => EmptyString
  end.

Definition strip (s : string) : string :=
  String.rev (lstrip (String.rev (lstrip s))).

(** [await response.json()] *)
Definition response_json (r : reply) : result Json.json :=
  if negb (json_content_type r) then Raise ContentTypeError
  else
    let stripped := strip (body r) in
    if String.eqb stripped EmptyString then Ok Json.JNull
    else match Json.loads stripped with
         | Some j => Ok j
         | None => Raise JSONDecodeError
         end.

(** [send_blob] from the response on. *)
Definition send_blob_finish (name : string) (o : outcome) : io world unit :=
  match o with
  | NoReply => raise ClientError
  | Reply response =>
      if status response =? 200 then
        j ← lift (response_json response);
        msg ← lift (Json.getitem j "message");
        info (SentOk name msg)
      else
        info (BadStatus name (status response))
  end.

(** [send_blob] when nothing else runs in between. *)
Definition send_blob (name : string) (blob : bytes) (config : SenderConfig)
    (d : send_draw) (o : outcome) : io world unit :=
  send_blob_prepare name blob config d;;
  send_blob_finish name o.

(** *** send_worker, generate_worker and main

    The tasks of the event loop run one at a time and hand over only where
    they await.  A state of the whole program records where each task is
    suspended; a step runs one task from one suspension to the next. *)

(** A [send_worker] task. *)
Inductive task :=
| Waiting                              (* in [await queue.get()] *)
| Holding (blob : bytes)               (* got [blob]; the shielded [send_blob] is scheduled *)
| Posting (blob : bytes)               (* [send_blob] awaits the response *)
| Crashed (blob : bytes) (e : exn)     (* ended by [e], raised while it had [blob] *)
| Exited.                              (* caught [CancelledError] and returned *)

(** [main], with [generate_worker] running inside it. *)
Inductive phase :=
| Generating                           (* about to ask the provider for a blob *)
| Putting (blob : bytes)               (* in [await queue.put(blob)] *)
| Joining                              (* in [await queue.join()] *)
| Cancelling (k : nat)                 (* about to cancel [send_tasks[k]] *)
| Complete
| Aborted (e : exn).

Record system := {
  provider : RandomBlobProvider;
  queue : Queue.t;
  send_tasks : list task;
  env : world;
  pc : phase
}.

Inductive event :=
| Produce (blob : bytes)
| Put (blob : bytes)
| Exhausted
| Join
| Get (i : nat) (blob : bytes)
| Start (i : nat) (blob : bytes) (p : prepared)
| Finish (i : nat) (blob : bytes)
| Crash (i : nat) (blob : bytes) (e : exn)
| Cancel (i : nat)
| MainError (e : exn)
| Exit.

(** [f'W{i}'] *)
Definition worker_name (i : nat) : string := "W" +:+ str_of_nat i.

(** [main] up to its first await. *)
Definition initial (config : SenderConfig) : system :=
  {| provider := iter (init 1024 (1024 * 1024) (num_files config));
     queue := Queue.create (num_files config);
     send_tasks := replicate (Z.to_nat (num_workers config)) Waiting;
     env := empty_world;
     pc := Generating |}.

(** [send_worker] from the start of [send_blob] to its await. *)
Definition worker_start (config : SenderConfig) (i : nat) (blob : bytes) (d : send_draw)
    (w : world) : world * task * event :=
  match send_blob_prepare (worker_name i) blob config d w with
  | (w', Ok p) => (w', Posting blob, Start i blob p)
  | (w', Raise e) => (w', Crashed blob e, Crash i blob e)
  end.

(** [send_worker] from the response to the next [queue.get()]. *)
Definition worker_resume (i : nat) (blob : bytes) (o : outcome) (w : world) (q : Queue.t)
  : world * Queue.t * task * event :=
  match send_blob_finish (worker_name i) o w with
  | (w', Ok _) =>
      match Queue.task_done q with
      | Ok q' => (w', q', Waiting, Finish i blob)
      | Raise e => (w', q, Crashed blob e, Crash i blob e)
      end
  | (w', Raise e) => (w', q, Crashed blob e, Crash i blob e)
  end.

Definition logged (m : message) (w : world) : world := fst (info m w).

Inductive step (config : SenderConfig) : system -> event -> system -> Prop :=
| step_produce s d provider' blob :
    pc s = Generating ->
    next (provider s) d = (provider', Ok blob) ->
    step config s (Produce blob)
      {| provider := provider'; queue := queue s; send_tasks := send_tasks s;
         env := logged (Generated (length blob)) (env s); pc := Putting blob |}
| step_put s blob q' :
    pc s = Putting blob ->
    Queue.put blob (queue s) = Some q' ->
    step config s (Put blob)
      {| provider := provider s; queue := q'; send_tasks := send_tasks s;
         env := env s; pc := Generating |}
| step_exhausted s d provider' :
    pc s = Generating ->
    next (provider s) d = (provider', Raise StopIteration) ->
    step config s Exhausted
      {| provider := provider'; queue := queue s; send_tasks := send_tasks s;
         env := logged GeneratorDone (env s); pc := Joining |}
| step_generator_error s d provider' e :
    pc s = Generating ->
    next (provider s) d = (provider', Raise e) ->
    e <> StopIteration ->
    step config s (MainError e)
      {| provider := provider'; queue := queue s; send_tasks := send_tasks s;
         env := env s; pc := Aborted e |}
| step_join s :
    pc s = Joining ->
    Queue.joined (queue s) = true ->
    step config s Join
      {| provider := provider s; queue := queue s; send_tasks := send_tasks s;
         env := env s; pc := Cancelling 0 |}
| step_get s i blob q' :
    send_tasks s !! i = Some Waiting ->
    Queue.get (queue s) = Some (blob, q') ->
    step config s (Get i blob)
      {| provider := provider s; queue := q';
         send_tasks := <[i := Holding blob]> (send_tasks s);
         env := env s; pc := pc s |}
| step_start s i blob d w' t ev :
    send_tasks s !! i = Some (Holding blob) ->
    worker_start config i blob d (env s) = (w', t, ev) ->
    step config s ev
      {| provider := provider s; queue := queue s;
         send_tasks := <[i := t]> (send_tasks s);
         env := w'; pc := pc s |}
| step_response s i blob o w' q' t ev :
    send_tasks s !! i = Some (Posting blob) ->
    worker_resume i blob o (env s) (queue s) = (w', q', t, ev) ->
    step config s ev
      {| provider := provider s; queue := q';
         send_tasks := <[i := t]> (send_tasks s);
         env := w'; pc := pc s |}
| step_cancel s k :
    pc s = Cancelling k ->
    send_tasks s !! k = Some Waiting ->
    step config s (Cancel k)
      {| provider := provider s; queue := queue s;
         send_tasks := <[k := Exited]> (send_tasks s);
         env := logged (WorkerDone (worker_name k)) (env s);
         pc := Cancelling (S k) |}
| step_await_crashed s k blob e :
    pc s = Cancelling k ->
    send_tasks s !! k = Some (Crashed blob e) ->
    step config s (MainError e)
      {| provider := provider s; queue := queue s; send_tasks := send_tasks s;
         env := env s; pc := Aborted e |}
| step_exit s k :
    pc s = Cancelling k ->
    k = length (send_tasks s) ->
    step config s Exit
      {| provider := provider s; queue := queue s; send_tasks := send_tasks s;
         env := logged AllDone (env s); pc := Complete |}.

(** The states [main(config)] reaches, with the events that led there. *)
Inductive run (config : SenderConfig) : list event -> system -> Prop :=
| run_initial : run config [] (initial config)
| run_step tr s ev s' :
    run config tr s -> step config s ev s' -> run config (tr ++ [ev]) s'.

(** What a trace says was put, got, started and finished, in order. *)
Definition puts (tr : list event) : list bytes :=
  flat_map (fun ev => match ev with Put blob => [blob] | _ => [] end) tr.

Definition gots (tr : list event) : list bytes :=
  flat_map (fun ev => match ev with Get _ blob => [blob] | _ => [] end) tr.

Definition starts (tr : list event) : list (bytes * prepared) :=
  flat_map (fun ev => match ev with Start _ blob p => [(blob, p)] | _ => [] end) tr.

Definition finishes (tr : list event) : list bytes :=
  flat_map (fun ev => match ev with Finish _ blob => [blob] | _ => [] end) tr.

(** The blobs taken from the queue and not marked done. *)
Definition held_by (t : task) : list bytes :=
  match t with
  | Holding blob | Posting blob | Crashed blob _ => [blob]
  | Waiting | Exited => []
  end.

Definition held (ts : list task) : list bytes := flat_map held_by ts.

(** The blobs whose [send_blob] has posted and awaits the response. *)
Definition posting_by (t : task) : list bytes :=
  match t with
  | Posting blob => [blob]
  | _ => []
  end.

Definition posting (ts : list task) : list bytes := flat_map posting_by ts.

(** [main] is still in [generate_worker]. *)
Definition generating (ph : phase) : Prop :=
  match ph with
  | Generating | Putting _ => True
  | _ => False
  end.

(** *** What one call of [send_blob_prepare] leaves behind

    Stated here once, for the lemmas that describe the call. *)

(** Whether this call corrupts the blob. *)
Definition injected (config : SenderConfig) (d : send_draw) : bool :=
  inject_bad_checksums config && below_tenth (coin d).

Definition sender_path (config : SenderConfig) (d : send_draw) : string :=
  path_join (save_dir config) ("sender-" +:+ uuid4 (uuid_bits d) +:+ ".bin").

(** The request for [blob] that carries [sent] as its file. *)
Definition request_for (config : SenderConfig) (d : send_draw) (blob sent : bytes)
  : request :=
  {| target := url config;
     form := [("metadata",
               FStr (Json.dumps [("id", uuid4 (uuid_bits d));
                                 ("hash", Sha256.hexdigest blob)]));
              ("bin_file", FFile sent)] |}.

Definition after_prepare (name : string) (config : SenderConfig) (d : send_draw)
    (pre : list message) (blob sent : bytes) (w : world) : world :=
  {| files := <[sender_path config d := sent]> (files w);
     log := (log w ++ pre) ++ [WroteFile name (sender_path config d)];
     posts := posts w ++ [request_for config d blob sent] |}.

Definition prepared_for (config : SenderConfig) (d : send_draw) (blob sent : bytes)
  : prepared :=
  {| p_id := uuid4 (uuid_bits d); p_path := sender_path config d; p_sent := sent;
     p_request := request_for config d blob sent |}.



(** *** What a run is measured by *)

(** The blobs got and not yet handed to [send_blob]. *)
Definition holding_by (t : task) : list bytes :=
  match t with
  | Holding blob => [blob]
  | _ => []
  end.

Definition holding (ts : list task) : list bytes := flat_map holding_by ts.



(** The requests of the sends started, in order. *)
Definition requests (tr : list event) : list request :=
  map (fun bp => p_request bp.2) (starts tr).

End Sender.

(** ** server.py *)

Module Server.
Import Json.

(** [request.app['config']] *)
Record config := { uploads_dir : string; verify_hash : bool }.

Inductive message :=
| NoBinFile (keys : list string)                (* error *)
| NoMetadata (keys : list string)               (* error *)
| NoId (j : json)                               (* error *)
| NoHash (j : json)                             (* error *)
| HashMismatch                                  (* error *)
| SaveSkipped                                   (* info *)
| Wrote (len : nat) (path : string).            (* info *)

Record state := {
  files : gmap string bytes;    (* the receiver's disk *)
  log : list message            (* oldest first *)
}.

Definition logging (m : message) : io state unit :=
  modify (fun st => {| files := files st; log := log st ++ [m] |}).

Definition write (path : string) (blob : bytes) : io state unit :=
  modify (fun st => {| files := write_file path blob (files st); log := log st |}).

(** [web.Response(status=...)] and [web.json_response(...)] *)
Record response := {
  status : Z;
  content_type : option string;
  body : string
}.

Definition Response (status : Z) : response :=
  {| status := status; content_type := None; body := EmptyString |}.

Definition json_response (d : list (string * string)) : response :=
  {| status := 200; content_type := Some "application/json"; body := dumps d |}.

(** [verify_checksum]: a declared hash that is not a [str] equals no digest. *)
Definition verify_checksum (checksum : json) (blob : bytes) : bool :=
  let new_checksum := Sha256.hexdigest blob in
  match checksum with
  | JStr s => String.eqb s new_checksum
  | _ => false
  end.

Fixpoint json_is_str (key : string) (items : list json) : bool :=
  match items with
  | [] => false
  | JStr s :: rest => String.eqb key s || json_is_str key rest
  | _ :: rest => json_is_str key rest
  end.

(** [key in j]: a key of a [dict], an element of a [list], a substring of a
    [str]; anything else is not iterable. *)
Definition contains_key (key : string) (j : json) : result bool :=
  match j with
  | JObj d => Ok (dict_has key d)
  | JArr items => Ok (json_is_str key items)
  | JStr s => Ok (contains key s)
  | _ => Raise TypeError
  end.

Definition validate_upload_metadata (j : json) : io state bool :=
  has_id ← lift (contains_key "id" j);
  if negb has_id then logging (NoId j);; mret false
  else
    has_hash ← lift (contains_key "hash" j);
    if negb has_hash then logging (NoHash j);; mret false
    else mret true.

Definition validate_post (data : list (string * field)) : io state bool :=
  if negb (dict_has "bin_file" data) then
    logging (NoBinFile (dict_keys data));; mret false
  else if negb (dict_has "metadata" data) then
    logging (NoMetadata (dict_keys data));; mret false
  else mret true.

(** [data[key]] *)
Definition form_get (data : list (string * field)) (key : string) : result field :=
  match dict_get key data with
  | Some f => Ok f
  | None => Raise KeyError
  end.

(** [f.file.read()] *)
Definition file_read (f : field) : result bytes :=
  match f with
  | FFile content => Ok content
  | FStr _ => Raise AttributeError
  end.

(** [json.loads(f)] *)
Definition json_loads (f : field) : result json :=
  match f with
  | FStr text =>
      match loads text with
      | Some j => Ok j
      | None => Raise JSONDecodeError
      end
  | FFile _ => Raise TypeError
  end.

(** ['server-' + content_id + '.bin'] *)
Definition server_filename (content_id : json) : result string :=
  match content_id with
  | JStr s => Ok ("server-" +:+ s +:+ ".bin")
  | _ => Raise TypeError
  end.

(** [upload_handler], on the form [request.post()] returned. *)
Definition upload_handler (cfg : config) (data : list (string * field))
  : io state response :=
  ok ← validate_post data;
  if negb ok then mret (Response 400)
  else
    bin_file ← lift (form_get data "bin_file");
    blob ← lift (file_read bin_file);
    metadata_text ← lift (form_get data "metadata");
    metadata ← lift (json_loads metadata_text);
    ok ← validate_upload_metadata metadata;
    if negb ok then mret (Response 400)
    else
      content_id ← lift (getitem metadata "id");
      content_hash ← lift (getitem metadata "hash");
      if verify_hash cfg && negb (verify_checksum content_hash blob) then
        logging HashMismatch;;
        logging SaveSkipped;;
        mret (Response 400)
      else
        filename ← lift (server_filename content_id);
        let path := path_join (uploads_dir cfg) filename in
        write path blob;;
        logging (Wrote (length blob) path);;
        mret (json_response
                [("message", "Successfully received the " +:+ str_of_nat (length blob)
                               +:+ " byte file")]).

(** *** Requests, by what the handler makes of them *)

(** A request with a file part [blob] and a metadata part that decodes to
    the [dict] [d]. *)
Definition well_formed (data : list (string * field)) (blob : bytes)
    (d : list (string * json)) : Prop :=
  dict_get "bin_file" data = Some (FFile blob)
  /\ exists text, dict_get "metadata" data = Some (FStr text) /\ loads text = Some (JObj d).


(** The path the handler saves the upload with id [content_id] to. *)
Definition server_path (cfg : config) (content_id : string) : string :=
  path_join (uploads_dir cfg) ("server-" +:+ content_id +:+ ".bin").

(** *** create_app

    The application [create_app] returns: the config stored under
    ['config'], which may be any [dict], and the routes of its router, each
    of which leads to [upload_handler]. *)

(** A value of the config. *)
Inductive value :=
| VBool (b : bool)
| VStr (s : string).

Record route := { route_method : string; route_path : string }.

Record Application := { app_config : list (string * value); router : list route }.

Definition create_app (config : list (string * value)) : Application :=
  {| app_config := config;
     router := [{| route_method := "POST"; route_path := "/uploads" |}] |}.

(** [request.app['config'][key]] *)
Definition config_get (app : Application) (key : string) : result value :=
  match dict_get key (app_config app) with
  | Some v => Ok v
  | None => Raise KeyError
  end.

(** The truth value of a config value. *)
Definition truth (v : value) : bool :=
  match v with
  | VBool b => b
  | VStr s => negb (String.eqb s EmptyString)
  end.

(** [os.path.join(dir, filename)] for a config value [dir]. *)
Definition join_under (dir : value) (filename : string) : result string :=
  match dir with
  | VStr d => Ok (path_join d filename)
  | VBool _ => Raise TypeError
  end.

(** [upload_handler] as the application runs it, reading the config where
    the handler does. *)
Definition upload_handler_in (app : Application) (data : list (string * field))
  : io state response :=
  ok ← validate_post data;
  if negb ok then mret (Response 400)
  else
    bin_file ← lift (form_get data "bin_file");
    blob ← lift (file_read bin_file);
    metadata_text ← lift (form_get data "metadata");
    metadata ← lift (json_loads metadata_text);
    ok ← validate_upload_metadata metadata;
    if negb ok then mret (Response 400)
    else
      content_id ← lift (getitem metadata "id");
      content_hash ← lift (getitem metadata "hash");
      verify ← lift (config_get app "verify_hash");
      if truth verify && negb (verify_checksum content_hash blob) then
        logging HashMismatch;;
        logging SaveSkipped;;
        mret (Response 400)
      else
        filename ← lift (server_filename content_id);
        dir ← lift (config_get app "uploads_dir");
        path ← lift (join_under dir filename);
        write path blob;;
        logging (Wrote (length blob) path);;
        mret (json_response
                [("message", "Successfully received the " +:+ str_of_nat (length blob)
                               +:+ " byte file")]).

(** A request as the router sees it, with the form [request.post()] gives. *)
Record http_request := {
  http_method : string;
  http_path : string;
  http_form : list (string * field)
}.

Inductive resolved := Matched | MethodNotAllowed | NotFound.

(** The router: a route whose path and method are the request's, or else
    405 when some route has the path, or else 404. *)
Definition resolve (app : Application) (method path : string) : resolved :=
  if existsb (fun r => String.eqb (route_path r) path && String.eqb (route_method r) method)
       (router app)
  then Matched
  else if existsb (fun r => String.eqb (route_path r) path) (router app)
  then MethodNotAllowed
  else NotFound.

(** [web.HTTPNotFound()] and [web.HTTPMethodNotAllowed(...)] as responses. *)
Definition http_error (status : Z) (text : string) : response :=
  {| status := status; content_type := Some "text/plain"; body := text |}.

(** The application on one request. *)
Definition handle (app : Application) (req : http_request) : io state response :=
  match resolve app (http_method req) (http_path req) with
  | Matched => upload_handler_in app (http_form req)
  | MethodNotAllowed => mret (http_error 405 "405: Method Not Allowed")
  | NotFound => mret (http_error 404 "404: Not Found")
  end.

End Server.

(** ** The two scripts

    What [sender.py] and [server.py] do when run, from the parsed arguments
    on. *)

(** [logging.FileHandler(path)] and [logging.StreamHandler(sys.stdout)],
    with the format of their formatter. *)
Inductive log_handler :=
| FileHandler (path : string) (format : string)
| StreamHandler (format : string).

(** The truth value of [args.logfile]. *)
Definition given (logfile : option string) : bool :=
  match logfile with
  | Some path => negb (String.eqb path EmptyString)
  | None => false
  end.

(** The handlers the root logger is given. *)
Definition log_handlers (logfile : option string) (disable_stdout_logging : bool)
    (format : string) : list log_handler :=
  (match logfile with
   | Some path => if given (Some path) then [FileHandler path format] else []
   | None => []
   end)
  ++ (if negb disable_stdout_logging then [StreamHandler format] else []).

(** [str(n)] for an [int]. *)
Definition str_of_int (z : Z) : string :=
  if z <? 0 then "-" +:+ str_of_nat (Z.to_nat (- z)) else str_of_nat (Z.to_nat z).

Module SenderScript.

(** [args], as [parse_args] returns it. *)
Record Namespace := {
  address : string;
  port : Z;
  num_files : Z;
  num_workers : Z;
  logfile : option string;
  binfile_dir : string;
  disable_stdout_logging : bool;
  inject_bad_checksums : bool
}.

(** [args] when the command line is empty. *)
Definition defaults : Namespace :=
  {| address := "127.0.0.1"; port := 8000; num_files := 100; num_workers := 10;
     logfile := None; binfile_dir := "/tmp"; disable_stdout_logging := false;
     inject_bad_checksums := false |}.

Inductive outcome :=
| Exit (printed : string) (code : Z)
| Main (handlers : list log_handler) (config : Sender.SenderConfig).

Definition script (args : Namespace) : outcome :=
  if negb (given (logfile args)) && disable_stdout_logging args then
    Exit "You must log either to stdout or provide a logfile" 1
  else
    let handlers :=
      log_handlers (logfile args) (disable_stdout_logging args)
        "[SENDER][%(levelname)s][%(asctime)s] - %(message)s" in
    let url := "http://" +:+ address args +:+ ":" +:+ str_of_int (port args) +:+ "/uploads" in
    Main handlers
      {| Sender.num_files := num_files args;
         Sender.num_workers := num_workers args;
         Sender.url := url;
         Sender.save_dir := binfile_dir args;
         Sender.inject_bad_checksums := inject_bad_checksums args |}.

End SenderScript.

Module ServerScript.

Record Namespace := {
  address : string;
  port : Z;
  logfile : option string;
  uploads_dir : string;
  disable_stdout_logging : bool;
  disable_checksum_verification : bool
}.

Definition defaults : Namespace :=
  {| address := "127.0.0.1"; port := 8000; logfile := None; uploads_dir := "/tmp";
     disable_stdout_logging := false; disable_checksum_verification := false |}.

Inductive outcome :=
| Exit (printed : string) (code : Z)
| RunApp (handlers : list log_handler) (app : Server.Application) (host : string)
    (listen_port : Z).

Definition script (args : Namespace) : outcome :=
  if negb (given (logfile args)) && disable_stdout_logging args then
    Exit "You must log either to stdout or provide a logfile" 1
  else
    let handlers :=
      log_handlers (logfile args) (disable_stdout_logging args)
        "[SERVER][%(levelname)s][%(asctime)s] - %(message)s" in
    let config :=
      [("uploads_dir", Server.VStr (uploads_dir args));
       ("verify_hash", Server.VBool (negb (disable_checksum_verification args)))] in
    RunApp handlers (Server.create_app config) (address args) (port args).

End ServerScript.

(** ** One upload, end to end

    A [send_blob] whose request is handled by [upload_handler] and whose
    response is what the handler returned. *)

(** What the sender reads of a response: its status, whether its content
    type is JSON, and its body. *)
Definition reply_of (resp : Server.response) : Sender.reply :=
  {| Sender.status := Server.status resp;
     Sender.json_content_type :=
       match Server.content_type resp with
       | Some t => String.eqb t "application/json"
       | None => false
       end;
     Sender.body := Server.body resp |}.

(** The response to a request whose handler raised. *)
Definition internal_server_error : Sender.reply :=
  {| Sender.status := 500; Sender.json_content_type := false;
     Sender.body :=
       "500 Internal Server Error"
         +:+ String (ascii_of_N 10) (String (ascii_of_N 10) "Server got itself in trouble") |}.

Definition exchange (name : string) (blob : bytes) (config : Sender.SenderConfig)
    (d : Sender.send_draw) (cfg : Server.config) (w : Sender.world) (st : Server.state)
  : Sender.world * Server.state * result unit :=
  match Sender.send_blob_prepare name blob config d w with
  | (w1, Raise e) => (w1, st, Raise e)
  | (w1, Ok p) =>
      let '(st1, r) := Server.upload_handler cfg (form (Sender.p_request p)) st in
      let o := match r with
               | Ok resp => Sender.Reply (reply_of resp)
               | Raise _ => Sender.Reply internal_server_error
               end in
      let '(w2, r2) := Sender.send_blob_finish name o w1 in
      (w2, st1, r2)
  end.

(** ** Hexadecimal text *)

(** A digit [hexdigest] writes: [0-9a-f]. *)
Definition lower_hex_char (c : ascii) : bool :=
  ((48 <=? code c)%N && (code c <=? 57)%N) || ((97 <=? code c)%N && (code c <=? 102)%N).

Fixpoint lower_hex (s : string) : bool :=
  match s with
  | EmptyString => true
  | String c r => lower_hex_char c && lower_hex r
  end.

(** * Concrete inputs

    The values the examples and witnesses below are run on. *)

(** A blob of the smallest size the generator makes, all zeros, and the
    same blob with its first byte incremented. *)
Definition zeros_blob : bytes := x00 :: repeat x00 1023.
Definition zeros_blob_corrupted : bytes := x01 :: repeat x00 1023.

Definition injecting_config : Sender.SenderConfig :=
  {| Sender.num_files := 1; Sender.num_workers := 1;
     Sender.url := "http://127.0.0.1:8000/uploads"; Sender.save_dir := "/tmp";
     Sender.inject_bad_checksums := true |}.

Definition low_draw : Sender.send_draw := {| Sender.uuid_bits := 0; Sender.coin := 0 |}.

Definition zero_draws : nat -> Sender.blob_draw :=
  fun _ => {| Sender.raw_size := 0; Sender.raw_bytes := fun _ => x00 |}.

(** A receiver that verifies checksums, with an empty disk, and requests
    for the blob [abc]: one that declares its digest, one that declares
    another hash, one without an id, and one whose metadata is not JSON. *)
Definition strict_config : Server.config :=
  {| Server.uploads_dir := "/tmp"; Server.verify_hash := true |}.

Definition fresh_state : Server.state := {| Server.files := ∅; Server.log := [] |}.

Definition abc : bytes := [x61; x62; x63].

Definition good_request : list (string * field) :=
  [("metadata",
    FStr (dq "{'id': 'b1', 'hash': 'ba7816bf8f01cfea414140de5dae2223b00361a396177a9cb410ff61f20015ad'}"));
   ("bin_file", FFile abc)].


Definition bad_hash_request : list (string * field) :=
  [("metadata", FStr (dq "{'id': 'b1', 'hash': '00'}")); ("bin_file", FFile abc)].


Definition not_json_request : list (string * field) :=
  [("metadata", FStr "not json"); ("bin_file", FFile abc)].

Definition one_file_config : Sender.SenderConfig :=
  {| Sender.num_files := 1; Sender.num_workers := 1;
     Sender.url := "http://127.0.0.1:8000/uploads"; Sender.save_dir := "/tmp";
     Sender.inject_bad_checksums := false |}.

Definition kilobyte : bytes := map (fun _ => x00) (seq 0 1024).

Definition kilobyte_send : Sender.prepared :=
  Sender.prepared_for one_file_config low_draw kilobyte kilobyte.

Definition ok_reply : Sender.reply :=
  {| Sender.status := 200; Sender.json_content_type := true;
     Sender.body := dq "{'message': 'Successfully received the 1024 byte file'}" |}.

Definition one_file_trace : list Sender.event :=
  [Sender.Produce kilobyte; Sender.Put kilobyte; Sender.Get 0 kilobyte;
   Sender.Start 0 kilobyte kilobyte_send; Sender.Finish 0 kilobyte;
   Sender.Exhausted; Sender.Join].

Definition posting_trace : list Sender.event :=
  [Sender.Produce kilobyte; Sender.Put kilobyte; Sender.Get 0 kilobyte;
   Sender.Start 0 kilobyte kilobyte_send].

Definition lost_reply_trace : list Sender.event :=
  [Sender.Produce kilobyte; Sender.Put kilobyte; Sender.Get 0 kilobyte;
   Sender.Start 0 kilobyte kilobyte_send; Sender.Crash 0 kilobyte ClientError].

Definition bad_gateway : Sender.reply :=
  {| Sender.status := 502; Sender.json_content_type := false; Sender.body := "Bad Gateway" |}.

(** A receiver that does not verify checksums. *)
Definition lax_config : Server.config :=
  {| Server.uploads_dir := "/tmp"; Server.verify_hash := false |}.



(** A blob whose first byte cannot be incremented. *)
Definition ff_blob : bytes := [xff; x00].

Definition no_worker_config : Sender.SenderConfig :=
  {| Sender.num_files := 1; Sender.num_workers := 0;
     Sender.url := "http://127.0.0.1:8000/uploads"; Sender.save_dir := "/tmp";
     Sender.inject_bad_checksums := false |}.

Definition no_file_config : Sender.SenderConfig :=
  {| Sender.num_files := 0; Sender.num_workers := 1;
     Sender.url := "http://127.0.0.1:8000/uploads"; Sender.save_dir := "/tmp";
     Sender.inject_bad_checksums := false |}.

Definition putting_trace : list Sender.event := [Sender.Produce kilobyte].

Definition stuck_trace : list Sender.event :=
  [Sender.Produce kilobyte; Sender.Put kilobyte; Sender.Exhausted].

Definition idle_trace : list Sender.event :=
  [Sender.Exhausted; Sender.Join; Sender.Cancel 0; Sender.Exit].

Definition get_uploads : Server.http_request :=
  {| Server.http_method := "GET"; Server.http_path := "/uploads"; Server.http_form := [] |}.


(** A provider a loop has run over before. *)
Definition used_provider : Sender.RandomBlobProvider :=
  {| Sender.count := 7; Sender.N := 3; Sender.min_size := 2; Sender.max_size := 5 |}.

(** * Properties *)

Arguments Json.loads : simpl never.
Arguments Json.dumps : simpl never.
Arguments Sha256.hexdigest : simpl never.
Arguments Sender.uuid4 : simpl never.
Arguments path_join : simpl never.
Arguments str_of_nat : simpl never.

(** ** Test vectors *)

Example sha256_round_constants :
  nth 0 Sha256.K 0 = 0x428a2f98 /\ nth 63 Sha256.K 0 = 0xc67178f2
  /\ nth 0 Sha256.H0 0 = 0x6a09e667 /\ nth 7 Sha256.H0 0 = 0x5be0cd19.
Proof. repeat split; reflexivity. Qed.

Example sha256_empty :
  Sha256.hexdigest [] =
  "e3b0c44298fc1c149afbf4c8996fb92427ae41e4649b934ca495991b7852b855".
Proof. vm_compute. reflexivity. Qed.

Example sha256_abc :
  Sha256.hexdigest (bytes_of_string "abc") =
  "ba7816bf8f01cfea414140de5dae2223b00361a396177a9cb410ff61f20015ad".
Proof. vm_compute. reflexivity. Qed.

Example sha256_two_blocks :
  Sha256.hexdigest
    (bytes_of_string "abcdbcdecdefdefgefghfghighijhijkijkljklmklmnlmnomnopnopq") =
  "248d6a61d20638b8e5c026930c3e6039a33ce45964ff2167f6ecedd419db06c1".
Proof. vm_compute. reflexivity. Qed.

Example loads_metadata :
  Json.loads (dq "{'id': 'ab-1', 'hash': '00ff'}") =
  Some (Json.JObj [("id", Json.JStr "ab-1"); ("hash", Json.JStr "00ff")]).
Proof. vm_compute. reflexivity. Qed.

Example loads_nested :
  Json.loads (dq " [1, -20, 1.5e3, true, null, {'a': [], 'a': 'x\nA'}] ") =
  Some (Json.JArr
          [Json.JInt 1; Json.JInt (-20); Json.JFloat "1.5e3"; Json.JBool true; Json.JNull;
           Json.JObj [("a", Json.JStr (String "x" (String (ascii_of_N 10) "A")))]]).
Proof. vm_compute. reflexivity. Qed.

Example loads_rejects :
  map Json.loads
    [EmptyString; "{"; dq "{'a':1,}"; "[1,]"; "01"; "-"; "1."; "nul"; dq "'x";
     dq "{'a' 1}"; "[1 2]"; "{} x"; dq "'\x'"; "1e"; "+1"; ".5"; "true false";
     String (ascii_of_N 11) "[]"; dq "'a" +:+ String (ascii_of_N 9) (dq "b'")]
  = repeat None 19.
Proof. vm_compute. reflexivity. Qed.

Example loads_numbers :
  map Json.loads ["0"; "-0"; "1e5"; "1.5E-3"; "-1.5"; "NaN"; "-Infinity"; "Infinity"]
  = [Some (Json.JInt 0); Some (Json.JInt 0); Some (Json.JFloat "1e5");
     Some (Json.JFloat "1.5E-3"); Some (Json.JFloat "-1.5"); Some (Json.JFloat "NaN");
     Some (Json.JFloat "-Infinity"); Some (Json.JFloat "Infinity")].
Proof. vm_compute. reflexivity. Qed.

Example loads_escapes :
  map Json.loads [dq "'A\/'"; dq "'\u00e9'"; dq "'\ud83d\ude00'"; dq "'\ud83d'"]
  = [Some (Json.JStr "A/");
     Some (Json.JStr (String (ascii_of_N 195) (String (ascii_of_N 169) EmptyString)));
     Some (Json.JStr (String (ascii_of_N 240) (String (ascii_of_N 159)
                        (String (ascii_of_N 152) (String (ascii_of_N 128) EmptyString)))));
     Some (Json.JStr (String (ascii_of_N 237) (String (ascii_of_N 160)
                        (String (ascii_of_N 189) EmptyString))))].
Proof. vm_compute. reflexivity. Qed.

Example loads_duplicate_keys :
  Json.loads (dq " {'a':1,'a':2 ,'b':[ ]} ")
  = Some (Json.JObj [("a", Json.JInt 2); ("b", Json.JArr [])]).
Proof. vm_compute. reflexivity. Qed.

Example dumps_escapes :
  Json.dumps [(dq "a'b", String "x" (String (ascii_of_N 10) "y"));
              (String (ascii_of_N 195) (String (ascii_of_N 169) EmptyString),
               String (ascii_of_N 127) (utf8_encode 8364 +:+ utf8_encode 128512))]
  = dq "{'a\'b': 'x\ny', '\u00e9': '\u007f\u20ac\ud83d\ude00'}".
Proof. vm_compute. reflexivity. Qed.

Example uuid4_format :
  map Sender.uuid4 [0; 2 ^ 128 - 1; 0x0123456789abcdef0123456789abcdef]%N
  = ["00000000-0000-4000-8000-000000000000"; "ffffffff-ffff-4fff-bfff-ffffffffffff";
     "01234567-89ab-4def-8123-456789abcdef"].
Proof. vm_compute. reflexivity. Qed.

Example str_of_nat_digits :
  map str_of_nat [0; 7; 10; 1024; 4096]%nat = ["0"; "7"; "10"; "1024"; "4096"].
Proof. vm_compute. reflexivity. Qed.

Example path_join_cases :
  [path_join "/tmp" "x"; path_join "/tmp/" "x"; path_join EmptyString "x";
   path_join "/tmp" "/x"]
  = ["/tmp/x"; "/tmp/x"; "x"; "/x"].
Proof. vm_compute. reflexivity. Qed.

Example below_tenth_boundary :
  Sender.below_tenth 900719925474099 = true /\ Sender.below_tenth 900719925474100 = false.
Proof. split; reflexivity. Qed.

Example corrupt_cases :
  Sender.corrupt [x00; x07] = Ok [x01; x07]
  /\ Sender.corrupt [xff; x07] = Raise ValueError
  /\ Sender.corrupt [] = Raise IndexError.
Proof. repeat split; reflexivity. Qed.

Example response_json_cases :
  Sender.response_json
    {| Sender.status := 200; Sender.json_content_type := true;
       Sender.body := String (ascii_of_N 11) (dq "{'a': 1}") +:+ String (ascii_of_N 10) " " |}
  = Ok (Json.JObj [("a", Json.JInt 1)])
  /\ Sender.response_json
       {| Sender.status := 200; Sender.json_content_type := true; Sender.body := "  " |}
     = Ok Json.JNull
  /\ Sender.response_json
       {| Sender.status := 200; Sender.json_content_type := false; Sender.body := "{}" |}
     = Raise ContentTypeError
  /\ Sender.response_json
       {| Sender.status := 200; Sender.json_content_type := true; Sender.body := "<html>" |}
     = Raise JSONDecodeError.
Proof. repeat split; vm_compute; reflexivity. Qed.

(** Requests that pass both validations and still make the handler raise:
    metadata that is a list or a text, an id that is not a [str], a
    [bin_file] part that is not a file. *)
Example upload_handler_raises :
  map (fun data => snd (Server.upload_handler strict_config data fresh_state))
    [[("metadata", FStr (dq "['id', 'hash']")); ("bin_file", FFile abc)];
     [("metadata", FStr (dq "'the id and the hash'")); ("bin_file", FFile abc)];
     [("metadata", FStr (dq "{'id': 5, 'hash': 'ba7816bf8f01cfea414140de5dae2223b00361a396177a9cb410ff61f20015ad'}"));
      ("bin_file", FFile abc)];
     [("metadata", FStr (dq "{'id': 'b1', 'hash': '00'}")); ("bin_file", FStr "abc")];
     [("metadata", FStr "7"); ("bin_file", FFile abc)]]
  = [Raise TypeError; Raise TypeError; Raise TypeError; Raise AttributeError;
     Raise TypeError].
Proof. vm_compute. reflexivity. Qed.

Example upload_handler_stores :
  Server.upload_handler strict_config good_request fresh_state
  = ({| Server.files := {["/tmp/server-b1.bin" := abc]};
        Server.log := [Server.Wrote 3 "/tmp/server-b1.bin"] |},
     Ok {| Server.status := 200; Server.content_type := Some "application/json";
           Server.body := dq "{'message': 'Successfully received the 3 byte file'}" |}).
Proof. vm_compute. reflexivity. Qed.

(** ** Running [io] code *)

Lemma io_bind_ok {S A B} (m : io S A) (k : A -> io S B) s s' a :
  m s = (s', Ok a) -> (m ≫= k) s = k a s'.
Proof. intros H. unfold mbind, io_bind. rewrite H. reflexivity. Qed.

Lemma io_bind_raise {S A B} (m : io S A) (k : A -> io S B) s s' e :
  m s = (s', Raise e) -> (m ≫= k) s = (s', Raise e).
Proof. intros H. unfold mbind, io_bind. rewrite H. reflexivity. Qed.

(** ** JSON texts without escapes *)

Section PlainJson.
Import Json.

Lemma append_cons c (a b : string) : String c a +:+ b = String c (a +:+ b).
Proof. reflexivity. Qed.

Lemma append_assoc (a b c : string) : (a +:+ b) +:+ c = a +:+ (b +:+ c).
Proof.
  induction a as [|x a IH]; [reflexivity|].
  rewrite !append_cons. f_equal. exact IH.
Qed.

Lemma length_append (a b : string) :
  String.length (a +:+ b) = (String.length a + String.length b)%nat.
Proof.
  induction a as [|x a IH]; [reflexivity|].
  rewrite append_cons. cbn [String.length Nat.add]. f_equal. exact IH.
Qed.

Lemma plain_append (a b : string) : plain (a +:+ b) = plain a && plain b.
Proof.
  induction a as [|x a IH]; [reflexivity|].
  rewrite append_cons. cbn [plain]. rewrite IH. apply andb_assoc.
Qed.

Lemma plain_char_code c :
  plain_char c = true ->
  (32 <= code c <= 126)%N /\ code c <> 34%N /\ code c <> 92%N.
Proof.
  unfold plain_char. rewrite !andb_true_iff, !negb_true_iff.
  intros [[[H1 H2] H3] H4].
  apply N.leb_le in H1, H2. apply N.eqb_neq in H3, H4. auto.
Qed.

Lemma escape_char_plain c :
  plain_char c = true -> escape_char (code c) = String c EmptyString.
Proof.
  intros H. destruct (plain_char_code c H) as ([Hlo Hhi] & Hq & Hb).
  unfold escape_char.
  repeat match goal with
    | |- context [(code c =? ?n)%N] =>
        destruct (N.eqb_spec (code c) n); [lia|]
    end.
  destruct (N.leb_spec 32 (code c)); [|lia].
  destruct (N.leb_spec (code c) 126); [|lia].
  cbn. unfold code. rewrite ascii_N_embedding. reflexivity.
Qed.

Lemma encode_string_plain s :
  plain s = true -> encode_string s = String dquote (s +:+ String dquote EmptyString).
Proof.
  intros H. unfold encode_string. change (dq "'") with (String dquote EmptyString).
  rewrite append_cons. change (EmptyString +:+ ?x) with x. f_equal.
  induction s as [|c s IH]; [reflexivity|].
  cbn in H. apply andb_true_iff in H. destruct H as [Hc Hs].
  destruct (plain_char_code c Hc) as ([Hlo Hhi] & _).
  cbn [utf8_decode]. destruct (N.ltb_spec (code c) 192); [|lia].
  cbn [fold_right]. rewrite (escape_char_plain c Hc), (IH Hs). reflexivity.
Qed.

Lemma scanstring_plain s : forall rest fuel,
  plain s = true ->
  (String.length s < fuel)%nat ->
  scanstring fuel (s +:+ String dquote rest) = Some (s, rest).
Proof.
  induction s as [|c s IH]; intros rest fuel H Hfuel.
  - destruct fuel; [lia|]. reflexivity.
  - cbn in H. apply andb_true_iff in H. destruct H as [Hc Hs].
    destruct (plain_char_code c Hc) as ([Hlo Hhi] & Hq & Hb).
    destruct fuel as [|fuel]; [cbn in Hfuel; lia|].
    rewrite append_cons. cbn [scanstring].
    destruct (N.eqb_spec (code c) 34); [lia|].
    destruct (N.eqb_spec (code c) 92); [lia|].
    destruct (N.ltb_spec (code c) 32); [lia|].
    rewrite (IH rest fuel Hs) by (cbn in Hfuel; lia). reflexivity.
Qed.

(** A string value. *)
Lemma scan_once_string fuel s rest :
  plain s = true ->
  scan_once (S fuel) (String dquote (s +:+ String dquote rest)) = Some (JStr s, rest).
Proof.
  intros H. cbn [scan_once].
  change (code dquote =? 34)%N with true. cbv iota.
  rewrite (scanstring_plain s rest) by (try assumption; rewrite length_append; cbn; lia).
  reflexivity.
Qed.

Lemma skip_ws_at c s : is_ws c = false -> skip_ws (String c s) = String c s.
Proof. intros H. cbn [skip_ws]. rewrite H. reflexivity. Qed.

Lemma skip_ws_over c s : is_ws c = true -> skip_ws (String c s) = skip_ws s.
Proof. intros H. cbn [skip_ws]. rewrite H. reflexivity. Qed.

Lemma strip_prefix_char c s : strip_prefix (String c EmptyString) (String c s) = Some s.
Proof. cbn [strip_prefix]. rewrite Ascii.eqb_refl. reflexivity. Qed.

Lemma strip_prefix_other c c' s :
  Ascii.eqb c c' = false -> strip_prefix (String c EmptyString) (String c' s) = None.
Proof. intros H. cbn [strip_prefix]. rewrite H. reflexivity. Qed.

Lemma object_items_eq fuel acc s :
  object_items (S fuel) acc s =
  (after_quote ← strip_prefix (dq "'") s;
   '(key, s1) ← scanstring (String.length after_quote) after_quote;
   s2 ← strip_prefix ":" (skip_ws s1);
   '(val, s3) ← scan_once fuel (skip_ws s2);
   let acc' := dict_set key val acc in
   let s4 := skip_ws s3 in
   match strip_prefix "}" s4 with
   | Some rest => Some (JObj acc', rest)
   | None =>
       s5 ← strip_prefix "," s4;
       object_items fuel acc' (skip_ws s5)
   end).
Proof. reflexivity. Qed.

(** One [key: value] pair of strings, up to what follows the value. *)
Lemma object_items_pair fuel acc k v rest :
  plain k = true -> plain v = true ->
  object_items (S (S fuel)) acc
    (String dquote (k +:+ String dquote (String ":" (String " "
       (String dquote (v +:+ String dquote rest)))))) =
  let acc' := dict_set k (JStr v) acc in
  match strip_prefix "}" (skip_ws rest) with
  | Some rest' => Some (JObj acc', rest')
  | None =>
      s5 ← strip_prefix "," (skip_ws rest);
      object_items (S fuel) acc' (skip_ws s5)
  end.
Proof.
  intros Hk Hv. rewrite object_items_eq.
  change (dq "'") with (String dquote EmptyString).
  rewrite strip_prefix_char. cbn [mbind option_bind].
  rewrite (scanstring_plain k) by (try assumption; rewrite length_append; cbn; lia).
  cbn [mbind option_bind].
  rewrite skip_ws_at by reflexivity.
  rewrite strip_prefix_char. cbn [mbind option_bind].
  rewrite skip_ws_over by reflexivity.
  rewrite skip_ws_at by reflexivity.
  rewrite (scan_once_string fuel v rest Hv).
  cbn [mbind option_bind].
  reflexivity.
Qed.

Lemma scan_once_object fuel r :
  scan_once (S fuel) (String "{" r) =
  match strip_prefix "}" (skip_ws r) with
  | Some rest => Some (JObj [], rest)
  | None => object_items fuel [] (skip_ws r)
  end.
Proof. reflexivity. Qed.

Lemma append_nil (s : string) : EmptyString +:+ s = s.
Proof. reflexivity. Qed.

(** The text [json.dumps] writes for a [dict] of two plain strings. *)
Lemma dumps_pair_text k1 v1 k2 v2 :
  plain k1 = true -> plain v1 = true -> plain k2 = true -> plain v2 = true ->
  dumps [(k1, v1); (k2, v2)] =
  String "{" (String dquote (k1 +:+ String dquote (String ":" (String " "
    (String dquote (v1 +:+ String dquote (String "," (String " "
      (String dquote (k2 +:+ String dquote (String ":" (String " "
        (String dquote (v2 +:+ String dquote (String "}" EmptyString))))))))))))))).
Proof.
  intros H1 H2 H3 H4. unfold dumps, dumps_items.
  rewrite !encode_string_plain by assumption.
  repeat (rewrite ?append_cons, ?append_assoc, ?append_nil).
  reflexivity.
Qed.

(** [json.loads] reads back what [json.dumps] wrote. *)
Lemma loads_dumps_pair k1 v1 k2 v2 :
  plain k1 = true -> plain v1 = true -> plain k2 = true -> plain v2 = true ->
  String.eqb k2 k1 = false ->
  loads (dumps [(k1, v1); (k2, v2)]) = Some (JObj [(k1, JStr v1); (k2, JStr v2)]).
Proof.
  intros H1 H2 H3 H4 Hne. rewrite dumps_pair_text by assumption.
  unfold loads. rewrite skip_ws_at by reflexivity.
  rewrite scan_once_object.
  rewrite skip_ws_at by reflexivity.
  rewrite strip_prefix_other by reflexivity.
  cbn [String.length]. rewrite length_append. cbn [String.length].
  rewrite !Nat.add_succ_r.
  rewrite object_items_pair by assumption. cbv zeta.
  rewrite skip_ws_at by reflexivity.
  rewrite strip_prefix_other by reflexivity.
  rewrite strip_prefix_char. cbn [mbind option_bind].
  rewrite skip_ws_over by reflexivity.
  rewrite skip_ws_at by reflexivity.
  rewrite object_items_pair by assumption. cbv zeta.
  rewrite skip_ws_at by reflexivity.
  rewrite strip_prefix_char. cbn [mbind option_bind skip_ws dict_set].
  rewrite Hne. reflexivity.
Qed.

Lemma plain_hex_byte b : plain (Sha256.hex_byte b) = true.
Proof. destruct b; reflexivity. Qed.

Lemma plain_hex bs : plain (Sha256.hex bs) = true.
Proof.
  induction bs as [|b bs IH]; [reflexivity|].
  cbn [Sha256.hex]. rewrite plain_append, plain_hex_byte, IH. reflexivity.
Qed.

Lemma plain_substring s : forall n m, plain s = true -> plain (String.substring n m s) = true.
Proof.
  induction s as [|c s IH]; intros n m H.
  - destruct n, m; reflexivity.
  - cbn in H. apply andb_true_iff in H. destruct H as [Hc Hs].
    destruct n as [|n]; [destruct m as [|m]|]; cbn [String.substring plain];
      [reflexivity| |]; rewrite ?Hc, ?IH by assumption; reflexivity.
Qed.

Lemma plain_uuid4 bits : plain (Sender.uuid4 bits) = true.
Proof.
  unfold Sender.uuid4. cbv zeta.
  repeat (rewrite plain_append; apply andb_true_iff; split);
    try reflexivity; apply plain_substring, plain_hex.
Qed.

Lemma dumps_single_text k v :
  plain k = true -> plain v = true ->
  dumps [(k, v)] =
  String "{" (String dquote (k +:+ String dquote (String ":" (String " "
    (String dquote (v +:+ String dquote (String "}" EmptyString))))))).
Proof.
  intros H1 H2. unfold dumps, dumps_items.
  rewrite !encode_string_plain by assumption.
  repeat (rewrite ?append_cons, ?append_assoc, ?append_nil).
  reflexivity.
Qed.

Lemma loads_dumps_single k v :
  plain k = true -> plain v = true ->
  loads (dumps [(k, v)]) = Some (JObj [(k, JStr v)]).
Proof.
  intros H1 H2. rewrite dumps_single_text by assumption.
  unfold loads. rewrite skip_ws_at by reflexivity.
  rewrite scan_once_object.
  rewrite skip_ws_at by reflexivity.
  rewrite strip_prefix_other by reflexivity.
  cbn [String.length].
  rewrite object_items_pair by assumption. cbv zeta.
  rewrite skip_ws_at by reflexivity.
  rewrite strip_prefix_char. reflexivity.
Qed.

Lemma plain_decimal_digits fuel : forall n acc,
  plain acc = true -> plain (decimal_digits fuel n acc) = true.
Proof.
  induction fuel as [|fuel IH]; intros n acc Hacc; [exact Hacc|].
  cbn [decimal_digits].
  assert (Hd : plain (String (ascii_of_N (48 + n mod 10)) acc) = true).
  { cbn [plain]. rewrite Hacc, andb_true_r.
    pose proof (N.mod_upper_bound n 10 ltac:(lia)) as Hlt.
    unfold plain_char, code.
    rewrite N_ascii_embedding by (set (m := (n mod 10)%N) in *; lia).
    set (m := (n mod 10)%N) in *.
    repeat (apply andb_true_iff; split);
      rewrite ?negb_true_iff; first [apply N.leb_le | apply N.eqb_neq]; lia. }
  destruct (n <? 10)%N; [exact Hd|]. apply IH. exact Hd.
Qed.

Lemma plain_str_of_nat n : plain (str_of_nat n) = true.
Proof. apply plain_decimal_digits. reflexivity. Qed.

End PlainJson.

(** ** send_blob *)

Section SendBlob.
Import Sender.

Variables (name : string) (config : SenderConfig) (d : send_draw).

Lemma send_blob_prepare_plain blob w :
  injected config d = false ->
  send_blob_prepare name blob config d w =
  (after_prepare name config d [] blob blob w, Ok (prepared_for config d blob blob)).
Proof.
  intros Hinj. unfold injected in Hinj.
  unfold send_blob_prepare. rewrite Hinj.
  unfold mbind, io_bind, mret, io_ret, write, info, open_rb, post, modify, write_file.
  cbn. fold (sender_path config d). rewrite lookup_insert_eq.
  unfold after_prepare, prepared_for, request_for. cbn.
  rewrite app_nil_r. reflexivity.
Qed.

Lemma send_blob_prepare_corrupted blob sent w :
  injected config d = true ->
  corrupt blob = Ok sent ->
  send_blob_prepare name blob config d w =
  (after_prepare name config d [Corrupting name] blob sent w,
   Ok (prepared_for config d blob sent)).
Proof.
  intros Hinj Hc. unfold injected in Hinj.
  unfold send_blob_prepare. rewrite Hinj.
  unfold mbind, io_bind, mret, io_ret, write, info, open_rb, post, modify, write_file, lift.
  cbn. rewrite Hc. cbn. fold (sender_path config d). rewrite lookup_insert_eq.
  reflexivity.
Qed.

Lemma send_blob_prepare_raises blob e w :
  injected config d = true ->
  corrupt blob = Raise e ->
  send_blob_prepare name blob config d w = (logged (Corrupting name) w, Raise e).
Proof.
  intros Hinj Hc. unfold injected in Hinj.
  unfold send_blob_prepare. rewrite Hinj.
  unfold mbind, io_bind, info, modify, lift, logged.
  cbn. rewrite Hc. reflexivity.
Qed.

(** The three ways [send_blob_prepare] can go. *)
Lemma send_blob_prepare_cases blob w w' r :
  send_blob_prepare name blob config d w = (w', r) ->
  (injected config d = false
     /\ w' = after_prepare name config d [] blob blob w
     /\ r = Ok (prepared_for config d blob blob))
  \/ (exists sent, injected config d = true /\ corrupt blob = Ok sent
        /\ w' = after_prepare name config d [Corrupting name] blob sent w
        /\ r = Ok (prepared_for config d blob sent))
  \/ (exists e, injected config d = true /\ corrupt blob = Raise e
        /\ w' = logged (Corrupting name) w /\ r = Raise e).
Proof.
  intros H. destruct (injected config d) eqn:Hinj.
  - destruct (corrupt blob) as [sent|e] eqn:Hc.
    + rewrite (send_blob_prepare_corrupted blob sent w Hinj Hc) in H.
      inversion H; subst. right; left. exists sent. auto.
    + rewrite (send_blob_prepare_raises blob e w Hinj Hc) in H.
      inversion H; subst. right; right. exists e. auto.
  - rewrite (send_blob_prepare_plain blob w Hinj) in H.
    inversion H; subst. left. auto.
Qed.

End SendBlob.

(** ** The corruption step *)

Lemma corrupt_ok b rest sent :
  Sender.corrupt (b :: rest) = Ok sent ->
  exists b', sent = b' :: rest /\ Byte.to_N b' = (Byte.to_N b + 1)%N.
Proof.
  unfold Sender.corrupt.
  destruct (Byte.of_N (Byte.to_N b + 1)) as [b'|] eqn:Hb; [|discriminate].
  intros [= <-]. exists b'. split; [reflexivity|].
  apply Byte.to_of_N. exact Hb.
Qed.

Lemma corrupt_changes blob sent : Sender.corrupt blob = Ok sent -> sent <> blob.
Proof.
  destruct blob as [|b rest]; [discriminate|].
  intros H. destruct (corrupt_ok _ _ _ H) as (b' & -> & Hb').
  intros [= ->]. lia.
Qed.

(** C10.  Fault injection increments the first byte of the blob: when that
    byte is below 255 the result differs from the blob in byte 0 only, which
    has grown by one; when it is 255 the increment raises [ValueError], and a
    [send_blob] that injects the fault on such a blob ends with that
    exception, having logged the corruption notice and neither written a
    file nor posted. *)
Theorem corrupt_increments_first_byte (b : byte) (rest : bytes) :
  ((Byte.to_N b < 255)%N ->
   exists b', Sender.corrupt (b :: rest) = Ok (b' :: rest)
              /\ Byte.to_N b' = (Byte.to_N b + 1)%N)
  /\ (Byte.to_N b = 255%N ->
      Sender.corrupt (b :: rest) = Raise ValueError
      /\ forall name config d o w,
           Sender.injected config d = true ->
           Sender.send_blob name (b :: rest) config d o w =
           (Sender.logged (Sender.Corrupting name) w, Raise ValueError)).
Proof.
  split.
  - intros Hlt. unfold Sender.corrupt.
    destruct (Byte.of_N (Byte.to_N b + 1)) as [b'|] eqn:Hb.
    + exists b'. split; [reflexivity|]. apply Byte.to_of_N. exact Hb.
    + apply Byte.of_N_None_iff in Hb. lia.
  - intros Heq.
    assert (Hc : Sender.corrupt (b :: rest) = Raise ValueError).
    { unfold Sender.corrupt.
      destruct (Byte.of_N (Byte.to_N b + 1)) as [b'|] eqn:Hb; [|reflexivity].
      apply Byte.to_of_N in Hb. pose proof (Byte.to_N_bounded b'). lia. }
    split; [exact Hc|].
    intros name config d o w Hinj. unfold Sender.send_blob.
    apply io_bind_raise.
    apply send_blob_prepare_raises; assumption.
Qed.

Lemma corrupt_increments_first_byte_witness :
  exists b', Sender.corrupt [x41; x42] = Ok [b'; x42]
             /\ Byte.to_N b' = (Byte.to_N x41 + 1)%N.
Proof.
  apply (proj1 (corrupt_increments_first_byte x41 [x42])).
  reflexivity.
Defined.

(** ** The saved file and the uploaded body *)

(** C2, as stated, fails: with fault injection triggering on a blob of 1024
    zero bytes, the file the sender keeps holds the corrupted bytes, not the
    original ones, and it equals the uploaded body. *)
Lemma saved_file_is_corrupted_too :
  exists w' p,
    Sender.send_blob_prepare "W0" zeros_blob injecting_config low_draw
      Sender.empty_world = (w', Ok p)
    /\ Sender.injected injecting_config low_draw = true
    /\ Sender.files w' !! Sender.p_path p = Some zeros_blob_corrupted
    /\ Sender.files w' !! Sender.p_path p <> Some zeros_blob
    /\ dict_get "bin_file" (form (Sender.p_request p)) = Some (FFile zeros_blob_corrupted).
Proof.
  eexists _, _. split.
  - apply (send_blob_prepare_corrupted "W0" injecting_config low_draw
             zeros_blob zeros_blob_corrupted); reflexivity.
  - split; [reflexivity|]. cbn.
    rewrite lookup_insert_eq. repeat split. discriminate.
Qed.

(** C2, amended.  The file [sender-<uuid>.bin] always holds exactly the bytes
    that are uploaded, which are read back from it: the original blob when no
    fault is injected, and the blob with its first byte incremented when one
    is. *)
Theorem saved_file_is_uploaded_body name config d blob w w' p :
  Sender.send_blob_prepare name blob config d w = (w', Ok p) ->
  Sender.p_path p =
    path_join (Sender.save_dir config)
              ("sender-" +:+ Sender.uuid4 (Sender.uuid_bits d) +:+ ".bin")
  /\ Sender.files w' !! Sender.p_path p = Some (Sender.p_sent p)
  /\ dict_get "bin_file" (form (Sender.p_request p)) = Some (FFile (Sender.p_sent p))
  /\ In (Sender.p_request p) (Sender.posts w')
  /\ (Sender.injected config d = false -> Sender.p_sent p = blob)
  /\ (Sender.injected config d = true -> Sender.corrupt blob = Ok (Sender.p_sent p)).
Proof.
  intros H.
  destruct (send_blob_prepare_cases _ _ _ _ _ _ _ H)
    as [(Hinj & -> & Hr) | [(sent & Hinj & Hc & -> & Hr) | (e & _ & _ & _ & Hr)]];
    [| |discriminate]; injection Hr as ->; cbn;
    (split; [reflexivity|]); (split; [apply lookup_insert_eq|]);
    (split; [reflexivity|]); (split; [apply in_or_app; right; left; reflexivity|]);
    split; intros Hi; congruence.
Qed.

Lemma saved_file_is_uploaded_body_witness :
  exists w' p,
    Sender.send_blob_prepare "W0" zeros_blob injecting_config low_draw
      Sender.empty_world = (w', Ok p)
    /\ Sender.files w' !! Sender.p_path p = Some (Sender.p_sent p).
Proof.
  eexists _, _. split.
  - apply (send_blob_prepare_corrupted "W0" injecting_config low_draw
             zeros_blob zeros_blob_corrupted); reflexivity.
  - refine (proj1 (proj2 (saved_file_is_uploaded_body "W0" injecting_config low_draw
                            zeros_blob Sender.empty_world _ _ _))).
    apply (send_blob_prepare_corrupted "W0" injecting_config low_draw
             zeros_blob zeros_blob_corrupted); reflexivity.
Defined.

(** ** The declared checksum *)

(** C3.  The metadata of every request sent declares the SHA-256 hex digest
    of the original blob, taken before any corruption: the metadata text is
    [json.dumps] of the id and that digest, and [json.loads] reads them back
    from it.  When the fault is injected, the file part of the request
    differs from the blob the digest was taken over. *)
Theorem checksum_is_of_original_bytes name config d blob w w' p :
  Sender.send_blob_prepare name blob config d w = (w', Ok p) ->
  (exists text,
     dict_get "metadata" (form (Sender.p_request p)) = Some (FStr text)
     /\ text = Json.dumps [("id", Sender.p_id p); ("hash", Sha256.hexdigest blob)]
     /\ Json.loads text =
        Some (Json.JObj [("id", Json.JStr (Sender.p_id p));
                         ("hash", Json.JStr (Sha256.hexdigest blob))]))
  /\ In (Sender.p_request p) (Sender.posts w')
  /\ dict_get "bin_file" (form (Sender.p_request p)) = Some (FFile (Sender.p_sent p))
  /\ (Sender.injected config d = true -> Sender.p_sent p <> blob).
Proof.
  intros H.
  assert (Hloads : Json.loads (Json.dumps [("id", Sender.uuid4 (Sender.uuid_bits d));
                                           ("hash", Sha256.hexdigest blob)]) =
                   Some (Json.JObj [("id", Json.JStr (Sender.uuid4 (Sender.uuid_bits d)));
                                    ("hash", Json.JStr (Sha256.hexdigest blob))])).
  { apply loads_dumps_pair; try reflexivity; [apply plain_uuid4|apply plain_hex]. }
  destruct (send_blob_prepare_cases _ _ _ _ _ _ _ H)
    as [(Hinj & -> & Hr) | [(sent & Hinj & Hc & -> & Hr) | (e & _ & _ & _ & Hr)]];
    [| |discriminate]; injection Hr as ->; cbn;
    (split; [eexists; split; [reflexivity|]; split; [reflexivity|exact Hloads]|]);
    (split; [apply in_or_app; right; left; reflexivity|]);
    (split; [reflexivity|]); intros Hi.
  - congruence.
  - apply corrupt_changes. exact Hc.
Qed.

Lemma checksum_is_of_original_bytes_witness :
  exists w' p,
    Sender.send_blob_prepare "W0" zeros_blob injecting_config low_draw
      Sender.empty_world = (w', Ok p)
    /\ Sender.p_sent p <> zeros_blob.
Proof.
  eexists _, _. split.
  - apply (send_blob_prepare_corrupted "W0" injecting_config low_draw
             zeros_blob zeros_blob_corrupted); reflexivity.
  - refine (proj2 (proj2 (proj2 (checksum_is_of_original_bytes "W0" injecting_config
                                   low_draw zeros_blob Sender.empty_world _ _ _))) _);
      [|reflexivity].
    apply (send_blob_prepare_corrupted "W0" injecting_config low_draw
             zeros_blob zeros_blob_corrupted); reflexivity.
Defined.

(** ** RandomBlobProvider *)

Section Provider.
Import Sender.

Lemma randrange_in_range a b raw :
  a < b -> exists n, randrange a b raw = Ok n /\ a <= n < b.
Proof.
  intros Hab. unfold randrange.
  destruct (b <=? a) eqn:Hle; [lia|].
  eexists. split; [reflexivity|].
  pose proof (Z.mod_pos_bound raw (b - a)). lia.
Qed.

Lemma urandom_length size raw :
  0 <= size -> exists blob, urandom size raw = Ok blob /\ Z.of_nat (length blob) = size.
Proof.
  intros Hsize. unfold urandom.
  destruct (size <? 0) eqn:Hlt; [lia|].
  eexists. split; [reflexivity|].
  rewrite length_map, length_seq. lia.
Qed.

(** A call of [__next__] before the count is used up yields a blob of a
    size in range and advances the count. *)
Lemma next_yields self d :
  0 <= min_size self < max_size self ->
  count self < N self ->
  exists blob,
    next self d = ({| count := count self + 1; N := N self;
                      min_size := min_size self; max_size := max_size self |}, Ok blob)
    /\ min_size self <= Z.of_nat (length blob) < max_size self.
Proof.
  intros Hsz Hcount. unfold next. cbn.
  destruct (N self <? count self + 1) eqn:Hlt; [lia|].
  destruct (randrange_in_range (min_size self) (max_size self) (raw_size d))
    as (n & -> & Hn); [lia|].
  destruct (urandom_length n (raw_bytes d)) as (blob & Hblob & Hlen); [lia|].
  exists blob. cbn. rewrite Hblob. split; [reflexivity|lia].
Qed.

Lemma next_stops self d :
  N self <= count self ->
  snd (next self d) = Raise StopIteration.
Proof.
  intros Hcount. unfold next. cbn.
  destruct (N self <? count self + 1) eqn:Hlt; [reflexivity|lia].
Qed.

Lemma iterate_remaining (n : nat) : forall self draws k,
  0 <= min_size self < max_size self ->
  0 <= count self ->
  Z.of_nat n = N self - count self ->
  exists blobs,
    (forall fuel, (n < fuel)%nat -> iterate fuel self draws k = Some (blobs, Ok tt))
    /\ length blobs = n
    /\ Forall (fun blob => min_size self <= Z.of_nat (length blob) < max_size self) blobs.
Proof.
  induction n as [|n IH]; intros self draws k Hsz Hc Hn.
  - exists []. split; [|split; [reflexivity|constructor]].
    intros [|fuel] Hfuel; [lia|]. cbn [iterate].
    pose proof (next_stops self (draws k)) as Hstop.
    destruct (next self (draws k)) as [self' r]. cbn in Hstop.
    rewrite Hstop; [reflexivity|lia].
  - destruct (next_yields self (draws k)) as (blob & Hnext & Hlen); [lia|lia|].
    set (self' := {| count := count self + 1; N := N self;
                     min_size := min_size self; max_size := max_size self |}) in *.
    destruct (IH self' draws (S k)) as (blobs & Hrun & Hlength & Hall);
      [cbn; lia | cbn; lia | cbn; lia |].
    exists (blob :: blobs). split; [|split].
    + intros [|fuel] Hfuel; [lia|]. cbn [iterate]. rewrite Hnext.
      rewrite (Hrun fuel) by lia. reflexivity.
    + cbn. rewrite Hlength. reflexivity.
    + constructor; [exact Hlen|exact Hall].
Qed.

End Provider.

(** C9.  With sizes [0 <= min_size < max_size] and a count [N >= 0], the
    loop over the provider ends, whatever is drawn, after yielding exactly
    [N] blobs, each of a length in [[min_size, max_size)]. *)
Theorem provider_yields_count_blobs_in_range (min_size max_size N : Z)
    (draws : nat -> Sender.blob_draw) :
  0 <= min_size < max_size ->
  0 <= N ->
  exists blobs,
    (forall fuel, (Z.to_nat N < fuel)%nat ->
       Sender.for_each fuel (Sender.init min_size max_size N) draws = Some (blobs, Ok tt))
    /\ Z.of_nat (length blobs) = N
    /\ Forall (fun blob => min_size <= Z.of_nat (length blob) < max_size) blobs.
Proof.
  intros Hsz HN.
  destruct (iterate_remaining (Z.to_nat N)
              (Sender.iter (Sender.init min_size max_size N)) draws 0%nat)
    as (blobs & Hrun & Hlen & Hall); [cbn; lia | cbn; lia | cbn; lia |].
  exists blobs. split; [exact Hrun|]. split; [lia|exact Hall].
Qed.

Lemma provider_yields_count_blobs_in_range_witness :
  exists blobs,
    (forall fuel, (Z.to_nat 3 < fuel)%nat ->
       Sender.for_each fuel (Sender.init 2 5 3) zero_draws = Some (blobs, Ok tt))
    /\ Z.of_nat (length blobs) = 3
    /\ Forall (fun blob => 2 <= Z.of_nat (length blob) < 5) blobs.
Proof.
  apply (provider_yields_count_blobs_in_range 2 5 3 zero_draws); lia.
Defined.

Example provider_run :
  Sender.for_each 10 (Sender.init 2 5 3) zero_draws =
  Some ([[x00; x00]; [x00; x00]; [x00; x00]], Ok tt).
Proof. vm_compute. reflexivity. Qed.

(** ** upload_handler *)

Ltac run_io :=
  unfold mbind, io_bind, mret, io_ret, lift, raise, modify; cbn.

Section Handler.
Import Json Server.

Variables (cfg : config) (st : state).

Lemma dict_has_get {V} k (d : list (string * V)) v :
  dict_get k d = Some v -> dict_has k d = true.
Proof. unfold dict_has. intros ->. reflexivity. Qed.

Lemma upload_handler_no_bin_file data :
  dict_has "bin_file" data = false ->
  upload_handler cfg data st =
  ({| files := files st; log := log st ++ [NoBinFile (dict_keys data)] |},
   Ok (Response 400)).
Proof.
  intros H. unfold upload_handler, validate_post. rewrite H. reflexivity.
Qed.

Lemma upload_handler_no_metadata data :
  dict_has "bin_file" data = true ->
  dict_has "metadata" data = false ->
  upload_handler cfg data st =
  ({| files := files st; log := log st ++ [NoMetadata (dict_keys data)] |},
   Ok (Response 400)).
Proof.
  intros H1 H2. unfold upload_handler, validate_post. rewrite H1, H2. reflexivity.
Qed.

(** The handler up to the decoded metadata. *)
Lemma upload_handler_decoded data blob text :
  dict_get "bin_file" data = Some (FFile blob) ->
  dict_get "metadata" data = Some (FStr text) ->
  upload_handler cfg data st =
  match loads text with
  | None => (st, Raise JSONDecodeError)
  | Some metadata =>
      (ok ← validate_upload_metadata metadata;
       if negb ok then mret (Response 400)
       else
         content_id ← lift (getitem metadata "id");
         content_hash ← lift (getitem metadata "hash");
         if verify_hash cfg && negb (verify_checksum content_hash blob) then
           logging HashMismatch;; logging SaveSkipped;; mret (Response 400)
         else
           filename ← lift (server_filename content_id);
           let path := path_join (uploads_dir cfg) filename in
           write path blob;;
           logging (Wrote (length blob) path);;
           mret (json_response
                   [("message", "Successfully received the " +:+ str_of_nat (length blob)
                                  +:+ " byte file")])) st
  end.
Proof.
  intros Hb Hm. unfold upload_handler, validate_post.
  rewrite (dict_has_get _ _ _ Hb), (dict_has_get _ _ _ Hm).
  unfold form_get. rewrite Hb, Hm.
  unfold mbind at 1 2 3 4 5. unfold io_bind, mret, io_ret, lift, file_read, json_loads.
  cbn. destruct (loads text); reflexivity.
Qed.

Lemma upload_handler_no_id data blob text j :
  dict_get "bin_file" data = Some (FFile blob) ->
  dict_get "metadata" data = Some (FStr text) ->
  loads text = Some j ->
  contains_key "id" j = Ok false ->
  upload_handler cfg data st =
  ({| files := files st; log := log st ++ [NoId j] |}, Ok (Response 400)).
Proof.
  intros Hb Hm Hj Hid. rewrite (upload_handler_decoded _ _ _ Hb Hm), Hj.
  unfold validate_upload_metadata. rewrite Hid. reflexivity.
Qed.

Lemma upload_handler_no_hash data blob text j :
  dict_get "bin_file" data = Some (FFile blob) ->
  dict_get "metadata" data = Some (FStr text) ->
  loads text = Some j ->
  contains_key "id" j = Ok true ->
  contains_key "hash" j = Ok false ->
  upload_handler cfg data st =
  ({| files := files st; log := log st ++ [NoHash j] |}, Ok (Response 400)).
Proof.
  intros Hb Hm Hj Hid Hh. rewrite (upload_handler_decoded _ _ _ Hb Hm), Hj.
  unfold validate_upload_metadata. rewrite Hid. run_io. rewrite Hh. reflexivity.
Qed.

(** The handler on a request whose metadata is a [dict] with both keys. *)
Lemma upload_handler_well_formed data blob d content_id content_hash :
  well_formed data blob d ->
  dict_get "id" d = Some content_id ->
  dict_get "hash" d = Some content_hash ->
  upload_handler cfg data st =
  if verify_hash cfg && negb (verify_checksum content_hash blob) then
    ({| files := files st; log := log st ++ [HashMismatch; SaveSkipped] |},
     Ok (Response 400))
  else
    match content_id with
    | JStr cid =>
        ({| files := <[server_path cfg cid := blob]> (files st);
            log := log st ++ [Wrote (length blob) (server_path cfg cid)] |},
         Ok (json_response
               [("message", "Successfully received the " +:+ str_of_nat (length blob)
                              +:+ " byte file")]))
    | _ => (st, Raise TypeError)
    end.
Proof.
  intros (Hb & text & Hm & Hj) Hid Hh.
  rewrite (upload_handler_decoded _ _ _ Hb Hm), Hj.
  unfold validate_upload_metadata, contains_key.
  rewrite (dict_has_get _ _ _ Hid), (dict_has_get _ _ _ Hh).
  unfold getitem. rewrite Hid, Hh. run_io.
  destruct (verify_hash cfg && negb (verify_checksum content_hash blob)).
  - cbn. rewrite <- app_assoc. reflexivity.
  - destruct st as [fs lg].
    destruct content_id; reflexivity.
Qed.

End Handler.

Section HandlerOutcomes.
Import Json Server.

Lemma verify_checksum_false (h : json) (blob : bytes) :
  verify_checksum h blob = false <-> h <> JStr (Sha256.hexdigest blob).
Proof.
  unfold verify_checksum. destruct h; try (split; [discriminate|reflexivity]).
  rewrite String.eqb_neq. split; congruence.
Qed.

(** X5.  Whatever the request, the handler touches the disk only on the way to a
    200. *)
Lemma upload_handler_writes_only_on_success cfg data st st' r :
  upload_handler cfg data st = (st', r) ->
  files st' = files st \/ exists resp, r = Ok resp /\ status resp = 200.
Proof.
  destruct (dict_get "bin_file" data) as [[?|?]|] eqn:Hb;
    destruct (dict_get "metadata" data) as [[?|?]|] eqn:Hm;
    unfold upload_handler, validate_post, validate_upload_metadata, form_get, dict_has,
      file_read, json_loads, getitem, server_filename, contains_key;
    rewrite ?Hb, ?Hm; run_io;
    repeat (match goal with
            | |- context [match ?x with _ => _ end] =>
                lazymatch x with
                | context [match _ with _ => _ end] => fail
                | _ => destruct x eqn:?; cbn
                end
            end);
    intros [= <- <-]; cbn; auto; right; eexists; split; reflexivity.
Qed.

End HandlerOutcomes.




(** C5.  With checksum verification enabled, a request whose declared hash
    is not the SHA-256 hex digest of the bytes received is answered 400, the
    mismatch is logged, and the disk is left as it was: nothing is saved for
    its id. *)
Theorem checksum_mismatch_is_rejected cfg data st blob d content_id content_hash :
  Server.verify_hash cfg = true ->
  Server.well_formed data blob d ->
  dict_get "id" d = Some content_id ->
  dict_get "hash" d = Some content_hash ->
  content_hash <> Json.JStr (Sha256.hexdigest blob) ->
  Server.upload_handler cfg data st =
  ({| Server.files := Server.files st;
      Server.log := Server.log st ++ [Server.HashMismatch; Server.SaveSkipped] |},
   Ok (Server.Response 400)).
Proof.
  intros Hv Hwf Hid Hh Hne.
  rewrite (upload_handler_well_formed cfg st data blob d content_id content_hash Hwf Hid Hh).
  apply verify_checksum_false in Hne. rewrite Hv, Hne. reflexivity.
Qed.

Lemma checksum_mismatch_is_rejected_witness :
  Server.upload_handler strict_config bad_hash_request fresh_state =
  ({| Server.files := ∅;
      Server.log := [Server.HashMismatch; Server.SaveSkipped] |},
   Ok (Server.Response 400)).
Proof.
  apply (checksum_mismatch_is_rejected strict_config bad_hash_request fresh_state abc
           [("id", Json.JStr "b1"); ("hash", Json.JStr "00")]
           (Json.JStr "b1") (Json.JStr "00")).
  - reflexivity.
  - split; [reflexivity|]. eexists. split; [reflexivity|]. vm_compute. reflexivity.
  - reflexivity.
  - reflexivity.
  - vm_compute. discriminate.
Defined.



Example acknowledgement_text :
  Json.dumps [("message", "Successfully received the " +:+ str_of_nat 1024 +:+ " byte file")]
  = dq "{'message': 'Successfully received the 1024 byte file'}".
Proof. vm_compute. reflexivity. Qed.

Example saved_path : Server.server_path strict_config "b1" = "/tmp/server-b1.bin".
Proof. vm_compute. reflexivity. Qed.

(** ** From the sender to the receiver *)

(** The form of a request the sender posts is well formed for the receiver:
    its metadata decodes to the id and the digest of the original blob. *)
Lemma sent_request_is_well_formed config d blob sent :
  Server.well_formed (form (Sender.request_for config d blob sent)) sent
    [("id", Json.JStr (Sender.uuid4 (Sender.uuid_bits d)));
     ("hash", Json.JStr (Sha256.hexdigest blob))].
Proof.
  split; [reflexivity|]. eexists. split; [reflexivity|].
  apply loads_dumps_pair; try reflexivity.
  - apply plain_uuid4.
  - apply plain_hex.
Qed.

(** X1.  A blob sent without fault injection is accepted by the receiver, with
    or without checksum verification, and saved as it was generated: the
    receiver's file and the sender's file both hold the blob. *)
Theorem clean_upload_is_accepted name config d blob w w' p cfg st :
  Sender.send_blob_prepare name blob config d w = (w', Ok p) ->
  Sender.injected config d = false ->
  exists st',
    Server.upload_handler cfg (form (Sender.p_request p)) st =
      (st', Ok (Server.json_response
                  [("message", "Successfully received the "
                                 +:+ str_of_nat (length blob) +:+ " byte file")]))
    /\ Server.files st' !! Server.server_path cfg (Sender.p_id p) = Some blob
    /\ Sender.files w' !! Sender.p_path p = Some blob.
Proof.
  intros Hcall Hinj.
  destruct (send_blob_prepare_cases _ _ _ _ _ _ _ Hcall)
    as [(_ & -> & Hr) | [(sent & Hinj' & _) | (e & Hinj' & _)]]; try congruence.
  injection Hr as ->. cbn [Sender.p_request Sender.p_id Sender.p_path Sender.prepared_for].
  rewrite (upload_handler_well_formed cfg st _ blob _ _ _
             (sent_request_is_well_formed config d blob blob) eq_refl eq_refl).
  unfold Server.verify_checksum. rewrite String.eqb_refl, andb_false_r.
  eexists. split; [reflexivity|]. cbn. split; apply lookup_insert_eq.
Qed.

Lemma clean_upload_is_accepted_witness :
  exists st',
    Server.upload_handler strict_config (form (Sender.p_request kilobyte_send)) fresh_state =
      (st', Ok (Server.json_response
                  [("message", "Successfully received the "
                                 +:+ str_of_nat (length kilobyte) +:+ " byte file")]))
    /\ Server.files st' !! Server.server_path strict_config (Sender.p_id kilobyte_send)
       = Some kilobyte
    /\ Sender.files (Sender.after_prepare "W0" one_file_config low_draw [] kilobyte kilobyte
                       Sender.empty_world)
         !! Sender.p_path kilobyte_send = Some kilobyte.
Proof.
  apply (clean_upload_is_accepted "W0" one_file_config low_draw kilobyte
           Sender.empty_world
           (Sender.after_prepare "W0" one_file_config low_draw [] kilobyte kilobyte
              Sender.empty_world)
           kilobyte_send strict_config fresh_state).
  - apply send_blob_prepare_plain. reflexivity.
  - reflexivity.
Defined.

(** X2.  A blob sent with the fault injected is refused by a receiver that
    verifies checksums, and not saved, provided the corrupted bytes do not
    happen to have the digest of the original ones. *)
Theorem corrupted_upload_is_refused name config d blob w w' p cfg st :
  Sender.send_blob_prepare name blob config d w = (w', Ok p) ->
  Sender.injected config d = true ->
  Server.verify_hash cfg = true ->
  Sha256.hexdigest (Sender.p_sent p) <> Sha256.hexdigest blob ->
  Server.upload_handler cfg (form (Sender.p_request p)) st =
  ({| Server.files := Server.files st;
      Server.log := Server.log st ++ [Server.HashMismatch; Server.SaveSkipped] |},
   Ok (Server.Response 400)).
Proof.
  intros Hcall Hinj Hv Hdiff.
  destruct (send_blob_prepare_cases _ _ _ _ _ _ _ Hcall)
    as [(Hinj' & _) | [(sent & _ & _ & -> & Hr) | (e & _ & _ & _ & Hr)]];
    [congruence| |discriminate].
  injection Hr as ->. cbn [Sender.p_request Sender.p_sent Sender.prepared_for] in *.
  rewrite (upload_handler_well_formed cfg st _ sent _ _ _
             (sent_request_is_well_formed config d blob sent) eq_refl eq_refl).
  unfold Server.verify_checksum. rewrite Hv.
  destruct (String.eqb_spec (Sha256.hexdigest blob) (Sha256.hexdigest sent)) as [He|_];
    [congruence|]. reflexivity.
Qed.

Lemma corrupted_upload_is_refused_witness :
  Server.upload_handler strict_config
    (form (Sender.request_for injecting_config low_draw zeros_blob zeros_blob_corrupted))
    fresh_state =
  ({| Server.files := ∅; Server.log := [Server.HashMismatch; Server.SaveSkipped] |},
   Ok (Server.Response 400)).
Proof.
  apply (corrupted_upload_is_refused "W0" injecting_config low_draw zeros_blob
           Sender.empty_world
           (Sender.after_prepare "W0" injecting_config low_draw [Sender.Corrupting "W0"]
              zeros_blob zeros_blob_corrupted Sender.empty_world)
           (Sender.prepared_for injecting_config low_draw zeros_blob zeros_blob_corrupted)
           strict_config fresh_state).
  - apply send_blob_prepare_corrupted; reflexivity.
  - reflexivity.
  - reflexivity.
  - vm_compute. discriminate.
Defined.

(** ** The pipeline *)

Lemma worker_start_cases config i blob d w w' t ev :
  Sender.worker_start config i blob d w = (w', t, ev) ->
  (exists p, Sender.send_blob_prepare (Sender.worker_name i) blob config d w = (w', Ok p)
             /\ t = Sender.Posting blob /\ ev = Sender.Start i blob p)
  \/ (exists e, Sender.send_blob_prepare (Sender.worker_name i) blob config d w = (w', Raise e)
                /\ t = Sender.Crashed blob e /\ ev = Sender.Crash i blob e).
Proof.
  unfold Sender.worker_start.
  destruct (Sender.send_blob_prepare (Sender.worker_name i) blob config d w) as [w1 [p|e]];
    intros [= <- <- <-]; [left|right]; eauto.
Qed.

Lemma worker_resume_cases i blob o w q w' q' t ev :
  Sender.worker_resume i blob o w q = (w', q', t, ev) ->
  (Sender.send_blob_finish (Sender.worker_name i) o w = (w', Ok tt)
   /\ Queue.task_done q = Ok q' /\ t = Sender.Waiting /\ ev = Sender.Finish i blob)
  \/ (exists e, q' = q /\ t = Sender.Crashed blob e /\ ev = Sender.Crash i blob e).
Proof.
  unfold Sender.worker_resume.
  destruct (Sender.send_blob_finish (Sender.worker_name i) o w) as [w1 [[]|e]].
  - destruct (Queue.task_done q) as [q1|e] eqn:Hq; intros [= <- <- <- <-];
      [left|right]; eauto.
  - intros [= <- <- <- <-]. right. eauto.
Qed.

(** Splits a step into its cases, with the queue operations unfolded. *)
Ltac step_cases H :=
  inversion H; subst; clear H;
  repeat match goal with
    | H : Sender.worker_start _ _ _ _ _ = _ |- _ =>
        apply worker_start_cases in H;
        destruct H as [(? & ? & -> & ->) | (? & ? & -> & ->)]
    | H : Sender.worker_resume _ _ _ _ _ = _ |- _ =>
        apply worker_resume_cases in H;
        destruct H as [(? & ? & -> & ->) | (? & -> & -> & ->)]
    | H : Queue.put _ _ = Some _ |- _ =>
        unfold Queue.put in H; destruct (Queue.full _) eqn:?; [discriminate|];
        injection H as <-
    | H : Queue.get _ = Some _ |- _ =>
        unfold Queue.get in H; destruct (Queue.items _) as [|? ?] eqn:?;
        [discriminate|]; injection H as <- <-
    | H : Queue.task_done _ = Ok _ |- _ =>
        unfold Queue.task_done in H;
        destruct (Queue.unfinished_tasks _ <=? 0) eqn:?; [discriminate|];
        injection H as <-
    end;
  cbn [Sender.provider Sender.queue Sender.send_tasks Sender.env Sender.pc
       Queue.items Queue.maxsize Queue.unfinished_tasks
       Sender.puts Sender.gots Sender.starts Sender.finishes flat_map app] in *.

Section Pipeline.
Import Sender.

Variable config : SenderConfig.

Lemma flat_map_insert {A B} (f : A -> list B) (l : list A) i x y :
  l !! i = Some x ->
  exists rest, flat_map f l ≡ₚ f x ++ rest /\ flat_map f (<[i:=y]> l) ≡ₚ f y ++ rest.
Proof.
  intros H. exists (flat_map f (take i l) ++ flat_map f (drop (S i) l)).
  rewrite <- (take_drop_middle l i x H) at 1.
  rewrite insert_take_drop by (eapply lookup_lt_Some; eauto).
  rewrite !flat_map_app. cbn [flat_map].
  split; apply Permutation_app_swap_app.
Qed.

(** *** What a trace projects to *)

Lemma puts_app tr ev : puts (tr ++ [ev]) = puts tr ++ puts [ev].
Proof. apply flat_map_app. Qed.

Lemma gots_app tr ev : gots (tr ++ [ev]) = gots tr ++ gots [ev].
Proof. apply flat_map_app. Qed.

Lemma starts_app tr ev : starts (tr ++ [ev]) = starts tr ++ starts [ev].
Proof. apply flat_map_app. Qed.

Lemma finishes_app tr ev : finishes (tr ++ [ev]) = finishes tr ++ finishes [ev].
Proof. apply flat_map_app. Qed.

(** *** The queue: nothing dropped, first in first out *)

Lemma run_fifo tr s :
  run config tr s ->
  puts tr = gots tr ++ Queue.items (queue s)
  /\ Queue.maxsize (queue s) = num_files config.
Proof.
  induction 1 as [|tr s ev s' Hrun [IH Hmax] Hstep]; [split; reflexivity|].
  rewrite puts_app, gots_app.
  step_cases Hstep; rewrite ?app_nil_r; try (split; assumption).
  - rewrite IH, <- app_assoc. split; [reflexivity|assumption].
  - rewrite IH, <- app_assoc. split; [reflexivity|assumption].
Qed.

(** *** Accounting for the blobs taken from the queue *)

Lemma held_replicate_waiting n : held (replicate n Waiting) = [].
Proof. induction n; [reflexivity|assumption]. Qed.

Lemma posting_replicate_waiting n : posting (replicate n Waiting) = [].
Proof. induction n; [reflexivity|assumption]. Qed.

(** What replacing the task at [i] does to the held and the posting blobs. *)
Lemma tasks_insert ts i t t' :
  ts !! i = Some t ->
  exists hrest prest,
    held ts ≡ₚ held_by t ++ hrest
    /\ held (<[i:=t']> ts) ≡ₚ held_by t' ++ hrest
    /\ posting ts ≡ₚ posting_by t ++ prest
    /\ posting (<[i:=t']> ts) ≡ₚ posting_by t' ++ prest.
Proof.
  intros H.
  destruct (flat_map_insert held_by ts i t t' H) as (hrest & H1 & H2).
  destruct (flat_map_insert posting_by ts i t t' H) as (prest & H3 & H4).
  exists hrest, prest. auto.
Qed.

Lemma run_accounting tr s :
  run config tr s ->
  gots tr ≡ₚ finishes tr ++ held (send_tasks s)
  /\ Queue.unfinished_tasks (queue s) =
     Z.of_nat (length (Queue.items (queue s)) + length (held (send_tasks s)))
  /\ exists rest, (starts tr).*1 ≡ₚ finishes tr ++ posting (send_tasks s) ++ rest.
Proof.
  induction 1 as [|tr s ev s' Hrun (IHg & IHu & rest & IHs) Hstep].
  { cbn. rewrite held_replicate_waiting, posting_replicate_waiting.
    split; [reflexivity|]. split; [reflexivity|]. exists []. reflexivity. }
  rewrite gots_app, starts_app, finishes_app, fmap_app.
  step_cases Hstep; rewrite ?app_nil_r;
    try match goal with
      | H : send_tasks s !! _ = Some ?t |- context [<[_ := ?t']> (send_tasks s)] =>
          destruct (tasks_insert _ _ t t' H) as (hrest & prest & Hh & Hh' & Hp & Hp');
          cbn [held_by posting_by app] in Hh, Hh', Hp, Hp';
          pose proof (Permutation_length Hh) as Lh;
          pose proof (Permutation_length Hh') as Lh'
      end.
  all: split; [|split].
  all: try assumption.
  all: try (exists rest; assumption).
  all: try (rewrite ?Hh'; rewrite IHg, ?Hh; solve_Permutation).
  all: try (rewrite IHu; rewrite ?length_app, ?length_cons in *; cbn [length] in *; lia).
  all: try (exists rest; rewrite ?Hp'; cbn [fmap list_fmap fst]; rewrite IHs, ?Hp;
            solve_Permutation).
  all: try (eexists (_ :: rest); rewrite ?Hp'; cbn [fmap list_fmap fst];
            rewrite IHs, ?Hp; solve_Permutation).
Qed.

(** *** The phases of [main] *)

Lemma run_phases tr s :
  run config tr s ->
  (generating (pc s) -> ~ In Exhausted tr /\ ~ In Join tr)
  /\ (pc s = Joining -> In Exhausted tr /\ ~ In Join tr)
  /\ (In Join tr -> In Exhausted tr).
Proof.
  induction 1 as [|tr s ev s' Hrun (IHg & IHj & IHe) Hstep].
  { cbn. repeat split; auto; discriminate. }
  assert (Hin : forall e, In e (tr ++ [ev]) <-> In e tr \/ e = ev).
  { intros e. rewrite in_app_iff. cbn. intuition. }
  rewrite !Hin.
  step_cases Hstep;
    try match goal with H : pc s = _ |- _ => rewrite H in IHg, IHj end;
    cbn [generating] in *; intuition (discriminate || congruence).
Qed.

(** *** The provider's count *)

Lemma next_inv self d self' r :
  next self d = (self', r) ->
  N self' = N self
  /\ count self' = count self + 1
  /\ ((N self < count self + 1 /\ r = Raise StopIteration)
      \/ (count self + 1 <= N self /\ r <> Raise StopIteration)).
Proof.
  unfold next. cbn.
  destruct (N self <? count self + 1) eqn:Hlt; intros [= <- <-]; cbn.
  - split; [reflexivity|]. split; [reflexivity|]. left. split; [lia|reflexivity].
  - split; [reflexivity|]. split; [reflexivity|]. right. split; [lia|].
    unfold randrange, urandom.
    destruct (max_size self <=? min_size self); [discriminate|]. cbn.
    destruct (_ <? 0); discriminate.
Qed.

Lemma run_provider tr s :
  run config tr s ->
  N (provider s) = num_files config
  /\ (length (puts tr) <= Z.to_nat (num_files config))%nat
  /\ (pc s = Generating -> count (provider s) = Z.of_nat (length (puts tr)))
  /\ (forall blob, pc s = Putting blob ->
        count (provider s) = Z.of_nat (length (puts tr)) + 1
        /\ count (provider s) <= num_files config)
  /\ (In Exhausted tr -> length (puts tr) = Z.to_nat (num_files config)).
Proof.
  intros Hrun. pose proof (run_phases _ _ Hrun) as Hph. revert Hph.
  induction Hrun as [|tr s ev s' Hrun IH Hstep]; intros Hph'.
  { cbn. repeat split; try lia; try discriminate; intros []. }
  pose proof (run_phases _ _ Hrun) as (Pg & Pj & Pe).
  destruct (IH (run_phases _ _ Hrun)) as (IHN & IHle & IHg & IHp & IHe).
  assert (Hin : forall e, In e (tr ++ [ev]) <-> In e tr \/ e = ev).
  { intros e. rewrite in_app_iff. cbn. intuition. }
  rewrite Hin, puts_app. clear Hph'.
  step_cases Hstep; rewrite ?app_nil_r, ?length_app; cbn [length];
    try match goal with H : next _ _ = _ |- _ =>
      apply next_inv in H; destruct H as (? & ? & [[? ?]|[? ?]])
    end;
    try match goal with H : pc s = _ |- _ =>
      rewrite H in *; cbn [generating] in *
    end;
    try specialize (IHp _ eq_refl);
    intuition (try discriminate; try congruence; try lia).
Qed.

(** *** When [join] returns *)

Lemma held_lookup ts i t :
  ts !! i = Some t -> (length (held_by t) <= length (held ts))%nat.
Proof.
  intros H. destruct (flat_map_insert held_by ts i t t H) as (rest & Hp & _).
  apply Permutation_length in Hp. fold (held ts) in Hp.
  rewrite Hp, length_app. lia.
Qed.

Lemma run_joined tr s :
  run config tr s ->
  In Join tr ->
  Queue.unfinished_tasks (queue s) = 0
  /\ ~ generating (pc s) /\ pc s <> Joining.
Proof.
  induction 1 as [|tr s ev s' Hrun IH Hstep]; [intros []|].
  pose proof (run_accounting _ _ Hrun) as (_ & Hacc & _).
  pose proof (run_phases _ _ Hrun) as (Pg & Pj & _).
  rewrite in_app_iff. cbn [In].
  intros Hin.
  assert (Hold : In Join tr ->
                 Queue.items (queue s) = [] /\ held (send_tasks s) = []
                 /\ Queue.unfinished_tasks (queue s) = 0
                 /\ ~ generating (pc s) /\ pc s <> Joining).
  { intros Hj. destruct (IH Hj) as (Hu & Hg & Hn).
    rewrite Hu in Hacc.
    destruct (Queue.items (queue s)); [|cbn in Hacc; lia].
    destruct (held (send_tasks s)); [|cbn in Hacc; lia].
    auto. }
  step_cases Hstep;
    try match goal with H : send_tasks s !! _ = Some _ |- _ =>
      pose proof (held_lookup _ _ _ H) as Hheld; cbn [held_by length] in Hheld
    end;
    try match goal with H : pc s = _ |- _ =>
      rewrite H in *; cbn [generating] in *
    end.
  all: destruct Hin as [Hj | [Hev | []]]; [|try discriminate Hev].
  all: try (destruct (Hold Hj) as (Hi & Hh & Hu & Hg & Hn);
            try rewrite Hh in Hheld; cbn [length] in *;
            try discriminate Hi;
            try (exfalso; first [tauto | lia | congruence]);
            repeat split; first [assumption | discriminate | tauto | lia]).
  unfold Queue.joined in *.
  repeat split; [lia|tauto|discriminate].
Qed.

(** *** What the workers leave in the world *)











End Pipeline.

(** ** A worker and the end of a send *)

Lemma send_blob_finish_ok name response j msg w :
  Sender.status response = 200 ->
  Sender.response_json response = Ok j ->
  Json.getitem j "message" = Ok msg ->
  Sender.send_blob_finish name (Sender.Reply response) w =
  (Sender.logged (Sender.SentOk name msg) w, Ok tt).
Proof.
  intros Hs Hj Hm. unfold Sender.send_blob_finish. rewrite Hs. cbn.
  run_io. rewrite Hj. cbn. rewrite Hm. reflexivity.
Qed.

(** X3.  A response other than 200 is logged, the blob is marked done and the
    worker goes back to the queue. *)
Lemma send_worker_survives_bad_status i blob response w q :
  Sender.status response <> 200 ->
  0 < Queue.unfinished_tasks q ->
  Sender.worker_resume i blob (Sender.Reply response) w q =
  (Sender.logged (Sender.BadStatus (Sender.worker_name i) (Sender.status response)) w,
   {| Queue.maxsize := Queue.maxsize q; Queue.items := Queue.items q;
      Queue.unfinished_tasks := Queue.unfinished_tasks q - 1 |},
   Sender.Waiting, Sender.Finish i blob).
Proof.
  intros Hs Hu. unfold Sender.worker_resume, Sender.send_blob_finish.
  destruct (Sender.status response =? 200) eqn:He; [lia|].
  cbn. unfold Queue.task_done.
  destruct (Queue.unfinished_tasks q <=? 0) eqn:Hle; [lia|]. reflexivity.
Qed.

(** C1, where the code departs from it.  Take any state the program
    reaches in which a worker awaits the response to its request, and let
    the request raise instead of returning one (connection refused or lost,
    timeout).  The exception leaves [send_blob] and [send_worker], whose
    only handler is for [CancelledError]: the worker task ends with it, the
    log is as it was, [task_done] is not called, so the count of unfinished
    tasks is as it was and [join] cannot return. *)
Theorem send_worker_dies_without_a_reply config tr s i blob :
  Sender.run config tr s ->
  Sender.send_tasks s !! i = Some (Sender.Posting blob) ->
  let s' :=
    {| Sender.provider := Sender.provider s;
       Sender.queue := Sender.queue s;
       Sender.send_tasks := <[i := Sender.Crashed blob ClientError]> (Sender.send_tasks s);
       Sender.env := Sender.env s;
       Sender.pc := Sender.pc s |} in
  Sender.worker_resume i blob Sender.NoReply (Sender.env s) (Sender.queue s) =
    (Sender.env s, Sender.queue s, Sender.Crashed blob ClientError,
     Sender.Crash i blob ClientError)
  /\ Sender.step config s (Sender.Crash i blob ClientError) s'
  /\ Sender.send_tasks s' !! i = Some (Sender.Crashed blob ClientError)
  /\ Queue.joined (Sender.queue s') = false.
Proof.
  intros Hrun Hi s'.
  assert (Hstep : Sender.step config s (Sender.Crash i blob ClientError) s').
  { eapply (Sender.step_response config s i blob Sender.NoReply); [exact Hi|reflexivity]. }
  assert (Hi' : Sender.send_tasks s' !! i = Some (Sender.Crashed blob ClientError)).
  { cbn. apply list_lookup_insert_eq. eapply lookup_lt_Some. exact Hi. }
  split; [reflexivity|]. split; [exact Hstep|]. split; [exact Hi'|].
  pose proof (Sender.run_step _ _ _ _ _ Hrun Hstep) as Hrun'.
  destruct (run_accounting _ _ _ Hrun') as (_ & Hacc & _).
  pose proof (held_lookup _ _ _ Hi') as Hheld. cbn [Sender.held_by length] in Hheld.
  unfold Queue.joined. rewrite Hacc. apply Z.leb_gt. lia.
Qed.

(** ** The queue and the barrier *)

(** C7.  In every state the program reaches, the queue, whose [maxsize] is
    [num_files], holds at most [num_files] blobs (none when [num_files] is
    negative); a [put] on a full queue leaves its caller waiting, and a
    [put] that returns has stored the blob; the blobs put are, in order, the
    blobs got followed by the blobs still queued. *)
Theorem queue_is_bounded_and_fifo config tr s :
  Sender.run config tr s ->
  Queue.maxsize (Sender.queue s) = Sender.num_files config
  /\ Z.of_nat (length (Queue.items (Sender.queue s))) <= Z.max 0 (Sender.num_files config)
  /\ (forall blob,
        if Queue.full (Sender.queue s)
        then Queue.put blob (Sender.queue s) = None
        else exists q', Queue.put blob (Sender.queue s) = Some q'
                        /\ Queue.items q' = Queue.items (Sender.queue s) ++ [blob])
  /\ Sender.puts tr = Sender.gots tr ++ Queue.items (Sender.queue s).
Proof.
  intros Hrun.
  destruct (run_fifo _ _ _ Hrun) as [Hfifo Hmax].
  destruct (run_provider _ _ _ Hrun) as (_ & Hle & _).
  split; [exact Hmax|]. split; [|split; [|exact Hfifo]].
  - apply (f_equal (@length _)) in Hfifo. rewrite length_app in Hfifo. lia.
  - intros blob. unfold Queue.put.
    destruct (Queue.full (Sender.queue s)); [reflexivity|].
    eexists. split; reflexivity.
Qed.


(** X4.  A worker task that ended with an exception keeps [join] from ever
    returning: the blob it had is never marked done. *)
Lemma crashed_worker_blocks_join config tr s i blob e :
  Sender.run config tr s ->
  Sender.send_tasks s !! i = Some (Sender.Crashed blob e) ->
  Queue.joined (Sender.queue s) = false.
Proof.
  intros Hrun Hi.
  destruct (run_accounting _ _ _ Hrun) as (_ & Hacc & _).
  pose proof (held_lookup _ _ _ Hi) as Hheld. cbn in Hheld.
  unfold Queue.joined. rewrite Hacc. apply Z.leb_gt. lia.
Qed.

(** ** One blob through the pipeline *)

Lemma one_file_run : exists s, Sender.run one_file_config one_file_trace s.
Proof.
  eexists.
  eapply (Sender.run_step _ [_; _; _; _; _; _] _ Sender.Join).
  eapply (Sender.run_step _ [_; _; _; _; _] _ Sender.Exhausted).
  eapply (Sender.run_step _ [_; _; _; _] _ (Sender.Finish 0 kilobyte)).
  eapply (Sender.run_step _ [_; _; _] _ (Sender.Start 0 kilobyte kilobyte_send)).
  eapply (Sender.run_step _ [_; _] _ (Sender.Get 0 kilobyte)).
  eapply (Sender.run_step _ [_] _ (Sender.Put kilobyte)).
  eapply (Sender.run_step _ [] _ (Sender.Produce kilobyte)).
  - apply Sender.run_initial.
  - eapply (Sender.step_produce _ _ (zero_draws 0%nat)); reflexivity.
  - eapply Sender.step_put; reflexivity.
  - eapply (Sender.step_get _ _ 0%nat); reflexivity.
  - eapply (Sender.step_start _ _ 0%nat kilobyte low_draw); [reflexivity|].
    unfold Sender.worker_start.
    rewrite (send_blob_prepare_plain _ one_file_config low_draw) by reflexivity.
    reflexivity.
  - eapply (Sender.step_response _ _ 0%nat kilobyte (Sender.Reply ok_reply));
      [reflexivity|].
    unfold Sender.worker_resume.
    rewrite (send_blob_finish_ok _ ok_reply
               (Json.JObj [("message",
                            Json.JStr "Successfully received the 1024 byte file")])
               (Json.JStr "Successfully received the 1024 byte file"))
      by (vm_compute; reflexivity).
    reflexivity.
  - eapply (Sender.step_exhausted _ _ (zero_draws 1%nat)); reflexivity.
  - eapply Sender.step_join; reflexivity.
Qed.

Lemma queue_is_bounded_and_fifo_witness :
  exists s,
    Sender.run one_file_config one_file_trace s
    /\ Z.of_nat (length (Queue.items (Sender.queue s))) <= 1
    /\ Sender.puts one_file_trace =
       Sender.gots one_file_trace ++ Queue.items (Sender.queue s).
Proof.
  destruct one_file_run as [s Hrun]. exists s.
  split; [exact Hrun|].
  destruct (queue_is_bounded_and_fifo one_file_config one_file_trace s Hrun)
    as (_ & Hle & _ & Hfifo).
  split; [exact Hle|exact Hfifo].
Defined.


Example one_file_puts : Sender.puts one_file_trace = [kilobyte].
Proof. reflexivity. Qed.

Lemma posting_run :
  exists s,
    Sender.run one_file_config posting_trace s
    /\ Sender.send_tasks s !! 0%nat = Some (Sender.Posting kilobyte).
Proof.
  eexists. split.
  - eapply (Sender.run_step _ [_; _; _] _ (Sender.Start 0 kilobyte kilobyte_send)).
    eapply (Sender.run_step _ [_; _] _ (Sender.Get 0 kilobyte)).
    eapply (Sender.run_step _ [_] _ (Sender.Put kilobyte)).
    eapply (Sender.run_step _ [] _ (Sender.Produce kilobyte)).
    + apply Sender.run_initial.
    + eapply (Sender.step_produce _ _ (zero_draws 0%nat)); reflexivity.
    + eapply Sender.step_put; reflexivity.
    + eapply (Sender.step_get _ _ 0%nat); reflexivity.
    + eapply (Sender.step_start _ _ 0%nat kilobyte low_draw); [reflexivity|].
      unfold Sender.worker_start.
      rewrite (send_blob_prepare_plain _ one_file_config low_draw) by reflexivity.
      reflexivity.
  - reflexivity.
Qed.

Lemma lost_reply_run :
  exists s,
    Sender.run one_file_config lost_reply_trace s
    /\ Sender.send_tasks s !! 0%nat = Some (Sender.Crashed kilobyte ClientError).
Proof.
  destruct posting_run as (s & Hrun & Hposting).
  eexists. split.
  - eapply (Sender.run_step _ posting_trace _ (Sender.Crash 0 kilobyte ClientError)).
    + exact Hrun.
    + eapply (Sender.step_response _ _ 0%nat kilobyte Sender.NoReply);
        [exact Hposting|reflexivity].
  - cbn. apply list_lookup_insert_eq. eapply lookup_lt_Some. exact Hposting.
Qed.

Lemma send_worker_dies_without_a_reply_witness :
  exists s s',
    Sender.run one_file_config posting_trace s
    /\ Sender.step one_file_config s (Sender.Crash 0 kilobyte ClientError) s'
    /\ Queue.joined (Sender.queue s') = false.
Proof.
  destruct posting_run as (s & Hrun & Hposting).
  exists s. eexists. split; [exact Hrun|].
  destruct (send_worker_dies_without_a_reply one_file_config posting_trace s 0%nat
              kilobyte Hrun Hposting) as (_ & Hstep & _ & Hjoin).
  split; [exact Hstep|exact Hjoin].
Defined.

Lemma crashed_worker_blocks_join_witness :
  exists s,
    Sender.run one_file_config lost_reply_trace s
    /\ Queue.joined (Sender.queue s) = false.
Proof.
  destruct lost_reply_run as (s & Hrun & Hcrashed). exists s.
  split; [exact Hrun|].
  exact (crashed_worker_blocks_join one_file_config lost_reply_trace s 0%nat kilobyte
           ClientError Hrun Hcrashed).
Defined.

Lemma send_worker_survives_bad_status_witness :
  Sender.worker_resume 0 kilobyte (Sender.Reply bad_gateway) Sender.empty_world
    {| Queue.maxsize := 1; Queue.items := []; Queue.unfinished_tasks := 1 |} =
  (Sender.logged (Sender.BadStatus "W0" 502) Sender.empty_world,
   {| Queue.maxsize := 1; Queue.items := []; Queue.unfinished_tasks := 0 |},
   Sender.Waiting, Sender.Finish 0 kilobyte).
Proof.
  apply (send_worker_survives_bad_status 0 kilobyte bad_gateway Sender.empty_world
           {| Queue.maxsize := 1; Queue.items := []; Queue.unfinished_tasks := 1 |}).
  - cbn. lia.
  - cbn. lia.
Defined.

Lemma upload_handler_writes_only_on_success_witness :
  Server.files fresh_state = Server.files fresh_state
  \/ exists resp, Raise JSONDecodeError = Ok resp /\ Server.status resp = 200.
Proof.
  apply (upload_handler_writes_only_on_success strict_config not_json_request
           fresh_state fresh_state (Raise JSONDecodeError)).
  vm_compute. reflexivity.
Defined.

(** ** Every answer of upload_handler *)

Section HandlerAnswers.
Import Json Server.

Variables (cfg : config) (st : state).

(** The handler on a request whose [bin_file] part is a text. *)
Lemma upload_handler_text_part data text :
  dict_get "bin_file" data = Some (FStr text) ->
  dict_has "metadata" data = true ->
  upload_handler cfg data st = (st, Raise AttributeError).
Proof.
  intros Hb Hm. unfold upload_handler, validate_post.
  rewrite (dict_has_get _ _ _ Hb), Hm. unfold form_get. rewrite Hb. reflexivity.
Qed.

(** The handler on a request whose [metadata] part is a file. *)
Lemma upload_handler_file_metadata data blob content :
  dict_get "bin_file" data = Some (FFile blob) ->
  dict_get "metadata" data = Some (FFile content) ->
  upload_handler cfg data st = (st, Raise TypeError).
Proof.
  intros Hb Hm. unfold upload_handler, validate_post.
  rewrite (dict_has_get _ _ _ Hb), (dict_has_get _ _ _ Hm).
  unfold form_get. rewrite Hb, Hm. reflexivity.
Qed.

(** Every way the handler can go, by the parts of the request. *)
Lemma upload_handler_cases data :
  (dict_has "bin_file" data = false \/ dict_has "metadata" data = false)
  \/ (exists text, dict_get "bin_file" data = Some (FStr text)
                   /\ dict_has "metadata" data = true)
  \/ (exists blob content, dict_get "bin_file" data = Some (FFile blob)
                           /\ dict_get "metadata" data = Some (FFile content))
  \/ (exists blob text, dict_get "bin_file" data = Some (FFile blob)
                        /\ dict_get "metadata" data = Some (FStr text)).
Proof.
  unfold dict_has.
  destruct (dict_get "bin_file" data) as [[t|blob]|]; [| |left; left; reflexivity];
    destruct (dict_get "metadata" data) as [[text|content]|];
    try (left; right; reflexivity).
  - right; left. exists t. split; reflexivity.
  - right; left. exists t. split; reflexivity.
  - right; right; right. exists blob, text. split; reflexivity.
  - right; right; left. exists blob, content. split; reflexivity.
Qed.

End HandlerAnswers.

Section Raises.
Import Json Server.

(** Metadata that decodes to something other than a [dict]: 400 when the
    value does not contain both keys, [TypeError] otherwise. *)
Lemma upload_handler_not_object cfg data st blob text j st' r :
  dict_get "bin_file" data = Some (FFile blob) ->
  dict_get "metadata" data = Some (FStr text) ->
  loads text = Some j ->
  (forall d, j <> JObj d) ->
  upload_handler cfg data st = (st', r) ->
  (r = Ok (Response 400) /\ files st' = files st) \/ (st' = st /\ r = Raise TypeError).
Proof.
  intros Hb Hm Hj Hno.
  rewrite (upload_handler_decoded cfg st data blob text Hb Hm), Hj.
  unfold validate_upload_metadata, contains_key, getitem.
  destruct j as [| | | | s | items | d]; run_io;
    try (intros [= <- <-]; right; split; reflexivity).
  - destruct (contains "id" s); cbn;
      [destruct (contains "hash" s); cbn|];
      intros [= <- <-]; auto.
  - destruct (json_is_str "id" items); cbn;
      [destruct (json_is_str "hash" items); cbn|];
      intros [= <- <-]; auto.
  - destruct (Hno d eq_refl).
Qed.


(** X15.  A response of [upload_handler] is either the empty 400, with
    the disk unchanged, or the 200 acknowledgement; and it answers 200 only
    to a request with a file part and metadata that decode to an object with
    a string id and a hash that passes verification when that is enabled,
    having written exactly that file and logged it. *)
Theorem acknowledged_upload_was_valid cfg data st st' resp :
  upload_handler cfg data st = (st', Ok resp) ->
  (resp = Response 400 /\ files st' = files st)
  \/ (exists blob d cid h,
        well_formed data blob d
        /\ dict_get "id" d = Some (JStr cid)
        /\ dict_get "hash" d = Some h
        /\ (verify_hash cfg = false \/ h = JStr (Sha256.hexdigest blob))
        /\ resp = json_response
                    [("message", "Successfully received the " +:+ str_of_nat (length blob)
                                   +:+ " byte file")]
        /\ files st' = <[server_path cfg cid := blob]> (files st)
        /\ log st' = log st ++ [Wrote (length blob) (server_path cfg cid)]).
Proof.
  destruct (upload_handler_cases data)
    as [[Hb|Hm] | [(t & Hb & Hm) | [(blob & content & Hb & Hm) | (blob & text & Hb & Hm)]]].
  - rewrite (upload_handler_no_bin_file cfg st data Hb). intros [= <- <-]. auto.
  - destruct (dict_has "bin_file" data) eqn:Hb.
    + rewrite (upload_handler_no_metadata cfg st data Hb Hm). intros [= <- <-]. auto.
    + rewrite (upload_handler_no_bin_file cfg st data Hb). intros [= <- <-]. auto.
  - rewrite (upload_handler_text_part cfg st data t Hb Hm). discriminate.
  - rewrite (upload_handler_file_metadata cfg st data blob content Hb Hm). discriminate.
  - intros H.
    destruct (loads text) as [j|] eqn:Hj.
    + assert (Hkind : (forall d, j <> JObj d) \/ exists d, j = JObj d).
      { destruct j; eauto; left; discriminate. }
      destruct Hkind as [Hno | [d ->]].
      * destruct (upload_handler_not_object _ _ _ _ _ _ _ _ Hb Hm Hj Hno H)
          as [[[= ->] Hf] | [_ ?]]; [auto|discriminate].
      * destruct (dict_get "id" d) as [v|] eqn:Hid.
        2:{ rewrite (upload_handler_no_id cfg st data blob text (JObj d) Hb Hm Hj) in H.
            - injection H as <- <-. auto.
            - unfold contains_key, dict_has. rewrite Hid. reflexivity. }
        destruct (dict_get "hash" d) as [h|] eqn:Hh.
        2:{ rewrite (upload_handler_no_hash cfg st data blob text (JObj d) Hb Hm Hj) in H.
            - injection H as <- <-. auto.
            - unfold contains_key, dict_has. rewrite Hid. reflexivity.
            - unfold contains_key, dict_has. rewrite Hh. reflexivity. }
        assert (Hwf : well_formed data blob d) by (split; eauto).
        rewrite (upload_handler_well_formed cfg st data blob d v h Hwf Hid Hh) in H.
        destruct (verify_hash cfg && negb (verify_checksum h blob)) eqn:Hv.
        { injection H as <- <-. auto. }
        destruct v as [| | | | cid | |]; try discriminate.
        injection H as <- <-. right. exists blob, d, cid, h.
        repeat (split; [first [assumption | reflexivity]|]).
        split; [|repeat split].
        apply andb_false_iff in Hv. destruct Hv as [Hv|Hv]; [auto|].
        right. apply negb_false_iff in Hv. unfold verify_checksum in Hv.
        destruct h; try discriminate. apply String.eqb_eq in Hv. congruence.
    + rewrite (upload_handler_decoded cfg st data blob text Hb Hm), Hj in H.
      discriminate.
Qed.

End Raises.

(** ** Paths *)


(** Under one directory, [os.path.join] keeps relative names apart. *)
Lemma path_join_inj (a b b' : string) :
  startswith b "/" = false -> startswith b' "/" = false ->
  path_join a b = path_join a b' -> b = b'.
Proof.
  intros Hb Hb'. unfold path_join. rewrite Hb, Hb'.
  destruct (String.eqb a EmptyString || endswith_slash a); intros H.
  - exact (String.app_inj a _ _ H).
  - apply (String.app_inj a) in H. exact (String.app_inj "/" _ _ H).
Qed.


(** X17.  When the sender and the receiver use the same directory, the
    file the sender keeps and the file the receiver saves never have the
    same path, whatever the ids. *)
Theorem sender_and_receiver_files_differ config d cfg cid :
  Sender.save_dir config = Server.uploads_dir cfg ->
  Sender.sender_path config d <> Server.server_path cfg cid.
Proof.
  intros Hdir H. unfold Sender.sender_path, Server.server_path in H. rewrite Hdir in H.
  apply path_join_inj in H; [|reflexivity|reflexivity].
  cbv [String.append] in H. discriminate H.
Qed.

Section TwoUploads.
Import Json Server.


End TwoUploads.

(** ** The application *)

Section App.
Import Json Server.


End App.

(** ** One upload, end to end *)

Section Strip.
Import Sender.

Lemma rev_app_append (a b acc : string) :
  String.rev_app (a +:+ b) acc = String.rev_app b (String.rev_app a acc).
Proof.
  revert acc. induction a as [|x a IH]; intros acc; [reflexivity|].
  rewrite append_cons. cbn [String.rev_app]. apply IH.
Qed.

Lemma rev_app_rev_app (a b c : string) :
  String.rev_app (String.rev_app a b) c = String.rev_app b (a +:+ c).
Proof.
  revert b c. induction a as [|x a IH]; intros b c; [reflexivity|].
  cbn [String.rev_app]. rewrite IH. rewrite append_cons. reflexivity.
Qed.

(** [strip] leaves a text that neither starts nor ends with a space as it
    is. *)
Lemma strip_bracketed (c c' : ascii) (mid : string) :
  is_space c = false -> is_space c' = false ->
  strip (String c (mid +:+ String c' EmptyString)) = String c (mid +:+ String c' EmptyString).
Proof.
  intros Hc Hc'. unfold strip. cbn [lstrip]. rewrite Hc.
  unfold String.rev. cbn [String.rev_app]. rewrite rev_app_append.
  cbn [String.rev_app lstrip]. rewrite Hc'. cbn [String.rev_app].
  rewrite rev_app_rev_app. reflexivity.
Qed.

Lemma strip_dumps d : strip (Json.dumps d) = Json.dumps d.
Proof.
  unfold Json.dumps. rewrite append_cons, append_nil.
  apply strip_bracketed; reflexivity.
Qed.

(** The sender reads back the message of a [json_response]. *)
Lemma response_json_message (text : string) :
  plain text = true ->
  response_json (reply_of (Server.json_response [("message", text)])) =
  Ok (Json.JObj [("message", Json.JStr text)]).
Proof.
  intros Hp. unfold response_json, reply_of, Server.json_response.
  cbn [json_content_type body Server.content_type Server.body].
  change (String.eqb "application/json" "application/json") with true. cbn [negb].
  rewrite strip_dumps.
  rewrite (loads_dumps_single "message" text eq_refl Hp).
  destruct (String.eqb_spec (Json.dumps [("message", text)]) EmptyString) as [He|_];
    [|reflexivity].
  unfold Json.dumps in He. rewrite append_cons in He. discriminate He.
Qed.

Lemma plain_acknowledgement (n : nat) :
  plain ("Successfully received the " +:+ str_of_nat n +:+ " byte file") = true.
Proof. rewrite !plain_append, plain_str_of_nat. reflexivity. Qed.

(** [send_blob] from the acknowledgement of [upload_handler] on. *)
Lemma send_blob_finish_acknowledged name (n : nat) w :
  send_blob_finish name
    (Reply (reply_of (Server.json_response
                        [("message", "Successfully received the " +:+ str_of_nat n
                                       +:+ " byte file")]))) w =
  (logged (SentOk name (Json.JStr ("Successfully received the " +:+ str_of_nat n
                                     +:+ " byte file"))) w, Ok tt).
Proof.
  eapply send_blob_finish_ok.
  - reflexivity.
  - apply response_json_message, plain_acknowledgement.
  - reflexivity.
Qed.

End Strip.

Section Exchange.
Import Sender.

Variables (name : string) (config : SenderConfig) (d : send_draw) (cfg : Server.config).

(** What [upload_handler] makes of a request the sender posts. *)
Lemma upload_handler_on_sent blob sent st :
  Server.upload_handler cfg (form (request_for config d blob sent)) st =
  if Server.verify_hash cfg && negb (String.eqb (Sha256.hexdigest blob) (Sha256.hexdigest sent))
  then ({| Server.files := Server.files st;
           Server.log := Server.log st ++ [Server.HashMismatch; Server.SaveSkipped] |},
        Ok (Server.Response 400))
  else ({| Server.files := <[Server.server_path cfg (uuid4 (uuid_bits d)) := sent]>
                             (Server.files st);
           Server.log := Server.log st
                         ++ [Server.Wrote (length sent)
                               (Server.server_path cfg (uuid4 (uuid_bits d)))] |},
        Ok (Server.json_response
              [("message", "Successfully received the " +:+ str_of_nat (length sent)
                             +:+ " byte file")])).
Proof.
  rewrite (upload_handler_well_formed cfg st _ sent _ _ _
             (sent_request_is_well_formed config d blob sent) eq_refl eq_refl).
  reflexivity.
Qed.

(** X23.  A send without fault injection, handled by [upload_handler]
    with or without verification: the receiver saves the blob and
    acknowledges its length, and the sender logs that acknowledgement and
    returns; the sender's file holds the same blob. *)
Theorem clean_exchange blob w st :
  injected config d = false ->
  exchange name blob config d cfg w st =
  (logged (SentOk name (Json.JStr ("Successfully received the "
                                     +:+ str_of_nat (length blob) +:+ " byte file")))
     (after_prepare name config d [] blob blob w),
   {| Server.files := <[Server.server_path cfg (uuid4 (uuid_bits d)) := blob]>
                        (Server.files st);
      Server.log := Server.log st
                    ++ [Server.Wrote (length blob)
                          (Server.server_path cfg (uuid4 (uuid_bits d)))] |},
   Ok tt).
Proof.
  intros Hinj. unfold exchange.
  rewrite (send_blob_prepare_plain name config d blob w Hinj).
  cbn [p_request prepared_for].
  rewrite upload_handler_on_sent, String.eqb_refl, andb_false_r.
  rewrite send_blob_finish_acknowledged. reflexivity.
Qed.

(** X24.  With verification disabled, a send with the fault injected
    goes unnoticed: the receiver saves the corrupted bytes, which differ
    from the blob, and acknowledges them, and the sender logs a success. *)
Theorem unverified_exchange_stores_corruption blob sent w st :
  injected config d = true ->
  corrupt blob = Ok sent ->
  Server.verify_hash cfg = false ->
  sent <> blob
  /\ exchange name blob config d cfg w st =
     (logged (SentOk name (Json.JStr ("Successfully received the "
                                        +:+ str_of_nat (length sent) +:+ " byte file")))
        (after_prepare name config d [Corrupting name] blob sent w),
      {| Server.files := <[Server.server_path cfg (uuid4 (uuid_bits d)) := sent]>
                           (Server.files st);
         Server.log := Server.log st
                       ++ [Server.Wrote (length sent)
                             (Server.server_path cfg (uuid4 (uuid_bits d)))] |},
      Ok tt).
Proof.
  intros Hinj Hc Hv. split; [exact (corrupt_changes _ _ Hc)|].
  unfold exchange.
  rewrite (send_blob_prepare_corrupted name config d blob sent w Hinj Hc).
  cbn [p_request prepared_for].
  rewrite upload_handler_on_sent, Hv. cbn [andb].
  rewrite send_blob_finish_acknowledged. reflexivity.
Qed.

(** X25.  With verification enabled, a send with the fault injected
    (and no digest collision) is answered 400: the receiver saves nothing
    and logs the mismatch, the sender logs the status and returns. *)
Theorem verified_exchange_refuses_corruption blob sent w st :
  injected config d = true ->
  corrupt blob = Ok sent ->
  Server.verify_hash cfg = true ->
  Sha256.hexdigest sent <> Sha256.hexdigest blob ->
  exchange name blob config d cfg w st =
  (logged (BadStatus name 400) (after_prepare name config d [Corrupting name] blob sent w),
   {| Server.files := Server.files st;
      Server.log := Server.log st ++ [Server.HashMismatch; Server.SaveSkipped] |},
   Ok tt).
Proof.
  intros Hinj Hc Hv Hne. unfold exchange.
  rewrite (send_blob_prepare_corrupted name config d blob sent w Hinj Hc).
  cbn [p_request prepared_for].
  rewrite upload_handler_on_sent, Hv.
  destruct (String.eqb_spec (Sha256.hexdigest blob) (Sha256.hexdigest sent)) as [He|_];
    [congruence|].
  reflexivity.
Qed.

(** X26.  Against [upload_handler] a [send_blob] never raises because
    of the response.  It raises only before posting, when the injected fault
    cannot be applied: the blob is empty or its first byte is 255; then the
    receiver is not contacted. *)
Theorem exchange_never_dies_of_the_response blob w st w' st' e :
  exchange name blob config d cfg w st = (w', st', Raise e) ->
  injected config d = true
  /\ corrupt blob = Raise e
  /\ w' = logged (Corrupting name) w
  /\ st' = st
  /\ (blob = [] \/ exists rest, blob = xff :: rest).
Proof.
  unfold exchange.
  destruct (send_blob_prepare name blob config d w) as [w1 [p|e1]] eqn:Hp.
  - destruct (send_blob_prepare_cases _ _ _ _ _ _ _ Hp)
      as [(_ & -> & Hr) | [(sent & _ & _ & -> & Hr) | (e2 & _ & _ & _ & Hr)]];
      [| |discriminate]; injection Hr as ->; cbn [p_request prepared_for];
      rewrite upload_handler_on_sent;
      destruct (Server.verify_hash cfg && _);
      rewrite ?send_blob_finish_acknowledged; discriminate.
  - intros [= <- <- <-].
    destruct (send_blob_prepare_cases _ _ _ _ _ _ _ Hp)
      as [(_ & _ & Hr) | [(sent & _ & _ & _ & Hr) | (e2 & Hinj & Hc & -> & Hr)]];
      [discriminate|discriminate|].
    injection Hr as <-. repeat split; try assumption.
    destruct blob as [|b rest]; [auto|right].
    exists rest. f_equal. unfold corrupt in Hc.
    destruct (Byte.of_N (Byte.to_N b + 1)) eqn:Hb; [discriminate|].
    apply Byte.of_N_None_iff in Hb. pose proof (Byte.to_N_bounded b) as Hbound.
    assert (Hff : Byte.to_N b = Byte.to_N xff) by (cbn; lia).
    apply (f_equal Byte.of_N) in Hff. rewrite !Byte.of_to_N in Hff. congruence.
Qed.

End Exchange.

(** ** More of the pipeline *)



(** [send_blob] from the response on touches nothing but the log. *)
Lemma send_blob_finish_leaves name o w w' r :
  Sender.send_blob_finish name o w = (w', r) ->
  Sender.files w' = Sender.files w /\ Sender.posts w' = Sender.posts w.
Proof.
  unfold Sender.send_blob_finish. destruct o as [|response].
  - intros [= <- _]. auto.
  - destruct (Sender.status response =? 200).
    + run_io. destruct (Sender.response_json response) as [j|e]; cbn.
      * destruct (Json.getitem j "message") as [msg|e]; cbn; intros [= <- _]; auto.
      * intros [= <- _]. auto.
    + intros [= <- _]. auto.
Qed.


Section Pipeline2.
Import Sender.

Variable config : SenderConfig.



Lemma run_tasks_length tr s :
  run config tr s -> length (send_tasks s) = Z.to_nat (num_workers config).
Proof.
  induction 1 as [|tr s ev s' Hrun IH Hstep]; [apply length_replicate|].
  inversion Hstep; subst; cbn; rewrite ?length_insert; exact IH.
Qed.




End Pipeline2.


(** X8.  [generate_worker] never waits in [queue.put]: the queue's
    capacity is the number of blobs the provider yields, so when a blob is
    about to be put the queue is not full and the put goes through. *)
Theorem put_never_waits config tr s blob :
  Sender.run config tr s ->
  Sender.pc s = Sender.Putting blob ->
  Queue.full (Sender.queue s) = false
  /\ exists q', Queue.put blob (Sender.queue s) = Some q'
                /\ Sender.step config s (Sender.Put blob)
                     {| Sender.provider := Sender.provider s; Sender.queue := q';
                        Sender.send_tasks := Sender.send_tasks s;
                        Sender.env := Sender.env s; Sender.pc := Sender.Generating |}.
Proof.
  intros Hrun Hpc.
  destruct (run_fifo _ _ _ Hrun) as [Hfifo Hmax].
  destruct (run_provider _ _ _ Hrun) as (_ & _ & _ & Hput & _).
  destruct (Hput blob Hpc) as [Hcount Hle].
  assert (Hfull : Queue.full (Sender.queue s) = false).
  { unfold Queue.full, Queue.qsize. rewrite Hmax.
    destruct (Sender.num_files config <=? 0) eqn:H0; [reflexivity|].
    apply Z.leb_gt. apply (f_equal (@length _)) in Hfifo.
    rewrite length_app in Hfifo. lia. }
  split; [exact Hfull|].
  unfold Queue.put. rewrite Hfull. eexists. split; [reflexivity|].
  apply Sender.step_put; [exact Hpc|].
  unfold Queue.put. rewrite Hfull. reflexivity.
Qed.


Section Posts.
Import Sender.

Variable config : SenderConfig.

Lemma requests_app tr ev : requests (tr ++ [ev]) = requests tr ++ requests [ev].
Proof. unfold requests. rewrite starts_app, map_app. reflexivity. Qed.

Lemma holding_replicate_waiting n : holding (replicate n Waiting) = [].
Proof. induction n; [reflexivity|assumption]. Qed.

Lemma run_posts tr s :
  run config tr s ->
  posts (env s) = requests tr
  /\ (starts tr).*1 ++ holding (send_tasks s) ⊆+ gots tr.
Proof.
  induction 1 as [|tr s ev s' Hrun [IHp IHs] Hstep].
  { cbn. rewrite holding_replicate_waiting. split; reflexivity. }
  rewrite requests_app, starts_app, gots_app, fmap_app.
  inversion Hstep; subst; cbn [env send_tasks requests starts gots flat_map app fmap
                                list_fmap map logged info modify fst posts];
    rewrite ?app_nil_r;
    try (split; assumption).
  - (* get *)
    destruct (flat_map_insert holding_by _ _ _ (Holding blob) H) as (rest & Hh & Hh').
    fold (holding (send_tasks s)) in Hh.
    fold (holding (<[i := Holding blob]> (send_tasks s))) in Hh'.
    cbn [holding_by app] in Hh, Hh'.
    split; [assumption|].
    rewrite Hh'. rewrite Hh in IHs.
    rewrite <- Permutation_middle, <- (Permutation_cons_append (gots tr)).
    apply submseteq_skip. exact IHs.
  - (* start *)
    destruct (flat_map_insert holding_by _ _ _ t H) as (rest & Hh & Hh').
    fold (holding (send_tasks s)) in Hh.
    fold (holding (<[i := t]> (send_tasks s))) in Hh'.
    cbn [holding_by app] in Hh. rewrite Hh in IHs. rewrite Hh'.
    unfold worker_start in H0.
    destruct (send_blob_prepare (worker_name i) blob config d (env s)) as [w1 [p|e]] eqn:Hp;
      injection H0 as <- <- <-; cbn [holding_by app fmap list_fmap map fst];
      rewrite ?app_nil_r.
    + split.
      * destruct (send_blob_prepare_cases _ _ _ _ _ _ _ Hp)
          as [(_ & -> & Hr) | [(sent & _ & _ & -> & Hr) | (e & _ & _ & _ & Hr)]];
          [| |discriminate]; injection Hr as ->; cbn; rewrite IHp; reflexivity.
      * rewrite <- app_assoc. exact IHs.
    + split.
      * destruct (send_blob_prepare_cases _ _ _ _ _ _ _ Hp)
          as [(_ & _ & Hr) | [(sent & _ & _ & _ & Hr) | (e' & _ & _ & -> & Hr)]];
          [discriminate|discriminate|]. exact IHp.
      * etrans; [|exact IHs]. apply submseteq_app; [reflexivity|].
        apply submseteq_cons. reflexivity.
  - (* response *)
    destruct (flat_map_insert holding_by _ _ _ t H) as (rest & Hh & Hh').
    fold (holding (send_tasks s)) in Hh.
    fold (holding (<[i := t]> (send_tasks s))) in Hh'.
    cbn [holding_by app] in Hh. rewrite Hh in IHs. rewrite Hh'.
    unfold worker_resume in H0.
    destruct (send_blob_finish (worker_name i) o (env s)) as [w1 r] eqn:Hf.
    destruct (send_blob_finish_leaves _ _ _ _ _ Hf) as [_ Hposts].
    destruct r as [[]|e]; [destruct (Queue.task_done (queue s))|];
      injection H0 as <- <- <- <-; cbn [holding_by app fmap list_fmap map];
      rewrite ?app_nil_r; (split; [congruence|exact IHs]).
  - (* cancel *)
    destruct (flat_map_insert holding_by _ _ _ Exited H0) as (rest & Hh & Hh').
    fold (holding (send_tasks s)) in Hh.
    fold (holding (<[k := Exited]> (send_tasks s))) in Hh'.
    cbn [holding_by app] in Hh, Hh'.
    split; [assumption|]. rewrite Hh'. rewrite Hh in IHs. exact IHs.
Qed.

End Posts.

(** X12.  The requests posted are, in order, those of the sends that
    started; the blobs sent form a sub-multiset of the blobs taken from the
    queue, so no blob is sent twice, and at most [num_files] requests are
    posted. *)
Theorem each_blob_is_posted_at_most_once config tr s :
  Sender.run config tr s ->
  Sender.posts (Sender.env s) = Sender.requests tr
  /\ (Sender.starts tr).*1 ⊆+ Sender.gots tr
  /\ (length (Sender.posts (Sender.env s)) <= Z.to_nat (Sender.num_files config))%nat.
Proof.
  intros Hrun.
  destruct (run_posts _ _ _ Hrun) as [Hposts Hsub].
  destruct (run_fifo _ _ _ Hrun) as [Hfifo _].
  destruct (run_provider _ _ _ Hrun) as (_ & Hle & _).
  assert (Hstarts : (Sender.starts tr).*1 ⊆+ Sender.gots tr).
  { etrans; [|exact Hsub]. apply submseteq_inserts_r. reflexivity. }
  split; [exact Hposts|]. split; [exact Hstarts|].
  rewrite Hposts. unfold Sender.requests. rewrite length_map.
  apply submseteq_length in Hstarts. rewrite length_fmap in Hstarts.
  apply (f_equal (@length _)) in Hfifo. rewrite length_app in Hfifo. lia.
Qed.

Section Shutdown.
Import Sender.

Variable config : SenderConfig.

Local Abbreviation workers := (Z.to_nat (num_workers config)).

Lemma shutdown_lookup k m i t :
  (replicate k Exited ++ replicate m Waiting) !! i = Some t -> t = Exited \/ t = Waiting.
Proof.
  intros H. apply list_elem_of_lookup_2 in H. apply elem_of_app in H.
  destruct H as [H|H]; apply elem_of_replicate_inv in H; auto.
Qed.

Lemma shutdown_insert k m :
  <[k := Exited]> (replicate k Exited ++ replicate (S m) Waiting) =
  replicate (S k) Exited ++ replicate m Waiting.
Proof.
  rewrite insert_app_r_alt by (rewrite length_replicate; lia).
  rewrite length_replicate, Nat.sub_diag.
  rewrite (replicate_S_end k), <- app_assoc. reflexivity.
Qed.

Lemma all_waiting ts :
  Forall (fun t => t <> Exited) ts -> held ts = [] ->
  ts = replicate (length ts) Waiting.
Proof.
  induction 1 as [|t ts Ht Hts IH]; [reflexivity|].
  cbn. intros H. apply app_eq_nil in H. destruct H as [Ht' Hts'].
  rewrite <- (IH Hts'). destruct t; try discriminate; congruence.
Qed.

Lemma run_after_join tr s :
  run config tr s -> In Join tr ->
  Queue.items (queue s) = []
  /\ held (send_tasks s) = []
  /\ gots tr = puts tr
  /\ finishes tr ≡ₚ puts tr
  /\ length (puts tr) = Z.to_nat (num_files config).
Proof.
  intros Hrun Hjoin.
  destruct (run_fifo _ _ _ Hrun) as [Hfifo _].
  destruct (run_accounting _ _ _ Hrun) as (Hgots & Hacc & _).
  destruct (run_joined _ _ _ Hrun Hjoin) as (Hu & _).
  destruct (run_provider _ _ _ Hrun) as (_ & _ & _ & _ & Hall).
  destruct (run_phases _ _ _ Hrun) as (_ & _ & Hex).
  rewrite Hu in Hacc.
  destruct (Queue.items (queue s)) as [|? ?]; [|cbn in Hacc; lia].
  destruct (held (send_tasks s)) as [|? ?]; [|cbn in Hacc; lia].
  rewrite app_nil_r in Hfifo, Hgots.
  repeat split; auto. rewrite Hfifo. symmetry. exact Hgots.
Qed.

Lemma run_shutdown tr s :
  run config tr s ->
  match pc s with
  | Generating | Putting _ | Joining => Forall (fun t => t <> Exited) (send_tasks s)
  | Cancelling k =>
      In Join tr /\ (k <= workers)%nat
      /\ send_tasks s = replicate k Exited ++ replicate (workers - k) Waiting
      /\ forall i, (i < k)%nat -> In (WorkerDone (worker_name i)) (log (env s))
  | Complete =>
      In Join tr
      /\ send_tasks s = replicate workers Exited
      /\ (forall i, (i < workers)%nat -> In (WorkerDone (worker_name i)) (log (env s)))
      /\ exists l, log (env s) = l ++ [AllDone]
  | Aborted _ => True
  end.
Proof.
  induction 1 as [|tr s ev s' Hrun IH Hstep].
  { cbn. apply Forall_replicate. discriminate. }
  pose proof (run_tasks_length _ _ _ Hrun) as Hlen.
  assert (Hin : forall e, In e tr -> In e (tr ++ [ev])).
  { intros e H. apply in_or_app. auto. }
  inversion Hstep; subst; cbn [pc send_tasks env];
    try match goal with H : pc s = _ |- _ => rewrite H in IH end;
    try exact IH; try exact I.
  - (* join *)
    split; [apply in_or_app; right; left; reflexivity|].
    split; [lia|]. split; [|intros i Hi; lia].
    cbn [replicate app]. rewrite Nat.sub_0_r, <- Hlen.
    apply all_waiting; [exact IH|].
    destruct (run_accounting _ _ _ Hrun) as (_ & Hacc & _).
    unfold Queue.joined in *.
    match goal with H : (_ <=? 0) = true |- _ => apply Z.leb_le in H end.
    destruct (held (send_tasks s)); [reflexivity|].
    cbn [length] in Hacc. lia.
  - (* get *)
    destruct (pc s) eqn:Hpc; try exact I;
      try (apply Forall_insert; [exact IH|discriminate]).
    + destruct IH as (Hj & _).
      destruct (run_after_join _ _ Hrun Hj) as (Hitems & _).
      unfold Queue.get in *. rewrite Hitems in *. discriminate.
    + destruct IH as (Hj & _).
      destruct (run_after_join _ _ Hrun Hj) as (Hitems & _).
      unfold Queue.get in *. rewrite Hitems in *. discriminate.
  - (* start *)
    match goal with H : worker_start _ _ _ _ _ = _ |- _ =>
      apply worker_start_cases in H;
      destruct H as [(? & _ & -> & ->) | (? & _ & -> & ->)]
    end;
      (destruct (pc s) eqn:Hpc; try exact I;
       try (apply Forall_insert; [exact IH|discriminate]);
       [destruct IH as (_ & _ & Hts & _) | destruct IH as (_ & Hts & _)];
       rewrite Hts in *;
       match goal with
       | H : (_ ++ _) !! _ = Some _ |- _ =>
           apply shutdown_lookup in H; destruct H; discriminate
       | H : replicate _ _ !! _ = Some _ |- _ =>
           apply lookup_replicate_1 in H; destruct H; discriminate
       end).
  - (* response *)
    match goal with H : worker_resume _ _ _ _ _ = _ |- _ =>
      apply worker_resume_cases in H;
      destruct H as [(_ & _ & -> & ->) | (? & _ & -> & ->)]
    end;
      (destruct (pc s) eqn:Hpc; try exact I;
       try (apply Forall_insert; [exact IH|discriminate]);
       [destruct IH as (_ & _ & Hts & _) | destruct IH as (_ & Hts & _)];
       rewrite Hts in *;
       match goal with
       | H : (_ ++ _) !! _ = Some _ |- _ =>
           apply shutdown_lookup in H; destruct H; discriminate
       | H : replicate _ _ !! _ = Some _ |- _ =>
           apply lookup_replicate_1 in H; destruct H; discriminate
       end).
  - (* cancel *)
    destruct IH as (Hj & Hk & Hts & Hlog).
    match goal with H : send_tasks s !! k = Some Waiting |- _ =>
      pose proof (lookup_lt_Some _ _ _ H) as Hlt end.
    rewrite Hlen in Hlt.
    split; [auto|]. split; [lia|]. split.
    + rewrite Hts. replace (workers - k)%nat with (S (workers - S k)) by lia.
      apply shutdown_insert.
    + intros i Hi. cbn. apply in_or_app.
      destruct (decide (i = k)) as [->|Hne]; [right; left; reflexivity|].
      left. apply Hlog. lia.
  - (* exit *)
    destruct IH as (Hj & Hk & Hts & Hlog).
    rewrite Hlen in *.
    split; [auto|]. split.
    + rewrite Hts, Nat.sub_diag. apply app_nil_r.
    + split.
      * intros i Hi. cbn. apply in_or_app. left. apply Hlog. exact Hi.
      * cbn. eexists. reflexivity.
Qed.

End Shutdown.

Section Completion.
Import Sender.

Variable config : SenderConfig.

Local Abbreviation workers := (Z.to_nat (num_workers config)).





End Completion.




Section Idle.
Import Sender.

Variable config : SenderConfig.

Lemma run_no_workers tr s :
  num_workers config <= 0 -> run config tr s -> gots tr = [].
Proof.
  intros Hw. induction 1 as [|tr s ev s' Hrun IH Hstep]; [reflexivity|].
  rewrite gots_app, IH.
  pose proof (run_tasks_length _ _ _ Hrun) as Hlen.
  inversion Hstep; subst; try reflexivity.
  - match goal with H : send_tasks s !! _ = Some _ |- _ =>
      apply lookup_lt_Some in H; lia end.
  - match goal with H : send_tasks s !! _ = Some _ |- _ =>
      apply lookup_lt_Some in H; lia end.
  - match goal with H : send_tasks s !! _ = Some _ |- _ =>
      apply lookup_lt_Some in H; lia end.
Qed.

(** Until a send has started, the sender's disk is empty. *)
Lemma run_no_starts tr s :
  run config tr s -> starts tr = [] -> files (env s) = ∅.
Proof.
  induction 1 as [|tr s ev s' Hrun IH Hstep]; [reflexivity|].
  rewrite starts_app. intros H. apply app_eq_nil in H. destruct H as [Htr Hev].
  specialize (IH Htr).
  inversion Hstep; subst; cbn [env logged info modify fst files]; try exact IH.
  - match goal with H : worker_start _ _ _ _ _ = _ |- _ =>
      apply worker_start_cases in H;
      destruct H as [(p & _ & _ & ->) | (e & Hp & _ & _)]
    end; [discriminate Hev|].
    destruct (send_blob_prepare_cases _ _ _ _ _ _ _ Hp)
      as [(_ & _ & Hr) | [(sent & _ & _ & _ & Hr) | (e' & _ & _ & -> & _)]];
      [discriminate|discriminate|exact IH].
  - match goal with H : worker_resume _ _ _ _ _ = _ |- _ =>
      unfold worker_resume in H;
      destruct (send_blob_finish (worker_name i) o (env s)) as [w1 r] eqn:Hf;
      destruct (send_blob_finish_leaves _ _ _ _ _ Hf) as [Hfiles _];
      destruct r as [[]|e]; [destruct (Queue.task_done (queue s))|];
      injection H as <- _ _ _; congruence
    end.
Qed.

End Idle.

(** X10.  With no worker ([num_workers <= 0]) and at least one file,
    [queue.join()] never returns and [main] never completes: nothing is
    taken from the queue, posted or written. *)
Theorem main_without_workers_never_joins config tr s :
  Sender.num_workers config <= 0 ->
  1 <= Sender.num_files config ->
  Sender.run config tr s ->
  ~ In Sender.Join tr
  /\ Sender.pc s <> Sender.Complete
  /\ Sender.gots tr = []
  /\ Sender.posts (Sender.env s) = []
  /\ Sender.files (Sender.env s) = ∅.
Proof.
  intros Hw Hn Hrun.
  pose proof (run_no_workers _ _ _ Hw Hrun) as Hgots.
  assert (Hjoin : ~ In Sender.Join tr).
  { intros Hj. destruct (run_after_join _ _ _ Hrun Hj) as (_ & _ & Hgp & _ & Hlen).
    rewrite <- Hgp, Hgots in Hlen. cbn in Hlen. lia. }
  destruct (run_posts _ _ _ Hrun) as [Hposts Hsub].
  assert (Hstarts : Sender.starts tr = []).
  { rewrite Hgots in Hsub. apply submseteq_nil_r in Hsub.
    apply app_eq_nil in Hsub. destruct Hsub as [Hs _].
    apply fmap_nil_inv in Hs. exact Hs. }
  split; [exact Hjoin|]. split.
  - intros Hpc. pose proof (run_shutdown _ _ _ Hrun) as Hshut.
    rewrite Hpc in Hshut. tauto.
  - split; [exact Hgots|]. split.
    + rewrite Hposts. unfold Sender.requests. rewrite Hstarts. reflexivity.
    + exact (run_no_starts _ _ _ Hrun Hstarts).
Qed.

(** X11.  With [num_files <= 0] the provider yields nothing: no blob is
    put, no send starts, nothing is posted and the disk stays empty. *)
Theorem nothing_to_send config tr s :
  Sender.num_files config <= 0 ->
  Sender.run config tr s ->
  Sender.puts tr = []
  /\ Sender.starts tr = []
  /\ Sender.posts (Sender.env s) = []
  /\ Sender.files (Sender.env s) = ∅.
Proof.
  intros Hn Hrun.
  destruct (run_provider _ _ _ Hrun) as (_ & Hle & _).
  destruct (run_fifo _ _ _ Hrun) as [Hfifo _].
  destruct (run_posts _ _ _ Hrun) as [Hposts Hsub].
  assert (Hputs : Sender.puts tr = []).
  { destruct (Sender.puts tr); [reflexivity|]. cbn in Hle. lia. }
  assert (Hstarts : Sender.starts tr = []).
  { rewrite Hputs in Hfifo. symmetry in Hfifo. apply app_eq_nil in Hfifo.
    destruct Hfifo as [Hgots _]. rewrite Hgots in Hsub.
    apply submseteq_nil_r in Hsub. apply app_eq_nil in Hsub. destruct Hsub as [Hs _].
    apply fmap_nil_inv in Hs. exact Hs. }
  split; [exact Hputs|]. split; [exact Hstarts|]. split.
  - rewrite Hposts. unfold Sender.requests. rewrite Hstarts. reflexivity.
  - exact (run_no_starts _ _ _ Hrun Hstarts).
Qed.

(** ** The response *)
(** X6.  [send_blob] returns from a response exactly in two cases: the
    status is not 200, and the status is logged; or the status is 200, the
    content type is JSON and the body, stripped, decodes to an object with a
    [message], which is logged.  On any other response it raises. *)
Theorem send_blob_returns_iff name response w w' :
  Sender.send_blob_finish name (Sender.Reply response) w = (w', Ok tt) <->
  (Sender.status response <> 200
   /\ w' = Sender.logged (Sender.BadStatus name (Sender.status response)) w)
  \/ (Sender.status response = 200
      /\ Sender.json_content_type response = true
      /\ exists d msg,
           Json.loads (Sender.strip (Sender.body response)) = Some (Json.JObj d)
           /\ dict_get "message" d = Some msg
           /\ w' = Sender.logged (Sender.SentOk name msg) w).
Proof.
  unfold Sender.send_blob_finish.
  destruct (Sender.status response =? 200) eqn:Hs.
  - apply Z.eqb_eq in Hs. run_io. unfold Sender.response_json.
    destruct (Sender.json_content_type response); cbn [negb].
    2:{ cbn. split; [discriminate|].
        intros [[Hne _] | (_ & Hc & _)]; [congruence|discriminate]. }
    destruct (String.eqb_spec (Sender.strip (Sender.body response)) EmptyString) as [He|He].
    { cbn. split; [discriminate|].
      intros [[Hne _] | (_ & _ & d & msg & Hl & _)]; [congruence|].
      rewrite He in Hl. vm_compute in Hl. discriminate. }
    destruct (Json.loads (Sender.strip (Sender.body response))) as [j|]; cbn.
    2:{ split; [discriminate|].
        intros [[Hne _] | (_ & _ & d & msg & Hl & _)]; [congruence|discriminate]. }
    unfold Json.getitem.
    destruct j as [| | | | | | d];
      try (cbn; split; [discriminate|];
           intros [[Hne _] | (_ & _ & d & msg & Hl & _)]; [congruence|discriminate]).
    destruct (dict_get "message" d) as [msg|] eqn:Hm; cbn.
    + split.
      * intros [= <-]. right. split; [assumption|]. split; [reflexivity|].
        exists d, msg. auto.
      * intros [[Hne _] | (_ & _ & d' & msg' & [= <-] & Hm' & ->)]; [congruence|].
        rewrite Hm in Hm'. injection Hm' as <-. reflexivity.
    + split; [discriminate|].
      intros [[Hne _] | (_ & _ & d' & msg' & [= <-] & Hm' & _)]; congruence.
  - apply Z.eqb_neq in Hs. cbn. split.
    + intros [= <-]. left. auto.
    + intros [[_ ->] | (He & _)]; [reflexivity|congruence].
Qed.

(** ** verify_checksum *)

Lemma length_be_bytes n z : length (Sha256.be_bytes n z) = n.
Proof. induction n as [|n IH]; cbn; [reflexivity|]. rewrite IH. reflexivity. Qed.

Lemma length_digest msg : length (Sha256.digest msg) = 32%nat.
Proof.
  unfold Sha256.digest. cbv zeta. cbn [flat_map].
  rewrite !length_app, !length_be_bytes. reflexivity.
Qed.

Lemma lower_hex_append (a b : string) : lower_hex (a +:+ b) = lower_hex a && lower_hex b.
Proof.
  induction a as [|c a IH]; [reflexivity|].
  rewrite append_cons. cbn [lower_hex]. rewrite IH. apply andb_assoc.
Qed.

Lemma lower_hex_hex bs :
  lower_hex (Sha256.hex bs) = true
  /\ String.length (Sha256.hex bs) = (2 * length bs)%nat.
Proof.
  induction bs as [|b bs [IH1 IH2]]; [split; reflexivity|].
  cbn [Sha256.hex]. rewrite lower_hex_append, length_append, IH1, IH2. split.
  - destruct b; reflexivity.
  - cbn [Sha256.hex_byte String.length length]. lia.
Qed.

(** X22.  [verify_checksum] accepts a declared hash only if it is a
    string, equal to the hex digest of the bytes: 64 characters, all of them
    digits or lower-case [a-f]. *)
Theorem verify_checksum_accepts_only_the_digest checksum blob :
  Server.verify_checksum checksum blob = true ->
  exists s, checksum = Json.JStr s
            /\ s = Sha256.hexdigest blob
            /\ String.length s = 64%nat
            /\ lower_hex s = true.
Proof.
  unfold Server.verify_checksum. destruct checksum as [| | | | s | |]; try discriminate.
  intros H. apply String.eqb_eq in H. subst s.
  exists (Sha256.hexdigest blob). split; [reflexivity|]. split; [reflexivity|].
  unfold Sha256.hexdigest.
  destruct (lower_hex_hex (Sha256.digest blob)) as [Hhex Hlen].
  rewrite Hlen, length_digest. auto.
Qed.

(** ** The provider, again *)

Section ProviderEdges.
Import Sender.

(** X27.  A loop over a provider starts from [__iter__], which resets
    the count: whatever the count was, for example after an earlier loop,
    the loop yields [N] blobs of sizes in range again. *)
Theorem provider_is_reusable (self : RandomBlobProvider) (draws : nat -> blob_draw) :
  0 <= min_size self < max_size self ->
  0 <= N self ->
  exists blobs,
    (forall fuel, (Z.to_nat (N self) < fuel)%nat ->
       for_each fuel self draws = Some (blobs, Ok tt))
    /\ Z.of_nat (length blobs) = N self
    /\ Forall (fun blob => min_size self <= Z.of_nat (length blob) < max_size self) blobs.
Proof.
  intros Hsz HN.
  destruct (iterate_remaining (Z.to_nat (N self)) (iter self) draws 0%nat)
    as (blobs & Hrun & Hlen & Hall); [cbn; lia | cbn; lia | cbn; lia |].
  exists blobs. split; [exact Hrun|]. split; [lia|exact Hall].
Qed.

(** X28.  A provider whose size range is empty
    ([max_size <= min_size]) is accepted by the constructor; the loop over it
    raises [ValueError] at the first blob, or ends at once when [N < 1]. *)
Theorem provider_with_an_empty_range min_size max_size N draws fuel :
  max_size <= min_size ->
  for_each (S fuel) (init min_size max_size N) draws =
  Some ([], if N <? 1 then Ok tt else Raise ValueError).
Proof.
  intros Hle. unfold for_each, iter, init. cbn [iterate]. unfold next.
  cbn [count Sender.N Sender.min_size Sender.max_size]. change (0 + 1) with 1.
  destruct (N <? 1) eqn:HN; [reflexivity|].
  unfold randrange. destruct (max_size <=? min_size) eqn:H; [reflexivity|lia].
Qed.

End ProviderEdges.

(** ** The application's routes *)

Section Routes.
Import Server.

Lemma resolve_create_app config method path :
  resolve (create_app config) method path =
  if String.eqb path "/uploads"
  then if String.eqb method "POST" then Matched else MethodNotAllowed
  else NotFound.
Proof.
  unfold resolve, create_app. cbn [router existsb route_path route_method].
  rewrite (String.eqb_sym "/uploads" path), (String.eqb_sym "POST" method).
  destruct (String.eqb path "/uploads"), (String.eqb method "POST"); reflexivity.
Qed.

(** X19.  The application has one route: a request other than a POST to
    [/uploads] does not reach [upload_handler]; it is answered 405 (another
    method on [/uploads]) or 404 (another path), and the state is left as it
    was. *)
Theorem other_requests_change_nothing config req st :
  http_method req <> "POST" \/ http_path req <> "/uploads" ->
  exists resp,
    handle (create_app config) req st = (st, Ok resp)
    /\ status resp = (if String.eqb (http_path req) "/uploads" then 405 else 404)
    /\ content_type resp <> Some "application/json".
Proof.
  intros Hother. unfold handle. rewrite resolve_create_app.
  destruct (String.eqb_spec (http_path req) "/uploads") as [Hp|Hp].
  - destruct (String.eqb_spec (http_method req) "POST") as [Hm|Hm]; [tauto|].
    eexists. split; [reflexivity|]. split; [reflexivity|discriminate].
  - eexists. split; [reflexivity|]. split; [reflexivity|discriminate].
Qed.


End Routes.

(** ** The scripts *)

Lemma log_handlers_not_empty logfile disable format :
  negb (given logfile) && disable = false ->
  log_handlers logfile disable format <> [].
Proof.
  unfold log_handlers. intros H.
  destruct disable; cbn [negb]; [|intros Hn; apply app_eq_nil in Hn; destruct Hn; discriminate].
  rewrite andb_true_r in H. apply negb_false_iff in H.
  destruct logfile as [path|]; [|discriminate]. rewrite H. discriminate.
Qed.

(** X20.  When [server.py] goes on to serve, the logger has a
    handler (a log file was given or the standard output is not disabled),
    it listens on the address and port given, and a POST to [/uploads] is
    handled as [upload_handler] with the uploads directory given and
    checksum verification on unless it was disabled. *)
Theorem server_script_serves_upload_handler args handlers app host port :
  ServerScript.script args = ServerScript.RunApp handlers app host port ->
  handlers <> []
  /\ (given (ServerScript.logfile args) = true
      \/ ServerScript.disable_stdout_logging args = false)
  /\ host = ServerScript.address args /\ port = ServerScript.port args
  /\ forall req st,
       Server.http_method req = "POST" -> Server.http_path req = "/uploads" ->
       Server.handle app req st =
       Server.upload_handler
         {| Server.uploads_dir := ServerScript.uploads_dir args;
            Server.verify_hash := negb (ServerScript.disable_checksum_verification args) |}
         (Server.http_form req) st.
Proof.
  unfold ServerScript.script.
  destruct (negb (given (ServerScript.logfile args))
            && ServerScript.disable_stdout_logging args) eqn:Hlog; [discriminate|].
  intros [= <- <- <- <-].
  split; [apply log_handlers_not_empty; exact Hlog|]. split.
  - apply andb_false_iff in Hlog. destruct Hlog as [H|H]; [left|right; exact H].
    apply negb_false_iff in H. exact H.
  - split; [reflexivity|]. split; [reflexivity|].
    intros req st Hm Hp. unfold Server.handle.
    rewrite resolve_create_app, Hm, Hp. reflexivity.
Qed.

(** X21.  When [sender.py] goes on to [main], the logger has a handler,
    and the URL it posts to is [http://<address>:<port>] followed by the
    path of the one route, a POST route, that [create_app] registers. *)
Theorem sender_script_runs_main args handlers config :
  SenderScript.script args = SenderScript.Main handlers config ->
  handlers <> []
  /\ (given (SenderScript.logfile args) = true
      \/ SenderScript.disable_stdout_logging args = false)
  /\ forall receiver,
       exists r,
         Server.router (Server.create_app receiver) = [r]
         /\ Server.route_method r = "POST"
         /\ Sender.url config =
            ("http://" +:+ SenderScript.address args +:+ ":"
               +:+ str_of_int (SenderScript.port args)) +:+ Server.route_path r.
Proof.
  unfold SenderScript.script.
  destruct (negb (given (SenderScript.logfile args))
            && SenderScript.disable_stdout_logging args) eqn:Hlog; [discriminate|].
  intros [= <- <-].
  split; [apply log_handlers_not_empty; exact Hlog|]. split.
  - apply andb_false_iff in Hlog. destruct Hlog as [H|H]; [left|right; exact H].
    apply negb_false_iff in H. exact H.
  - intros receiver. eexists. split; [reflexivity|]. split; [reflexivity|].
    cbn [Sender.url Server.route_path]. rewrite !append_assoc. reflexivity.
Qed.

Example sender_script_defaults :
  SenderScript.script SenderScript.defaults =
  SenderScript.Main
    [StreamHandler "[SENDER][%(levelname)s][%(asctime)s] - %(message)s"]
    {| Sender.num_files := 100; Sender.num_workers := 10;
       Sender.url := "http://127.0.0.1:8000/uploads"; Sender.save_dir := "/tmp";
       Sender.inject_bad_checksums := false |}.
Proof. vm_compute. reflexivity. Qed.

Example server_script_cases :
  ServerScript.script ServerScript.defaults =
  ServerScript.RunApp
    [StreamHandler "[SERVER][%(levelname)s][%(asctime)s] - %(message)s"]
    (Server.create_app [("uploads_dir", Server.VStr "/tmp");
                        ("verify_hash", Server.VBool true)])
    "127.0.0.1" 8000
  /\ ServerScript.script
       {| ServerScript.address := "0.0.0.0"; ServerScript.port := 80;
          ServerScript.logfile := Some EmptyString; ServerScript.uploads_dir := "/srv";
          ServerScript.disable_stdout_logging := true;
          ServerScript.disable_checksum_verification := true |} =
     ServerScript.Exit "You must log either to stdout or provide a logfile" 1
  /\ ServerScript.script
       {| ServerScript.address := "0.0.0.0"; ServerScript.port := 80;
          ServerScript.logfile := Some "server.log"; ServerScript.uploads_dir := "/srv";
          ServerScript.disable_stdout_logging := true;
          ServerScript.disable_checksum_verification := true |} =
     ServerScript.RunApp
       [FileHandler "server.log" "[SERVER][%(levelname)s][%(asctime)s] - %(message)s"]
       (Server.create_app [("uploads_dir", Server.VStr "/srv");
                           ("verify_hash", Server.VBool false)])
       "0.0.0.0" 80.
Proof. repeat split. Qed.

(** ** Runs of small configurations *)

Lemma putting_run :
  exists s,
    Sender.run one_file_config putting_trace s /\ Sender.pc s = Sender.Putting kilobyte.
Proof.
  eexists. split.
  - eapply (Sender.run_step _ [] _ (Sender.Produce kilobyte)).
    + apply Sender.run_initial.
    + eapply (Sender.step_produce _ _ (zero_draws 0%nat)); reflexivity.
  - reflexivity.
Qed.

Lemma stuck_run : exists s, Sender.run no_worker_config stuck_trace s.
Proof.
  eexists.
  eapply (Sender.run_step _ [_; _] _ Sender.Exhausted).
  eapply (Sender.run_step _ [_] _ (Sender.Put kilobyte)).
  eapply (Sender.run_step _ [] _ (Sender.Produce kilobyte)).
  - apply Sender.run_initial.
  - eapply (Sender.step_produce _ _ (zero_draws 0%nat)); reflexivity.
  - eapply Sender.step_put; reflexivity.
  - eapply (Sender.step_exhausted _ _ (zero_draws 1%nat)); reflexivity.
Qed.

Lemma idle_run : exists s, Sender.run no_file_config idle_trace s.
Proof.
  eexists.
  eapply (Sender.run_step _ [_; _; _] _ Sender.Exit).
  eapply (Sender.run_step _ [_; _] _ (Sender.Cancel 0)).
  eapply (Sender.run_step _ [_] _ Sender.Join).
  eapply (Sender.run_step _ [] _ Sender.Exhausted).
  - apply Sender.run_initial.
  - eapply (Sender.step_exhausted _ _ (zero_draws 0%nat)); reflexivity.
  - eapply Sender.step_join; reflexivity.
  - eapply (Sender.step_cancel _ _ 0%nat); reflexivity.
  - eapply (Sender.step_exit _ _ 1%nat); reflexivity.
Qed.

(** ** The properties above on concrete inputs *)


Lemma put_never_waits_witness :
  exists s,
    Sender.run one_file_config putting_trace s
    /\ Queue.full (Sender.queue s) = false.
Proof.
  destruct putting_run as (s & Hrun & Hpc). exists s. split; [exact Hrun|].
  exact (proj1 (put_never_waits one_file_config putting_trace s kilobyte Hrun Hpc)).
Defined.


Lemma main_without_workers_never_joins_witness :
  exists s,
    Sender.run no_worker_config stuck_trace s
    /\ Sender.pc s <> Sender.Complete
    /\ Sender.posts (Sender.env s) = [].
Proof.
  destruct stuck_run as (s & Hrun). exists s. split; [exact Hrun|].
  destruct (main_without_workers_never_joins no_worker_config stuck_trace s)
    as (_ & Hpc & _ & Hposts & _); [cbn; lia|cbn; lia|exact Hrun|].
  split; [exact Hpc|exact Hposts].
Defined.

Lemma nothing_to_send_witness :
  exists s,
    Sender.run no_file_config idle_trace s
    /\ Sender.posts (Sender.env s) = []
    /\ Sender.files (Sender.env s) = ∅.
Proof.
  destruct idle_run as (s & Hrun). exists s. split; [exact Hrun|].
  destruct (nothing_to_send no_file_config idle_trace s) as (_ & _ & Hposts & Hfiles);
    [cbn; lia|exact Hrun|].
  split; [exact Hposts|exact Hfiles].
Defined.

Lemma each_blob_is_posted_at_most_once_witness :
  exists s,
    Sender.run one_file_config one_file_trace s
    /\ Sender.posts (Sender.env s) = [Sender.p_request kilobyte_send]
    /\ (length (Sender.posts (Sender.env s)) <= 1)%nat.
Proof.
  destruct one_file_run as (s & Hrun). exists s. split; [exact Hrun|].
  destruct (each_blob_is_posted_at_most_once one_file_config one_file_trace s Hrun)
    as (Hposts & _ & Hle).
  split; [exact Hposts|exact Hle].
Defined.



Lemma acknowledged_upload_was_valid_witness :
  exists st' resp,
    Server.upload_handler strict_config good_request fresh_state = (st', Ok resp)
    /\ ((resp = Server.Response 400 /\ Server.files st' = Server.files fresh_state)
        \/ (exists blob d cid h,
              Server.well_formed good_request blob d
              /\ dict_get "id" d = Some (Json.JStr cid)
              /\ dict_get "hash" d = Some h
              /\ (Server.verify_hash strict_config = false
                  \/ h = Json.JStr (Sha256.hexdigest blob))
              /\ resp = Server.json_response
                          [("message", "Successfully received the "
                                         +:+ str_of_nat (length blob) +:+ " byte file")]
              /\ Server.files st' =
                 <[Server.server_path strict_config cid := blob]> (Server.files fresh_state)
              /\ Server.log st' =
                 Server.log fresh_state
                 ++ [Server.Wrote (length blob) (Server.server_path strict_config cid)])).
Proof.
  destruct (Server.upload_handler strict_config good_request fresh_state)
    as [st' [resp|e]] eqn:H; [|vm_compute in H; discriminate H].
  exists st', resp. split; [reflexivity|].
  exact (acknowledged_upload_was_valid strict_config good_request fresh_state st' resp H).
Defined.


Lemma sender_and_receiver_files_differ_witness :
  Sender.sender_path one_file_config low_draw <> Server.server_path strict_config "b1".
Proof.
  apply (sender_and_receiver_files_differ one_file_config low_draw strict_config "b1").
  reflexivity.
Defined.


Lemma other_requests_change_nothing_witness :
  exists resp,
    Server.handle (Server.create_app []) get_uploads fresh_state = (fresh_state, Ok resp)
    /\ Server.status resp = 405
    /\ Server.content_type resp <> Some "application/json".
Proof.
  apply (other_requests_change_nothing [] get_uploads fresh_state).
  left. discriminate.
Defined.

Lemma server_script_serves_upload_handler_witness :
  [StreamHandler "[SERVER][%(levelname)s][%(asctime)s] - %(message)s"] <> []
  /\ (given None = true \/ false = false)
  /\ "127.0.0.1" = "127.0.0.1" /\ 8000 = 8000
  /\ forall req st,
       Server.http_method req = "POST" -> Server.http_path req = "/uploads" ->
       Server.handle
         (Server.create_app [("uploads_dir", Server.VStr "/tmp");
                             ("verify_hash", Server.VBool true)]) req st =
       Server.upload_handler strict_config (Server.http_form req) st.
Proof.
  apply (server_script_serves_upload_handler ServerScript.defaults).
  reflexivity.
Defined.

Lemma sender_script_runs_main_witness :
  [StreamHandler "[SENDER][%(levelname)s][%(asctime)s] - %(message)s"] <> []
  /\ (given None = true \/ false = false)
  /\ forall receiver,
       exists r,
         Server.router (Server.create_app receiver) = [r]
         /\ Server.route_method r = "POST"
         /\ "http://127.0.0.1:8000/uploads" =
            ("http://" +:+ "127.0.0.1" +:+ ":" +:+ str_of_int 8000) +:+ Server.route_path r.
Proof.
  apply (sender_script_runs_main SenderScript.defaults
           [StreamHandler "[SENDER][%(levelname)s][%(asctime)s] - %(message)s"]
           {| Sender.num_files := 100; Sender.num_workers := 10;
              Sender.url := "http://127.0.0.1:8000/uploads"; Sender.save_dir := "/tmp";
              Sender.inject_bad_checksums := false |}).
  vm_compute. reflexivity.
Defined.

Lemma verify_checksum_accepts_only_the_digest_witness :
  exists s,
    Json.JStr "ba7816bf8f01cfea414140de5dae2223b00361a396177a9cb410ff61f20015ad"
    = Json.JStr s
    /\ s = Sha256.hexdigest abc
    /\ String.length s = 64%nat
    /\ lower_hex s = true.
Proof.
  apply (verify_checksum_accepts_only_the_digest
           (Json.JStr "ba7816bf8f01cfea414140de5dae2223b00361a396177a9cb410ff61f20015ad")
           abc).
  vm_compute. reflexivity.
Defined.

Lemma clean_exchange_witness :
  exchange "W0" kilobyte one_file_config low_draw strict_config Sender.empty_world
    fresh_state =
  (Sender.logged
     (Sender.SentOk "W0"
        (Json.JStr ("Successfully received the " +:+ str_of_nat (length kilobyte)
                      +:+ " byte file")))
     (Sender.after_prepare "W0" one_file_config low_draw [] kilobyte kilobyte
        Sender.empty_world),
   {| Server.files :=
        <[Server.server_path strict_config (Sender.uuid4 (Sender.uuid_bits low_draw))
          := kilobyte]> (Server.files fresh_state);
      Server.log :=
        Server.log fresh_state
        ++ [Server.Wrote (length kilobyte)
              (Server.server_path strict_config
                 (Sender.uuid4 (Sender.uuid_bits low_draw)))] |},
   Ok tt).
Proof.
  apply (clean_exchange "W0" one_file_config low_draw strict_config kilobyte
           Sender.empty_world fresh_state).
  reflexivity.
Defined.

Lemma unverified_exchange_stores_corruption_witness :
  zeros_blob_corrupted <> zeros_blob
  /\ exchange "W0" zeros_blob injecting_config low_draw lax_config Sender.empty_world
       fresh_state =
     (Sender.logged
        (Sender.SentOk "W0"
           (Json.JStr ("Successfully received the "
                         +:+ str_of_nat (length zeros_blob_corrupted) +:+ " byte file")))
        (Sender.after_prepare "W0" injecting_config low_draw [Sender.Corrupting "W0"]
           zeros_blob zeros_blob_corrupted Sender.empty_world),
      {| Server.files :=
           <[Server.server_path lax_config (Sender.uuid4 (Sender.uuid_bits low_draw))
             := zeros_blob_corrupted]> (Server.files fresh_state);
         Server.log :=
           Server.log fresh_state
           ++ [Server.Wrote (length zeros_blob_corrupted)
                 (Server.server_path lax_config
                    (Sender.uuid4 (Sender.uuid_bits low_draw)))] |},
      Ok tt).
Proof.
  apply (unverified_exchange_stores_corruption "W0" injecting_config low_draw lax_config
           zeros_blob zeros_blob_corrupted Sender.empty_world fresh_state);
    reflexivity.
Defined.

Lemma verified_exchange_refuses_corruption_witness :
  exchange "W0" zeros_blob injecting_config low_draw strict_config Sender.empty_world
    fresh_state =
  (Sender.logged (Sender.BadStatus "W0" 400)
     (Sender.after_prepare "W0" injecting_config low_draw [Sender.Corrupting "W0"]
        zeros_blob zeros_blob_corrupted Sender.empty_world),
   {| Server.files := Server.files fresh_state;
      Server.log := Server.log fresh_state ++ [Server.HashMismatch; Server.SaveSkipped] |},
   Ok tt).
Proof.
  apply (verified_exchange_refuses_corruption "W0" injecting_config low_draw strict_config
           zeros_blob zeros_blob_corrupted Sender.empty_world fresh_state).
  - reflexivity.
  - reflexivity.
  - reflexivity.
  - vm_compute. discriminate.
Defined.

Lemma exchange_never_dies_of_the_response_witness :
  Sender.injected injecting_config low_draw = true
  /\ Sender.corrupt ff_blob = Raise ValueError
  /\ Sender.logged (Sender.Corrupting "W0") Sender.empty_world =
     Sender.logged (Sender.Corrupting "W0") Sender.empty_world
  /\ fresh_state = fresh_state
  /\ (ff_blob = [] \/ exists rest, ff_blob = xff :: rest).
Proof.
  apply (exchange_never_dies_of_the_response "W0" injecting_config low_draw strict_config
           ff_blob Sender.empty_world fresh_state
           (Sender.logged (Sender.Corrupting "W0") Sender.empty_world) fresh_state
           ValueError).
  vm_compute. reflexivity.
Defined.

Lemma provider_is_reusable_witness :
  exists blobs,
    (forall fuel, (Z.to_nat 3 < fuel)%nat ->
       Sender.for_each fuel used_provider zero_draws = Some (blobs, Ok tt))
    /\ Z.of_nat (length blobs) = 3
    /\ Forall (fun blob => 2 <= Z.of_nat (length blob) < 5) blobs.
Proof.
  apply (provider_is_reusable used_provider zero_draws); cbn; lia.
Defined.

Lemma provider_with_an_empty_range_witness :
  Sender.for_each 1 (Sender.init 5 5 1) zero_draws = Some ([], Raise ValueError).
Proof.
  apply (provider_with_an_empty_range 5 5 1 zero_draws 0). lia.
Defined.
